(** * Household-services marketplace: the service-request lifecycle

    A shallow embedding of [app/models.py], [app/routes/customer.py] and
    [app/routes/admin.py].  Tables are finite maps from primary key to
    row, a route is a function from the database before the request to
    the HTTP outcome and the database after it. *)

From stdpp Require Import base option gmap strings list fin_maps pretty
  sorting.
From Stdlib Require Import ZArith Lia.

Local Open Scope Z_scope.

(** ** app/models.py *)

(** [class ServiceStatus(enum.Enum)] *)
Inductive ServiceStatus : Set :=
  | REQUESTED
  | ACCEPTED
  | REJECTED
  | CLOSED
  | PAID.

#[global] Instance ServiceStatus_eq_dec : EqDecision ServiceStatus.
Proof. solve_decision. Defined.

(** A [db.DateTime] value, as a point on the time line. *)
Definition datetime : Type := Z.

(** An INTEGER of SQLite: a Python [int] in the signed 64-bit range. *)
Definition sqlite_integer (z : Z) : Prop := - 2 ^ 63 ≤ z < 2 ^ 63.

#[global] Instance sqlite_integer_dec z : Decision (sqlite_integer z).
Proof. unfold sqlite_integer. apply _. Defined.

(** Every model derives from [BaseModel] and so carries [created_at] and
    [updated_at].  The integer primary key [id] of a row is the key under
    which the row is stored in its table. *)

Module Users.
Record t : Type := Build {
  username : string;
  email : string;
  password_hash : string;
  role : string;
  address : option string;
  pin : option string;
  is_active : bool;
  api_key : option string;
  created_at : datetime;
  updated_at : datetime
}.
End Users.

Module Customers.
Record t : Type := Build {
  user_id : Z;
  admin_blocked : bool;
  created_at : datetime;
  updated_at : datetime
}.

#[global] Instance Customers_eq_dec : EqDecision t.
Proof. solve_decision. Defined.

Definition set_admin_blocked (b : bool) (c : t) : t :=
  Build (user_id c) b (created_at c) (updated_at c).
Definition set_updated_at (now : datetime) (c : t) : t :=
  Build (user_id c) (admin_blocked c) (created_at c) now.
End Customers.

(** The [db.Float] columns are stored and compared, never computed with:
    the development is parametric in the type [Float] of their values. *)

Module Services.
Record t {Float : Type} : Type := Build {
  service_type : string;
  description : option string;
  base_price : Float;
  image_url : option string;
  created_at : datetime;
  updated_at : datetime
}.
Arguments t : clear implicits.
End Services.

Module ServiceProfessionals.
Record t : Type := Build {
  user_id : Z;
  service_id : Z;
  description : option string;
  experience : option Z;
  document : option string;
  is_verified : bool;
  verification_failed : bool;
  admin_blocked : bool;
  created_at : datetime;
  updated_at : datetime
}.

#[global] Instance ServiceProfessionals_eq_dec : EqDecision t.
Proof. solve_decision. Defined.

Definition set_is_verified (b : bool) (p : t) : t :=
  Build (user_id p) (service_id p) (description p) (experience p)
        (document p) b (verification_failed p) (admin_blocked p)
        (created_at p) (updated_at p).
Definition set_verification_failed (b : bool) (p : t) : t :=
  Build (user_id p) (service_id p) (description p) (experience p)
        (document p) (is_verified p) b (admin_blocked p)
        (created_at p) (updated_at p).
Definition set_admin_blocked (b : bool) (p : t) : t :=
  Build (user_id p) (service_id p) (description p) (experience p)
        (document p) (is_verified p) (verification_failed p) b
        (created_at p) (updated_at p).
Definition set_updated_at (now : datetime) (p : t) : t :=
  Build (user_id p) (service_id p) (description p) (experience p)
        (document p) (is_verified p) (verification_failed p)
        (admin_blocked p) (created_at p) now.
End ServiceProfessionals.

Module ServiceRequests.
Record t {Float : Type} : Type := Build {
  service_id : Z;
  customer_id : Z;
  professional_id : option Z;
  proposed_price : option Float;
  date_of_request : datetime;
  date_of_completion : option datetime;
  service_status : ServiceStatus;
  remarks : option string;
  created_at : datetime;
  updated_at : datetime
}.
Arguments t : clear implicits.
Arguments Build {Float}.

#[global] Instance ServiceRequests_eq_dec `{EqDecision Float} : EqDecision (t Float).
Proof. solve_decision. Defined.

Section setters.
Context {Float : Type}.
Implicit Type r : t Float.

Definition set_professional_id (p : option Z) r : t Float :=
  Build (service_id r) (customer_id r) p (proposed_price r)
        (date_of_request r) (date_of_completion r) (service_status r)
        (remarks r) (created_at r) (updated_at r).
Definition set_proposed_price (x : option Float) r : t Float :=
  Build (service_id r) (customer_id r) (professional_id r) x
        (date_of_request r) (date_of_completion r) (service_status r)
        (remarks r) (created_at r) (updated_at r).
Definition set_date_of_completion (x : option datetime) r : t Float :=
  Build (service_id r) (customer_id r) (professional_id r)
        (proposed_price r) (date_of_request r) x (service_status r)
        (remarks r) (created_at r) (updated_at r).
Definition set_service_status (s : ServiceStatus) r : t Float :=
  Build (service_id r) (customer_id r) (professional_id r)
        (proposed_price r) (date_of_request r) (date_of_completion r) s
        (remarks r) (created_at r) (updated_at r).
Definition set_updated_at (now : datetime) r : t Float :=
  Build (service_id r) (customer_id r) (professional_id r)
        (proposed_price r) (date_of_request r) (date_of_completion r)
        (service_status r) (remarks r) (created_at r) now.
End setters.
End ServiceRequests.

Module Reviews.
(** [professional_id] is [nullable=False], but [review_service] fills it
    from the request's nullable column: the object handed to the session
    may hold [None], and the INSERT then fails. *)
Record t : Type := Build {
  customer_id : Z;
  professional_id : option Z;
  service_id : Z;
  service_request_id : Z;
  rating : Z;
  remarks : option string;
  created_at : datetime;
  updated_at : datetime
}.
End Reviews.

(** The database: one table per model. *)
Record Db {Float : Type} : Type := Build_Db {
  users : gmap Z Users.t;
  customers : gmap Z Customers.t;
  services : gmap Z (Services.t Float);
  service_professionals : gmap Z ServiceProfessionals.t;
  service_requests : gmap Z (ServiceRequests.t Float);
  reviews : gmap Z Reviews.t
}.
Arguments Db : clear implicits.
Arguments Build_Db {Float}.

Section tables.
Context {Float : Type}.
Implicit Type d : Db Float.

Definition set_customers (x : gmap Z Customers.t) d : Db Float :=
  Build_Db (users d) x (services d) (service_professionals d)
           (service_requests d) (reviews d).
Definition set_service_professionals (x : gmap Z ServiceProfessionals.t) d
  : Db Float :=
  Build_Db (users d) (customers d) (services d) x (service_requests d)
           (reviews d).
Definition set_service_requests (x : gmap Z (ServiceRequests.t Float)) d
  : Db Float :=
  Build_Db (users d) (customers d) (services d) (service_professionals d) x
           (reviews d).
Definition set_reviews (x : gmap Z Reviews.t) d : Db Float :=
  Build_Db (users d) (customers d) (services d) (service_professionals d)
           (service_requests d) x.
End tables.

(** ** Queries *)

(** [Model.query.filter(P).first()]: some row satisfying [P], if any. *)
Definition query_first {A} (P : Z * A → Prop) `{!∀ x, Decision (P x)}
    (m : gmap Z A) : option (Z * A) :=
  head (map_to_list (filter P m)).

(** [Model.query.filter(P).count()] *)
Definition query_count {A} (P : Z * A → Prop) `{!∀ x, Decision (P x)}
    (m : gmap Z A) : nat :=
  size (filter P m).

(** The primary key given to the next inserted row: above every key in
    the table, starting at 1. *)
Definition next_id {A} (m : gmap Z A) : Z :=
  1 + map_fold (λ k _ acc, Z.max k acc) 0 m.

(** The one-to-one relationships [Users.customer] and
    [Users.professional] ([uselist=False]). *)
Definition Users_customer {Float} (d : Db Float) (user_id : Z)
  : option (Z * Customers.t) :=
  query_first (λ kv, Customers.user_id kv.2 = user_id) (customers d).

Definition Users_professional {Float} (d : Db Float) (user_id : Z)
  : option (Z * ServiceProfessionals.t) :=
  query_first (λ kv, ServiceProfessionals.user_id kv.2 = user_id)
              (service_professionals d).

(** ** What a route returns *)

(** [flash(message, category)] *)
Definition flashed : Type := string * string.

Inductive response : Type :=
  | abort (code : Z)
  | unauthorized
  | redirect (flashes : list flashed) (endpoint : string)
  | logout_redirect (flashes : list flashed) (endpoint : string)
  | raise (exception : string).

(** ** app/forms.py is not among the sources: a form is the data it
    delivers and the outcome of [validate_on_submit()]. *)

Module BookingForm.
Record t {Float : Type} : Type := Build {
  validate_on_submit : bool;
  service_id : Z;
  proposed_price : option Float
}.
Arguments t : clear implicits.
Arguments Build {Float}.
End BookingForm.

Module UpdateRequestForm.
Record t {Float : Type} : Type := Build {
  validate_on_submit : bool;
  proposed_price : option Float
}.
Arguments t : clear implicits.
Arguments Build {Float}.
End UpdateRequestForm.

Module ReviewForm.
Record t : Type := Build {
  validate_on_submit : bool;
  rating : Z;
  remarks : option string
}.
End ReviewForm.

(** ** The session: INSERT, UPDATE and [db.session.commit()]

    A commit either applies every pending change or, when a constraint
    declared in [app/models.py] is violated, raises an [IntegrityError]
    (a [SQLAlchemyError]); the routes answer that with
    [db.session.rollback()], so the database is the one before the
    request.  [None] stands for the raised error.  Failures of the store
    that do not follow from its contents are not modelled. *)

Section routes.
Context {Float : Type} `{!EqDecision Float}.

(** Whether the engine enforces [db.ForeignKey] (SQLite does only under
    [PRAGMA foreign_keys=ON]); the application factory is not among the
    sources. *)
Variable foreign_keys : bool.

(** [lambda s: datetime.strptime(s, '%Y-%m-%d')], [None] on [ValueError]. *)
Variable strptime : string → option datetime.

(** SQL [column ILIKE pattern] on a non-NULL column. *)
Variable ilike : string → string → bool.

Implicit Type d : Db Float.
Implicit Type now : datetime.

Definition references {A} (table : gmap Z A) (key : Z) : bool :=
  negb foreign_keys || bool_decide (is_Some (table !! key)).

(** INSERT INTO service_requests *)
Definition insert_service_request d (x : ServiceRequests.t Float)
  : option (Db Float) :=
  if references (services d) (ServiceRequests.service_id x)
     && references (customers d) (ServiceRequests.customer_id x)
     && from_option (references (service_professionals d)) true
          (ServiceRequests.professional_id x)
  then Some (set_service_requests
               (<[next_id (service_requests d) := x]> (service_requests d)) d)
  else None.

(** INSERT INTO reviews: [professional_id] NOT NULL, [check_rating_range],
    [service_request_id] UNIQUE, and the four foreign keys. *)
Definition insert_review d (x : Reviews.t) : option (Db Float) :=
  if bool_decide (is_Some (Reviews.professional_id x))
     && bool_decide (1 ≤ Reviews.rating x ≤ 5)
     && bool_decide
          (query_first
             (λ kv, Reviews.service_request_id kv.2
                    = Reviews.service_request_id x) (reviews d) = None)
     && references (customers d) (Reviews.customer_id x)
     && from_option (references (service_professionals d)) true
          (Reviews.professional_id x)
     && references (services d) (Reviews.service_id x)
     && references (service_requests d) (Reviews.service_request_id x)
  then Some (set_reviews (<[next_id (reviews d) := x]> (reviews d)) d)
  else None.

(** Flushing a loaded row whose attributes were assigned: no UPDATE is
    emitted when no column has a net change; otherwise the row is written
    and [onupdate] stamps [updated_at].  A changed foreign-key column is
    checked. *)
Definition flush_service_request now d (id : Z)
    (old new : ServiceRequests.t Float) : option (Db Float) :=
  if decide (new = old) then Some d
  else if bool_decide (ServiceRequests.professional_id new
                       = ServiceRequests.professional_id old)
          || from_option (references (service_professionals d)) true
               (ServiceRequests.professional_id new)
  then Some (set_service_requests
               (<[id := ServiceRequests.set_updated_at now new]>
                  (service_requests d)) d)
  else None.

Definition flush_professional now d (id : Z)
    (old new : ServiceProfessionals.t) : option (Db Float) :=
  if decide (new = old) then Some d
  else Some (set_service_professionals
               (<[id := ServiceProfessionals.set_updated_at now new]>
                  (service_professionals d)) d).

Definition flush_customer now d (id : Z) (old new : Customers.t)
  : option (Db Float) :=
  if decide (new = old) then Some d
  else Some (set_customers
               (<[id := Customers.set_updated_at now new]> (customers d)) d).

(** ** app/routes/customer.py *)

(** [@login_required]: [load_user] is [Users.query.get]; the session's
    user id [current_user] that loads no row is anonymous.  A loaded user
    is authenticated when [is_active], the column of [Users] that
    overrides the property of [UserMixin], is true.  The wrapped view
    receives [current_user.customer]. *)
Definition customer_required (current_user : Z) d
    (f : option (Z * Customers.t) → response * Db Float)
  : response * Db Float :=
  match users d !! current_user with
  | None => (unauthorized, d)
  | Some user =>
    if negb (Users.is_active user) then (unauthorized, d)
    else if decide (Users.role user ≠ "customer") then (abort 403, d)
    else
      let customer := Users_customer d current_user in
      match customer with
      | Some (_, c) =>
        if Customers.admin_blocked c then
          (logout_redirect
             [("Your account has been suspended by an administrator.",
               "danger")] "auth.login", d)
        else f customer
      | None => f customer
      end
  end.

(** [ServiceStatus.in_([REQUESTED, ACCEPTED])] *)
Definition active (s : ServiceStatus) : bool :=
  match s with
  | REQUESTED | ACCEPTED => true
  | _ => false
  end.

Definition book_service now (current_user professional_id : Z)
    (form : BookingForm.t Float) (date_str : option string) d
  : response * Db Float :=
  customer_required current_user d (λ customer,
    match service_professionals d !! professional_id with
    | None => (abort 404, d)
    | Some professional =>
      if BookingForm.validate_on_submit form then
        match date_str ≫= strptime with
        | None =>
          (redirect [("Invalid date format. Please try again.", "danger")]
                    "customer.customer_dashboard", d)
        | Some date_obj =>
          match customer with
          | None => (raise "AttributeError", d)
          | Some (customer_id, _) =>
            let existing_request :=
              query_first
                (λ kv, ServiceRequests.customer_id kv.2 = customer_id
                       ∧ ServiceRequests.professional_id kv.2
                         = Some professional_id
                       ∧ active (ServiceRequests.service_status kv.2) = true)
                (service_requests d) in
            match existing_request with
            | Some _ =>
              (redirect
                 [("You already have an active request with this professional.",
                   "warning")] "customer.customer_dashboard", d)
            | None =>
              let new_request :=
                ServiceRequests.Build
                  (BookingForm.service_id form) customer_id
                  (Some professional_id) (BookingForm.proposed_price form)
                  date_obj None REQUESTED None now now in
              match insert_service_request d new_request with
              | Some d' =>
                (redirect [("Your service request has been sent!", "success")]
                          "customer.service_history", d')
              | None =>
                (redirect
                   [("An error occurred while booking. Please try again.",
                     "danger")] "customer.customer_dashboard", d)
              end
            end
          end
        end
      else
        (redirect
           [("Form validation failed. Please check your inputs.", "danger")]
           "customer.customer_dashboard", d)
    end).

Definition update_service_request now (current_user request_id : Z)
    (form : UpdateRequestForm.t Float) d : response * Db Float :=
  customer_required current_user d (λ customer,
    match service_requests d !! request_id with
    | None => (abort 404, d)
    | Some service_request =>
      match customer with
      | None => (raise "AttributeError", d)
      | Some (customer_id, _) =>
        if decide (ServiceRequests.customer_id service_request ≠ customer_id)
        then (abort 403, d)
        else if decide (ServiceRequests.service_status service_request
                        ≠ REQUESTED)
        then
          (redirect
             [("You can only edit requests that are still pending.",
               "warning")] "customer.service_history", d)
        else if UpdateRequestForm.validate_on_submit form then
          match flush_service_request now d request_id service_request
                  (ServiceRequests.set_proposed_price
                     (UpdateRequestForm.proposed_price form) service_request)
          with
          | Some d' =>
            (redirect
               [("Your service request has been updated successfully.",
                 "success")] "customer.service_history", d')
          | None =>
            (redirect [("Database error occurred.", "danger")]
                      "customer.service_history", d)
          end
        else
          (redirect [("Invalid price submitted.", "danger")]
                    "customer.service_history", d)
      end
    end).

(** [datetime.utcnow()] and the column defaults read the clock within the
    same request; [now] is that reading. *)
Definition review_service now (current_user request_id : Z)
    (form : ReviewForm.t) d : response * Db Float :=
  customer_required current_user d (λ customer,
    match service_requests d !! request_id with
    | None => (abort 404, d)
    | Some service_request =>
      match customer with
      | None => (raise "AttributeError", d)
      | Some (customer_id, _) =>
        if decide (ServiceRequests.customer_id service_request ≠ customer_id)
        then (abort 403, d)
        else if ReviewForm.validate_on_submit form then
          let new_review :=
            Reviews.Build customer_id
              (ServiceRequests.professional_id service_request)
              (ServiceRequests.service_id service_request)
              request_id (ReviewForm.rating form) (ReviewForm.remarks form)
              now now in
          match
            insert_review d new_review ≫= λ d1,
            flush_service_request now d1 request_id service_request
              (ServiceRequests.set_date_of_completion (Some now)
                 (ServiceRequests.set_service_status CLOSED service_request))
          with
          | Some d' =>
            (redirect
               [("Thank you for your review! You can now proceed to payment.",
                 "success")] "customer.service_history", d')
          | None =>
            (redirect
               [("An error occurred while saving your review.", "danger")]
               "customer.service_history", d)
          end
        else
          (redirect
             [("There was an error with your review submission.", "danger")]
             "customer.service_history", d)
      end
    end).

Definition process_payment now (current_user request_id : Z) d
  : response * Db Float :=
  customer_required current_user d (λ customer,
    match service_requests d !! request_id with
    | None => (abort 404, d)
    | Some service_request =>
      match customer with
      | None => (raise "AttributeError", d)
      | Some (customer_id, _) =>
        if decide (ServiceRequests.customer_id service_request ≠ customer_id)
        then (abort 403, d)
        else if decide (ServiceRequests.service_status service_request
                        ≠ CLOSED)
        then
          (redirect
             [("This service cannot be paid for at this time.", "warning")]
             "customer.service_history", d)
        else
          match flush_service_request now d request_id service_request
                  (ServiceRequests.set_date_of_completion (Some now)
                     (ServiceRequests.set_service_status PAID service_request))
          with
          | Some d' =>
            (redirect
               [("Payment for request #" +:+ pretty request_id
                 +:+ " was successful! Thank you.", "success")]
               "customer.service_history", d')
          | None =>
            (redirect [("Transaction failed. Please try again.", "danger")]
                      "customer.service_history", d)
          end
      end
    end).

(** The listing of [customer_dashboard]: the professionals of the joined
    query, filtered by the search parameters ([q] is the stripped search
    text). *)
Definition ilike_nullable (column : option string) (pattern : string)
  : bool :=
  from_option (λ c, ilike c pattern) false column.

Definition dashboard_filter d (service_id : option Z) (q : string)
    (kv : Z * ServiceProfessionals.t) : bool :=
  match users d !! ServiceProfessionals.user_id kv.2,
        services d !! ServiceProfessionals.service_id kv.2 with
  | Some user, Some service =>
    ServiceProfessionals.is_verified kv.2
    && negb (ServiceProfessionals.admin_blocked kv.2)
    && match service_id with
       | Some i =>
         bool_decide (i = 0)
         || bool_decide (ServiceProfessionals.service_id kv.2 = i)
       | None => true
       end
    && (bool_decide (q = "")
        || let search_term := "%" +:+ q +:+ "%" in
           ilike (Users.username user) search_term
           || ilike_nullable (Users.address user) search_term
           || ilike_nullable (Users.pin user) search_term
           || ilike (Services.service_type service) search_term
           || ilike_nullable (ServiceProfessionals.description kv.2)
                search_term)
  | _, _ => false
  end.

Definition raw_professionals d (service_id : option Z) (q : string)
  : list (Z * ServiceProfessionals.t) :=
  map_to_list
    (filter (λ kv, dashboard_filter d service_id q kv = true)
            (service_professionals d)).

(** [jobs_count] of [customer_dashboard], for the professional [prof_id]. *)
Definition jobs_count d (prof_id : Z) : nat :=
  query_count
    (λ kv, ServiceRequests.professional_id kv.2 = Some prof_id
           ∧ ServiceRequests.service_status kv.2 = CLOSED)
    (service_requests d).

(** ** app/routes/admin.py *)

Definition admin_required (current_user : Z) d
    (f : response * Db Float) : response * Db Float :=
  match users d !! current_user with
  | None => (unauthorized, d)
  | Some user =>
    if negb (Users.is_active user) then (unauthorized, d)
    else if decide (Users.role user ≠ "admin") then (abort 403, d) else f
  end.

(** The flash after the commit reads [prof.user.username]; a professional
    whose user row is gone makes that an [AttributeError], after the
    commit. *)
Definition approve_professional now (current_user professional_id : Z) d
  : response * Db Float :=
  admin_required current_user d
    match service_professionals d !! professional_id with
    | None => (abort 404, d)
    | Some prof =>
      match flush_professional now d professional_id prof
              (ServiceProfessionals.set_verification_failed false
                 (ServiceProfessionals.set_is_verified true prof))
      with
      | Some d' =>
        match users d' !! ServiceProfessionals.user_id prof with
        | Some user =>
          (redirect
             [("Professional " +:+ Users.username user
               +:+ " has been approved.", "success")]
             "admin.admin_dashboard", d')
        | None => (raise "AttributeError", d')
        end
      | None =>
        (redirect [("Error approving professional.", "danger")]
                  "admin.admin_dashboard", d)
      end
    end.

Definition reject_professional now (current_user professional_id : Z) d
  : response * Db Float :=
  admin_required current_user d
    match service_professionals d !! professional_id with
    | None => (abort 404, d)
    | Some prof =>
      match flush_professional now d professional_id prof
              (ServiceProfessionals.set_verification_failed true
                 (ServiceProfessionals.set_is_verified false prof))
      with
      | Some d' =>
        match users d' !! ServiceProfessionals.user_id prof with
        | Some user =>
          (redirect
             [("Professional " +:+ Users.username user
               +:+ " has been rejected.", "warning")]
             "admin.admin_dashboard", d')
        | None => (raise "AttributeError", d')
        end
      | None =>
        (redirect [("Error rejecting professional.", "danger")]
                  "admin.admin_dashboard", d)
      end
    end.

(** [target_profile] of [toggle_user_block] is a customer or a
    professional row. *)
Inductive profile : Type :=
  | customer_profile (id : Z) (c : Customers.t)
  | professional_profile (id : Z) (p : ServiceProfessionals.t).

Definition set_profile_blocked now d (target : profile) (b : bool)
  : option (Db Float) :=
  match target with
  | customer_profile id c =>
    flush_customer now d id c (Customers.set_admin_blocked b c)
  | professional_profile id p =>
    flush_professional now d id p (ServiceProfessionals.set_admin_blocked b p)
  end.

(** [action] is [request.args.get('action')]. *)
Definition toggle_user_block now (current_user user_id : Z)
    (action : option string) d : response * Db Float :=
  admin_required current_user d
    match users d !! user_id with
    | None => (abort 404, d)
    | Some user =>
      let target_profile :=
        if decide (Users.role user = "customer") then
          (λ '(id, c), customer_profile id c) <$> Users_customer d user_id
        else if decide (Users.role user = "professional") then
          (λ '(id, p), professional_profile id p)
            <$> Users_professional d user_id
        else None in
      match target_profile with
      | Some target =>
        let is_blocking := bool_decide (action = Some "block") in
        match set_profile_blocked now d target is_blocking with
        | Some d' =>
          let status_msg := if is_blocking then "blocked" else "unblocked" in
          (redirect
             [("User " +:+ Users.username user +:+ " has been "
               +:+ status_msg +:+ ".",
               if negb is_blocking then "success" else "warning")]
             "admin.admin_dashboard", d')
        | None =>
          (redirect [("Database error during status change.", "danger")]
                    "admin.admin_dashboard", d)
        end
      | None =>
        (redirect [("User profile not found.", "danger")]
                  "admin.admin_dashboard", d)
      end
    end.

(** The helper of [block_user] and [unblock_user].  [user.customer] or
    [user.professional] being [None] makes the assignment an
    [AttributeError], which the [except SQLAlchemyError] does not catch. *)
Definition _toggle_block_status now (user_id : Z) (block : bool) d
  : response * Db Float :=
  match users d !! user_id with
  | None => (abort 404, d)
  | Some user =>
    let pending : option (option (Db Float)) :=
      if decide (Users.role user = "customer") then
        (λ '(id, c),
           flush_customer now d id c (Customers.set_admin_blocked block c))
          <$> Users_customer d user_id
      else if decide (Users.role user = "professional") then
        (λ '(id, p),
           flush_professional now d id p
             (ServiceProfessionals.set_admin_blocked block p))
          <$> Users_professional d user_id
      else Some (Some d) in
    match pending with
    | None => (raise "AttributeError", d)
    | Some (Some d') =>
      let msg := if block then "blocked" else "unblocked" in
      (redirect
         [("User " +:+ Users.username user +:+ " has been " +:+ msg +:+ ".",
           if block then "warning" else "info")]
         "admin.admin_dashboard", d')
    | Some None =>
      (redirect [("An error occurred.", "danger")]
                "admin.admin_dashboard", d)
    end
  end.

Definition block_user now (current_user user_id : Z) d
  : response * Db Float :=
  admin_required current_user d (_toggle_block_status now user_id true d).

Definition unblock_user now (current_user user_id : Z) d
  : response * Db Float :=
  admin_required current_user d (_toggle_block_status now user_id false d).

(** [new_prof_id] is [request.form.get('professional_id', type=int)], a
    Python [int] of any size.  When the UPDATE carries it, sqlite3 refuses
    to bind one that is no [sqlite_integer], with an [OverflowError] that
    no [except SQLAlchemyError] catches. *)
Definition reassign_professional now (current_user request_id : Z)
    (new_prof_id : option Z) d : response * Db Float :=
  admin_required current_user d
    match service_requests d !! request_id with
    | None => (abort 404, d)
    | Some service_request =>
      match new_prof_id with
      | None | Some 0 =>
        (redirect [("You must select a professional.", "danger")]
                  "admin.admin_dashboard", d)
      | Some new_prof_id =>
        if decide (ServiceRequests.service_status service_request ≠ REJECTED)
        then
          (redirect
             [("Only rejected requests can be reassigned.", "warning")]
             "admin.admin_dashboard", d)
        else if decide (ServiceRequests.professional_id service_request
                        ≠ Some new_prof_id
                        ∧ ¬ sqlite_integer new_prof_id)
        then (raise "OverflowError", d)
        else
          match flush_service_request now d request_id service_request
                  (ServiceRequests.set_service_status REQUESTED
                     (ServiceRequests.set_professional_id (Some new_prof_id)
                        service_request))
          with
          | Some d' =>
            (redirect
               [("Request #" +:+ pretty request_id
                 +:+ " has been reassigned successfully.", "success")]
               "admin.admin_dashboard", d')
          | None =>
            (redirect [("Database error during reassignment.", "danger")]
                      "admin.admin_dashboard", d)
          end
      end
    end.

End routes.

(** ** The routes that render or answer with JSON *)

(** What such a route returns: [render_template(template, **context)],
    [jsonify(body), status], or one of the plain responses. *)
Inductive page (A : Type) : Type :=
  | render_template (template : string) (context : A)
  | jsonify (body : A) (status : Z)
  | respond (r : response).
Arguments render_template {A}.
Arguments jsonify {A}.
Arguments respond {A}.

(** [query.order_by(key.desc()).all()] *)
Definition desc {A} (key : Z * A → Z) : relation (Z * A) :=
  λ a b, key b ≤ key a.

#[global] Instance desc_dec {A} (key : Z * A → Z) a b
  : Decision (desc key a b).
Proof. unfold desc. apply _. Defined.

Definition order_by_desc {A} (key : Z * A → Z) (rows : list (Z * A))
  : list (Z * A) :=
  merge_sort (desc key) rows.

(** [ServiceStatus.name] *)
Definition ServiceStatus_name (s : ServiceStatus) : string :=
  match s with
  | REQUESTED => "REQUESTED"
  | ACCEPTED => "ACCEPTED"
  | REJECTED => "REJECTED"
  | CLOSED => "CLOSED"
  | PAID => "PAID"
  end.

#[global] Instance ServiceStatus_countable : Countable ServiceStatus.
Proof.
  refine (inj_countable'
            (λ s, match s with
                  | REQUESTED => 0 | ACCEPTED => 1 | REJECTED => 2
                  | CLOSED => 3 | PAID => 4
                  end%nat)
            (λ n, match n with
                  | 0 => REQUESTED | 1 => ACCEPTED | 2 => REJECTED
                  | 3 => CLOSED | _ => PAID
                  end%nat) _).
  by intros [].
Defined.

(** [str.title()] on ASCII text: a cased character is upper-cased after an
    uncased one (or at the start) and lower-cased after a cased one. *)
Definition is_lower (c : Ascii.ascii) : bool :=
  ((97 <=? Ascii.nat_of_ascii c) && (Ascii.nat_of_ascii c <=? 122))%nat.
Definition is_upper (c : Ascii.ascii) : bool :=
  ((65 <=? Ascii.nat_of_ascii c) && (Ascii.nat_of_ascii c <=? 90))%nat.
Definition upper (c : Ascii.ascii) : Ascii.ascii :=
  if is_lower c then Ascii.ascii_of_nat (Ascii.nat_of_ascii c - 32) else c.
Definition lower (c : Ascii.ascii) : Ascii.ascii :=
  if is_upper c then Ascii.ascii_of_nat (Ascii.nat_of_ascii c + 32) else c.

Fixpoint title_from (previous_is_cased : bool) (s : string) : string :=
  match s with
  | EmptyString => EmptyString
  | String c s' =>
    if is_lower c || is_upper c
    then String (if previous_is_cased then lower c else upper c)
                (title_from true s')
    else String c (title_from false s')
  end.

Definition title (s : string) : string := title_from false s.

(** [query(key, func.count(id)).group_by(key).all()]: one pair per value
    of the key that occurs, with the number of rows that have it. *)
Definition group_by_count `{Countable K} {A} (key : A → K) (m : gmap Z A)
  : list (K * nat) :=
  (λ k, (k, query_count (λ kv, key kv.2 = k) m))
    <$> elements (map_to_set (λ _ x, key x) m : gset K).

(** The forms of the service catalogue; [errors] are the values of
    [form.errors], one list of messages per failing field. *)
Module CreateServiceForm.
Record t {Float : Type} : Type := Build {
  validate_on_submit : bool;
  service_type : string;
  base_price : Float;
  description : option string;
  errors : list (list string)
}.
Arguments t : clear implicits.
Arguments Build {Float}.
End CreateServiceForm.

Module UpdateServiceForm.
Record t {Float : Type} : Type := Build {
  validate_on_submit : bool;
  service_type : string;
  base_price : Float;
  description : option string;
  errors : list (list string)
}.
Arguments t : clear implicits.
Arguments Build {Float}.
End UpdateServiceForm.

#[global] Instance Services_eq_dec `{EqDecision Float}
  : EqDecision (Services.t Float).
Proof. solve_decision. Defined.

(** The body of [admin_chart_data]. *)
Record chart : Type := Build_chart {
  labels : list string;
  data : list nat
}.

Record chart_data : Type := Build_chart_data {
  requests_by_status : chart;
  ratings_distribution : chart
}.

Section more_routes.
Context {Float : Type} `{!EqDecision Float}.
Implicit Type d : Db Float.
Implicit Type now : datetime.

Definition set_services (x : gmap Z (Services.t Float)) d : Db Float :=
  Build_Db (users d) (customers d) x (service_professionals d)
           (service_requests d) (reviews d).

(** *** app/routes/customer.py, the pages *)

(** [customer_required] around a view that renders. *)
Definition customer_required_page {A} (current_user : Z) d
    (f : option (Z * Customers.t) → page A) : page A :=
  match users d !! current_user with
  | None => respond unauthorized
  | Some user =>
    if negb (Users.is_active user) then respond unauthorized
    else if decide (Users.role user ≠ "customer") then respond (abort 403)
    else
      let customer := Users_customer d current_user in
      match customer with
      | Some (_, c) =>
        if Customers.admin_blocked c then
          respond
            (logout_redirect
               [("Your account has been suspended by an administrator.",
                 "danger")] "auth.login")
        else f customer
      | None => f customer
      end
  end.

(** The requests of one customer, latest first. *)
Definition requests_of_customer d (customer_id : Z)
  : list (Z * ServiceRequests.t Float) :=
  order_by_desc (λ kv, ServiceRequests.date_of_request kv.2)
    (map_to_list
       (filter (λ kv, ServiceRequests.customer_id kv.2 = customer_id)
               (service_requests d))).

Definition service_history (current_user : Z) d
  : page (list (Z * ServiceRequests.t Float)) :=
  customer_required_page current_user d (λ customer,
    match customer with
    | None => respond (raise "AttributeError")
    | Some (customer_id, _) =>
      render_template "customer/service_history.html"
        (requests_of_customer d customer_id)
    end).

Definition show_payment_form (current_user request_id : Z) d
  : page (Z * ServiceRequests.t Float) :=
  customer_required_page current_user d (λ customer,
    match service_requests d !! request_id with
    | None => respond (abort 404)
    | Some service_request =>
      match customer with
      | None => respond (raise "AttributeError")
      | Some (customer_id, _) =>
        if decide (ServiceRequests.customer_id service_request ≠ customer_id)
        then respond (abort 403)
        else if decide (ServiceRequests.service_status service_request
                        ≠ CLOSED)
        then
          respond
            (redirect
               [("This service is not yet closed for payment.", "warning")]
               "customer.service_history")
        else
          render_template "customer/payment.html"
            (request_id, service_request)
      end
    end).

(** *** app/routes/admin.py, the dashboard and the charts *)

Definition admin_required_page {A} (current_user : Z) d (f : page A)
  : page A :=
  match users d !! current_user with
  | None => respond unauthorized
  | Some user =>
    if negb (Users.is_active user) then respond unauthorized
    else if decide (Users.role user ≠ "admin") then respond (abort 403)
    else f
  end.

Record admin_dashboard_context : Type := Build_admin_dashboard_context {
  dashboard_services : list (Z * Services.t Float);
  dashboard_professionals : list (Z * ServiceProfessionals.t);
  dashboard_customers : list (Z * Customers.t);
  all_requests : list (Z * ServiceRequests.t Float);
  rejected_requests : list (Z * ServiceRequests.t Float)
}.

(** [.join(Users).filter(Users.role == role)] on a profile row. *)
Definition user_has_role d (role : string) (user_id : Z) : bool :=
  match users d !! user_id with
  | Some user => bool_decide (Users.role user = role)
  | None => false
  end.

Definition active_statuses : list ServiceStatus :=
  [REQUESTED; ACCEPTED; CLOSED; PAID].

Definition admin_dashboard (current_user : Z) d
  : page admin_dashboard_context :=
  admin_required_page current_user d
    (render_template "admin/admin_dashboard.html"
       (Build_admin_dashboard_context
          (order_by_desc fst (map_to_list (services d)))
          (order_by_desc (λ kv, ServiceProfessionals.user_id kv.2)
             (map_to_list
                (filter
                   (λ kv, user_has_role d "professional"
                            (ServiceProfessionals.user_id kv.2) = true)
                   (service_professionals d))))
          (order_by_desc (λ kv, Customers.user_id kv.2)
             (map_to_list
                (filter
                   (λ kv, user_has_role d "customer"
                            (Customers.user_id kv.2) = true)
                   (customers d))))
          (order_by_desc (λ kv, ServiceRequests.date_of_request kv.2)
             (map_to_list
                (filter
                   (λ kv, ServiceRequests.service_status kv.2
                          ∈ active_statuses) (service_requests d))))
          (order_by_desc (λ kv, ServiceRequests.date_of_request kv.2)
             (map_to_list
                (filter
                   (λ kv, ServiceRequests.service_status kv.2 = REJECTED)
                   (service_requests d)))))).

Definition admin_chart_data (current_user : Z) d : page chart_data :=
  admin_required_page current_user d
    (let status_counts :=
       group_by_count ServiceRequests.service_status (service_requests d) in
     let rating_counts := group_by_count Reviews.rating (reviews d) in
     jsonify
       (Build_chart_data
          (Build_chart
             ((λ sc, title (ServiceStatus_name sc.1)) <$> status_counts)
             (snd <$> status_counts))
          (Build_chart
             ((λ rc, pretty rc.1 +:+ "-Star") <$> rating_counts)
             (snd <$> rating_counts)))
       200).

(** *** app/routes/admin.py, the service catalogue *)

(** [service_type] is UNIQUE. *)
Definition service_type_free d (service_type : string) : bool :=
  bool_decide
    (query_first (λ kv, Services.service_type kv.2 = service_type)
                 (services d) = None).

(** INSERT INTO services *)
Definition insert_service d (x : Services.t Float) : option (Db Float) :=
  if service_type_free d (Services.service_type x)
  then Some (set_services (<[next_id (services d) := x]> (services d)) d)
  else None.

(** UPDATE services: emitted for a net change only, and the new
    [service_type], when it changed, must be free. *)
Definition flush_service now d (id : Z) (old new : Services.t Float)
  : option (Db Float) :=
  if decide (new = old) then Some d
  else if bool_decide (Services.service_type new = Services.service_type old)
          || service_type_free d (Services.service_type new)
  then Some (set_services
               (<[id := Services.Build Float (Services.service_type new)
                          (Services.description new) (Services.base_price new)
                          (Services.image_url new) (Services.created_at new)
                          now]> (services d)) d)
  else None.

(** [db.session.delete(service)] and the commit.  The relationships
    [professionals], [service_requests] and [reviews] of [Services] have no
    delete cascade, so the unit of work sets the [service_id] of every
    child row to NULL, which the NOT NULL columns refuse. *)
Definition delete_service_row d (id : Z) : option (Db Float) :=
  if bool_decide
       (query_first (λ kv, ServiceProfessionals.service_id kv.2 = id)
                    (service_professionals d) = None)
     && bool_decide
          (query_first (λ kv, ServiceRequests.service_id kv.2 = id)
                       (service_requests d) = None)
     && bool_decide
          (query_first (λ kv, Reviews.service_id kv.2 = id)
                       (reviews d) = None)
  then Some (set_services (delete id (services d)) d)
  else None.

(** [next(iter(form.errors.values()))[0]] *)
Definition first_error (errors : list (list string)) : string + string :=
  match errors with
  | [] => inr "StopIteration"
  | [] :: _ => inr "IndexError"
  | (e :: _) :: _ => inl e
  end.

Definition create_service now (current_user : Z)
    (form : CreateServiceForm.t Float) d : response * Db Float :=
  admin_required current_user d
    (if CreateServiceForm.validate_on_submit form then
       let new_service :=
         Services.Build Float (CreateServiceForm.service_type form)
           (CreateServiceForm.description form)
           (CreateServiceForm.base_price form) None now now in
       match insert_service d new_service with
       | Some d' =>
         (redirect
            [("Service '" +:+ Services.service_type new_service
              +:+ "' created successfully.", "success")]
            "admin.admin_dashboard", d')
       | None =>
         (redirect
            [("An error occurred while creating the service.", "danger")]
            "admin.admin_dashboard", d)
       end
     else
       match first_error (CreateServiceForm.errors form) with
       | inl e =>
         (redirect [("Error: " +:+ e, "danger")] "admin.admin_dashboard", d)
       | inr exception => (raise exception, d)
       end).

Definition update_service now (current_user service_id : Z)
    (form : UpdateServiceForm.t Float) d : response * Db Float :=
  admin_required current_user d
    match services d !! service_id with
    | None => (abort 404, d)
    | Some service =>
      if UpdateServiceForm.validate_on_submit form then
        let service' :=
          Services.Build Float (UpdateServiceForm.service_type form)
            (UpdateServiceForm.description form)
            (UpdateServiceForm.base_price form) (Services.image_url service)
            (Services.created_at service) (Services.updated_at service) in
        match flush_service now d service_id service service' with
        | Some d' =>
          (redirect
             [("Service '" +:+ UpdateServiceForm.service_type form
               +:+ "' updated successfully.", "success")]
             "admin.admin_dashboard", d')
        | None =>
          (redirect
             [("Could not update service due to a database error.", "danger")]
             "admin.admin_dashboard", d)
        end
      else
        match first_error (UpdateServiceForm.errors form) with
        | inl e =>
          (redirect [("Update failed: " +:+ e, "danger")]
                    "admin.admin_dashboard", d)
        | inr exception => (raise exception, d)
        end
    end.

Definition delete_service (current_user service_id : Z) d
  : response * Db Float :=
  admin_required current_user d
    match services d !! service_id with
    | None => (abort 404, d)
    | Some service =>
      let assigned_count :=
        query_count (λ kv, ServiceProfessionals.service_id kv.2 = service_id)
                    (service_professionals d) in
      if decide (0 < assigned_count)%nat then
        (redirect
           [("Cannot delete '" +:+ Services.service_type service
             +:+ "'. It has " +:+ pretty assigned_count
             +:+ " professionals assigned.", "danger")]
           "admin.admin_dashboard", d)
      else
        match delete_service_row d service_id with
        | Some d' =>
          (redirect
             [("Service '" +:+ Services.service_type service
               +:+ "' has been deleted.", "success")]
             "admin.admin_dashboard", d')
        | None =>
          (redirect [("Could not delete service.", "danger")]
                    "admin.admin_dashboard", d)
        end
    end.

End more_routes.

(** ** Vocabulary of the statements *)

Section vocabulary.
Context {Float : Type}.
Implicit Type d : Db Float.
Implicit Type now : datetime.
Implicit Type sr : ServiceRequests.t Float.

(** The principal behind [current_user] passes [customer_required]: an
    active user with the role of a customer, who owns the customer
    profile [customer_id], which is not blocked. *)
Definition logged_in_customer d (current_user customer_id : Z) : Prop :=
  ∃ user c,
    users d !! current_user = Some user
    ∧ Users.is_active user = true
    ∧ Users.role user = "customer"
    ∧ Users_customer d current_user = Some (customer_id, c)
    ∧ Customers.admin_blocked c = false.

(** The principal behind [current_user] passes [admin_required]: an
    active user with the role of an administrator. *)
Definition logged_in_admin d (current_user : Z) : Prop :=
  ∃ user,
    users d !! current_user = Some user
    ∧ Users.is_active user = true
    ∧ Users.role user = "admin".

(** The categories flashed by a response. *)
Definition categories (r : response) : list string :=
  match r with
  | redirect flashes _ | logout_redirect flashes _ => snd <$> flashes
  | _ => []
  end.

(** A route reports success by flashing in the category [success]. *)
Definition succeeded (r : response) : Prop := categories r = ["success"].

(** At most one request in REQUESTED or ACCEPTED per customer and
    professional. *)
Definition unique_active d : Prop :=
  ∀ i j (x y : ServiceRequests.t Float) (p : Z),
    service_requests d !! i = Some x →
    service_requests d !! j = Some y →
    ServiceRequests.customer_id x = ServiceRequests.customer_id y →
    ServiceRequests.professional_id x = Some p →
    ServiceRequests.professional_id y = Some p →
    active (ServiceRequests.service_status x) = true →
    active (ServiceRequests.service_status y) = true →
    i = j.

(** Every request names a professional and, where the engine enforces
    foreign keys, the professional and the service it names exist. *)
Definition well_referenced (foreign_keys : bool) d : Prop :=
  ∀ i (x : ServiceRequests.t Float),
    service_requests d !! i = Some x →
    ∃ p, ServiceRequests.professional_id x = Some p
         ∧ (foreign_keys = true →
            is_Some (service_professionals d !! p)
            ∧ is_Some (services d !! ServiceRequests.service_id x)).

(** No review refers to the request [request_id]. *)
Definition unreviewed d (request_id : Z) : Prop :=
  ∀ k (rv : Reviews.t),
    reviews d !! k = Some rv → Reviews.service_request_id rv ≠ request_id.

(** The row that a successful payment writes. *)
Definition paid now sr : ServiceRequests.t Float :=
  ServiceRequests.set_updated_at now
    (ServiceRequests.set_date_of_completion (Some now)
       (ServiceRequests.set_service_status PAID sr)).

(** The review that [review_service] hands to the session. *)
Definition new_review now (customer_id request_id : Z) sr
    (form : ReviewForm.t) : Reviews.t :=
  Reviews.Build customer_id (ServiceRequests.professional_id sr)
    (ServiceRequests.service_id sr) request_id (ReviewForm.rating form)
    (ReviewForm.remarks form) now now.

(** The request that [book_service] hands to the session. *)
Definition new_request now (customer_id professional_id : Z)
    (form : BookingForm.t Float) (date_obj : datetime)
  : ServiceRequests.t Float :=
  ServiceRequests.Build (BookingForm.service_id form) customer_id
    (Some professional_id) (BookingForm.proposed_price form) date_obj None
    REQUESTED None now now.

End vocabulary.

#[global] Instance succeeded_dec r : Decision (succeeded r).
Proof. unfold succeeded. apply _. Defined.

(** ** The blueprint of the customer, continued *)

Module customer_bp.

(** [customer_profile] is behind [login_required] alone: the customer
    themselves or an administrator. *)
Definition customer_profile {Float} (current_user customer_id : Z)
    (d : Db Float)
  : page ((Z * Customers.t) * list (Z * ServiceRequests.t Float)) :=
  match users d !! current_user with
  | None => respond unauthorized
  | Some user =>
    if negb (Users.is_active user) then respond unauthorized
    else
      match customers d !! customer_id with
      | None => respond (abort 404)
      | Some customer =>
        if decide (Users.role user ≠ "admin"
                   ∧ current_user ≠ Customers.user_id customer)
        then respond (abort 403)
        else
          render_template "customer/customer_profile.html"
            ((customer_id, customer), requests_of_customer d customer_id)
      end
  end.

End customer_bp.

(** ** The POST rules of the two blueprints *)

Inductive post {Float : Type} : Type :=
  | POST_book_service (professional_id : Z) (form : BookingForm.t Float)
      (date_str : option string)
  | POST_update_service_request (request_id : Z)
      (form : UpdateRequestForm.t Float)
  | POST_review_service (request_id : Z) (form : ReviewForm.t)
  | POST_process_payment (request_id : Z)
  | POST_create_service (form : CreateServiceForm.t Float)
  | POST_update_service (service_id : Z) (form : UpdateServiceForm.t Float)
  | POST_delete_service (service_id : Z)
  | POST_approve_professional (professional_id : Z)
  | POST_reject_professional (professional_id : Z)
  | POST_toggle_user_block (user_id : Z) (action : option string)
  | POST_block_user (user_id : Z)
  | POST_unblock_user (user_id : Z)
  | POST_reassign_professional (request_id : Z) (new_prof_id : option Z).
Arguments post : clear implicits.

Section dispatch.
Context {Float : Type} `{!EqDecision Float}.
Variable foreign_keys : bool.
Variable strptime : string → option datetime.
Implicit Type d : Db Float.
Implicit Type now : datetime.
Implicit Type sr : ServiceRequests.t Float.

(** The view a POST request is dispatched to, run at the time [now] for
    the principal [current_user]. *)
Definition handle now (current_user : Z) (r : post Float) d
  : response * Db Float :=
  match r with
  | POST_book_service professional_id form date_str =>
    book_service foreign_keys strptime now current_user professional_id form
      date_str d
  | POST_update_service_request request_id form =>
    update_service_request foreign_keys now current_user request_id form d
  | POST_review_service request_id form =>
    review_service foreign_keys now current_user request_id form d
  | POST_process_payment request_id =>
    process_payment foreign_keys now current_user request_id d
  | POST_create_service form => create_service now current_user form d
  | POST_update_service service_id form =>
    update_service now current_user service_id form d
  | POST_delete_service service_id => delete_service current_user service_id d
  | POST_approve_professional professional_id =>
    approve_professional now current_user professional_id d
  | POST_reject_professional professional_id =>
    reject_professional now current_user professional_id d
  | POST_toggle_user_block user_id action =>
    toggle_user_block now current_user user_id action d
  | POST_block_user user_id => block_user now current_user user_id d
  | POST_unblock_user user_id => unblock_user now current_user user_id d
  | POST_reassign_professional request_id new_prof_id =>
    reassign_professional foreign_keys now current_user request_id
      new_prof_id d
  end.

(** The row that [update_service] writes. *)
Definition updated_service now (form : UpdateServiceForm.t Float)
    (old : Services.t Float) : Services.t Float :=
  Services.Build Float (UpdateServiceForm.service_type form)
    (UpdateServiceForm.description form) (UpdateServiceForm.base_price form)
    (Services.image_url old) (Services.created_at old) now.

(** Everything a POST request can do to the database, with the response
    that goes with it: nothing, or one of the writes below. *)
Inductive write now : post Float → Db Float → response → Db Float → Prop :=
  | write_nothing r d resp : write now r d resp d
  | write_booked d resp professional_id form date_str customer_id date_obj :
      succeeded resp →
      is_Some (service_professionals d !! professional_id) →
      (∀ k x, service_requests d !! k = Some x →
              ServiceRequests.customer_id x = customer_id →
              ServiceRequests.professional_id x = Some professional_id →
              active (ServiceRequests.service_status x) = false) →
      (foreign_keys = true →
       is_Some (services d !! BookingForm.service_id form)) →
      write now (POST_book_service professional_id form date_str) d resp
        (set_service_requests
           (<[next_id (service_requests d)
              := new_request now customer_id professional_id form date_obj]>
              (service_requests d)) d)
  | write_repriced d resp request_id form sr :
      succeeded resp →
      service_requests d !! request_id = Some sr →
      ServiceRequests.service_status sr = REQUESTED →
      write now (POST_update_service_request request_id form) d resp
        (set_service_requests
           (<[request_id
              := ServiceRequests.set_updated_at now
                   (ServiceRequests.set_proposed_price
                      (UpdateRequestForm.proposed_price form) sr)]>
              (service_requests d)) d)
  | write_reviewed d resp request_id form sr t :
      succeeded resp →
      service_requests d !! request_id = Some sr →
      unreviewed d request_id →
      1 ≤ ReviewForm.rating form ≤ 5 →
      is_Some (ServiceRequests.professional_id sr) →
      write now (POST_review_service request_id form) d resp
        (set_service_requests
           (<[request_id
              := ServiceRequests.set_updated_at t
                   (ServiceRequests.set_date_of_completion (Some now)
                      (ServiceRequests.set_service_status CLOSED sr))]>
              (service_requests d))
           (set_reviews
              (<[next_id (reviews d)
                 := new_review now (ServiceRequests.customer_id sr)
                      request_id sr form]> (reviews d)) d))
  | write_paid d resp request_id sr :
      succeeded resp →
      service_requests d !! request_id = Some sr →
      ServiceRequests.service_status sr = CLOSED →
      write now (POST_process_payment request_id) d resp
        (set_service_requests
           (<[request_id := paid now sr]> (service_requests d)) d)
  | write_reassigned d resp request_id p sr :
      succeeded resp →
      service_requests d !! request_id = Some sr →
      ServiceRequests.service_status sr = REJECTED →
      p ≠ 0 →
      (foreign_keys = true →
       ServiceRequests.professional_id sr = Some p
       ∨ is_Some (service_professionals d !! p)) →
      write now (POST_reassign_professional request_id (Some p)) d resp
        (set_service_requests
           (<[request_id
              := ServiceRequests.set_updated_at now
                   (ServiceRequests.set_service_status REQUESTED
                      (ServiceRequests.set_professional_id (Some p) sr))]>
              (service_requests d)) d)
  | write_approved d resp professional_id prof :
      succeeded resp ∨ resp = raise "AttributeError" →
      service_professionals d !! professional_id = Some prof →
      write now (POST_approve_professional professional_id) d resp
        (set_service_professionals
           (<[professional_id
              := ServiceProfessionals.set_updated_at now
                   (ServiceProfessionals.set_verification_failed false
                      (ServiceProfessionals.set_is_verified true prof))]>
              (service_professionals d)) d)
  | write_rejected d resp professional_id prof :
      service_professionals d !! professional_id = Some prof →
      write now (POST_reject_professional professional_id) d resp
        (set_service_professionals
           (<[professional_id
              := ServiceProfessionals.set_updated_at now
                   (ServiceProfessionals.set_verification_failed true
                      (ServiceProfessionals.set_is_verified false prof))]>
              (service_professionals d)) d)
  | write_professional_blocked d resp (r : post Float) user_id id prof block :
      (∃ action, r = POST_toggle_user_block user_id action
                 ∧ block = bool_decide (action = Some "block"))
      ∨ (r = POST_block_user user_id ∧ block = true)
      ∨ (r = POST_unblock_user user_id ∧ block = false) →
      service_professionals d !! id = Some prof →
      ServiceProfessionals.user_id prof = user_id →
      write now r d resp
        (set_service_professionals
           (<[id := ServiceProfessionals.set_updated_at now
                      (ServiceProfessionals.set_admin_blocked block prof)]>
              (service_professionals d)) d)
  | write_customer_blocked d resp (r : post Float) user_id id c block :
      (∃ action, r = POST_toggle_user_block user_id action
                 ∧ block = bool_decide (action = Some "block"))
      ∨ (r = POST_block_user user_id ∧ block = true)
      ∨ (r = POST_unblock_user user_id ∧ block = false) →
      customers d !! id = Some c →
      Customers.user_id c = user_id →
      write now r d resp
        (set_customers
           (<[id := Customers.set_updated_at now
                      (Customers.set_admin_blocked block c)]> (customers d))
           d)
  | write_service_created d resp form :
      succeeded resp →
      service_type_free d (CreateServiceForm.service_type form) = true →
      write now (POST_create_service form) d resp
        (set_services
           (<[next_id (services d)
              := Services.Build Float (CreateServiceForm.service_type form)
                   (CreateServiceForm.description form)
                   (CreateServiceForm.base_price form) None now now]>
              (services d)) d)
  | write_service_updated d resp service_id form old :
      succeeded resp →
      services d !! service_id = Some old →
      UpdateServiceForm.service_type form = Services.service_type old
      ∨ service_type_free d (UpdateServiceForm.service_type form) = true →
      write now (POST_update_service service_id form) d resp
        (set_services
           (<[service_id := updated_service now form old]> (services d)) d)
  | write_service_deleted d resp service_id :
      succeeded resp →
      is_Some (services d !! service_id) →
      (∀ k x, service_professionals d !! k = Some x →
              ServiceProfessionals.service_id x ≠ service_id) →
      (∀ k x, service_requests d !! k = Some x →
              ServiceRequests.service_id x ≠ service_id) →
      (∀ k x, reviews d !! k = Some x →
              Reviews.service_id x ≠ service_id) →
      write now (POST_delete_service service_id) d resp
        (set_services (delete service_id (services d)) d).

End dispatch.

(** ** Invariants of the store *)

Section invariants.
Context {Float : Type}.
Implicit Type d : Db Float.

(** [customers.user_id] is UNIQUE. *)
Definition customers_user_unique d : Prop :=
  ∀ i j (x y : Customers.t),
    customers d !! i = Some x → customers d !! j = Some y →
    Customers.user_id x = Customers.user_id y → i = j.

(** [services.service_type] is UNIQUE. *)
Definition service_types_unique d : Prop :=
  ∀ i j (x y : Services.t Float),
    services d !! i = Some x → services d !! j = Some y →
    Services.service_type x = Services.service_type y → i = j.

(** The reviews: one per request, rated from 1 to 5, each for an existing
    request of the same customer and service. *)
Definition reviews_consistent d : Prop :=
  (∀ i j (x y : Reviews.t),
     reviews d !! i = Some x → reviews d !! j = Some y →
     Reviews.service_request_id x = Reviews.service_request_id y → i = j)
  ∧ (∀ i (x : Reviews.t), reviews d !! i = Some x → 1 ≤ Reviews.rating x ≤ 5)
  ∧ (∀ i (x : Reviews.t),
       reviews d !! i = Some x →
       ∃ sr, service_requests d !! Reviews.service_request_id x = Some sr
             ∧ ServiceRequests.customer_id sr = Reviews.customer_id x
             ∧ ServiceRequests.service_id sr = Reviews.service_id x).

(** A request in CLOSED or PAID has been reviewed. *)
Definition closed_reviewed d : Prop :=
  ∀ i (x : ServiceRequests.t Float),
    service_requests d !! i = Some x →
    ServiceRequests.service_status x = CLOSED
    ∨ ServiceRequests.service_status x = PAID →
    ¬ unreviewed d i.

End invariants.

(** ** A small marketplace *)

Definition sample_user (username role : string) : Users.t :=
  Users.Build username (username +:+ "@example.org") "pbkdf2:sha256" role
    None None true None 0 0.

Definition sample_professional (user_id : Z) (is_verified admin_blocked : bool)
  : ServiceProfessionals.t :=
  ServiceProfessionals.Build user_id 1 None (Some 3) None is_verified false
    admin_blocked 0 0.

Definition sample_request (professional_id : Z) (status : ServiceStatus)
    (date_of_completion : option datetime) : ServiceRequests.t Z :=
  ServiceRequests.Build 1 1 (Some professional_id) (Some 500) 10
    date_of_completion status None 10 10.

Definition sample_users : gmap Z Users.t :=
  <[1 := sample_user "root" "admin"]>
    (<[2 := sample_user "asha" "customer"]>
       (<[3 := sample_user "ravi" "professional"]>
          (<[4 := sample_user "meena" "professional"]>
             (<[5 := sample_user "kiran" "professional"]> ∅)))).

Definition sample_professionals : gmap Z ServiceProfessionals.t :=
  <[1 := sample_professional 3 true false]>
    (<[2 := sample_professional 4 true false]>
       (<[3 := sample_professional 5 false true]> ∅)).

(** Customer 1 has a rejected and a reviewed request with professional 1
    and a pending one with professional 2. *)
Definition sample_requests : gmap Z (ServiceRequests.t Z) :=
  <[1 := sample_request 1 REJECTED None]>
    (<[2 := sample_request 2 REQUESTED None]>
       (<[3 := sample_request 1 CLOSED (Some 20)]> ∅)).

Definition sample_db : Db Z :=
  Build_Db sample_users
    (<[1 := Customers.Build 2 false 0 0]> ∅)
    (<[1 := Services.Build Z "Plumbing" None 400 None 0 0]> ∅)
    sample_professionals
    sample_requests
    (<[1 := Reviews.Build 1 (Some 1) 1 3 5 (Some "great") 20 20]> ∅).

(** The one date string this parser knows. *)
Definition sample_strptime (s : string) : option datetime :=
  if decide (s = "2024-01-01") then Some 1704067200 else None.

(** A store in which no text matches a pattern. *)
Definition sample_ilike (column pattern : string) : bool := false.

(** ** Queries and keys *)

Section query_facts.
Context {A : Type} (P : Z * A → Prop) `{!∀ x, Decision (P x)}.
Implicit Type m : gmap Z A.

Lemma query_first_Some m k x :
  query_first P m = Some (k, x) → m !! k = Some x ∧ P (k, x).
Proof.
  unfold query_first. intros Hq.
  assert ((k, x) ∈ map_to_list (filter P m)) as Hin.
  { destruct (map_to_list (filter P m)) as [|y l]; simplify_eq/=.
    apply list_elem_of_here. }
  apply elem_of_map_to_list, map_lookup_filter_Some in Hin.
  exact Hin.
Qed.

Lemma query_first_None m :
  query_first P m = None ↔ ∀ k x, m !! k = Some x → ¬ P (k, x).
Proof.
  unfold query_first. rewrite head_None, map_to_list_empty_iff.
  rewrite map_empty_filter. unfold map_Forall. naive_solver.
Qed.

End query_facts.

Lemma next_id_bound {A} (m : gmap Z A) k :
  is_Some (m !! k) → k < next_id m.
Proof.
  unfold next_id.
  apply (map_fold_weak_ind
           (λ acc m, is_Some (m !! k) → k < 1 + acc)).
  - rewrite lookup_empty. by intros [? ?].
  - intros i x m' r Hi IH. rewrite lookup_insert.
    case_decide; [subst; lia|]. intros Hk%IH. lia.
Qed.

Lemma next_id_fresh {A} (m : gmap Z A) : m !! next_id m = None.
Proof.
  destruct (m !! next_id m) eqn:E; [|done].
  assert (next_id m < next_id m) by (apply next_id_bound; eauto). lia.
Qed.

(** ** The role decorators *)

Section decorators.
Context {Float : Type}.
Implicit Type d : Db Float.

Lemma customer_required_pass d u cid :
  logged_in_customer d u cid →
  ∃ c, customers d !! cid = Some c
       ∧ ∀ f : option (Z * Customers.t) → response * Db Float,
           customer_required u d f = f (Some (cid, c)).
Proof.
  intros (user & c & Hu & Hactive & Hrole & Hc & Hblocked). exists c. split.
  - unfold Users_customer in Hc. by apply query_first_Some in Hc as [? _].
  - intros f. unfold customer_required. rewrite Hu, Hactive, Hc, Hblocked.
    simpl. by rewrite decide_False by (by intros ?).
Qed.

Lemma admin_required_pass d u (f : response * Db Float) :
  logged_in_admin d u → admin_required u d f = f.
Proof.
  intros (user & Hu & Hactive & Hrole). unfold admin_required.
  rewrite Hu, Hactive. simpl. by rewrite decide_False by (by intros ?).
Qed.

(** A decorator that turns the principal away leaves the database
    alone. *)
Lemma customer_required_frame d u :
  (∃ c, ∀ f : option (Z * Customers.t) → response * Db Float,
          customer_required u d f = f c)
  ∨ (∀ f : option (Z * Customers.t) → response * Db Float,
       (customer_required u d f).2 = d
       ∧ ¬ succeeded (customer_required u d f).1).
Proof.
  unfold customer_required.
  destruct (users d !! u) as [user|]; [|right; by split].
  destruct (Users.is_active user); simpl; [|right; by split].
  case_decide; [right; by split|].
  destruct (Users_customer d u) as [[i c]|]; [|left; eauto].
  destruct (Customers.admin_blocked c); [right; by split|left; eauto].
Qed.

Lemma admin_required_frame d u :
  (∀ f : response * Db Float, admin_required u d f = f)
  ∨ (∀ f : response * Db Float,
       (admin_required u d f).2 = d ∧ ¬ succeeded (admin_required u d f).1).
Proof.
  unfold admin_required.
  destruct (users d !! u) as [user|]; [|right; by split].
  destruct (Users.is_active user); simpl; [|right; by split].
  case_decide; [right; by split|by left].
Qed.

Lemma logged_in_customer_frame d d' u cid :
  users d' = users d → customers d' = customers d →
  logged_in_customer d u cid → logged_in_customer d' u cid.
Proof.
  intros Hu Hc (user & c & ? & ? & ? & ? & ?). exists user, c.
  unfold Users_customer in *. rewrite Hu, Hc. done.
Qed.

End decorators.

(** ** The session *)

Section session_facts.
Context {Float : Type} `{!EqDecision Float}.
Variable foreign_keys : bool.
Implicit Type d : Db Float.

Lemma flush_service_request_changed now d id
    (old new : ServiceRequests.t Float) :
  new ≠ old →
  ServiceRequests.professional_id new = ServiceRequests.professional_id old →
  flush_service_request foreign_keys now d id old new
  = Some (set_service_requests
            (<[id := ServiceRequests.set_updated_at now new]>
               (service_requests d)) d).
Proof.
  intros Hne Hp. unfold flush_service_request.
  rewrite decide_False by done. by rewrite bool_decide_true.
Qed.

(** Whatever a flush of a request does, it is one of three things. *)
Lemma flush_service_request_cases now d id
    (old new : ServiceRequests.t Float) :
  service_requests d !! id = Some old →
  match flush_service_request foreign_keys now d id old new with
  | Some d' =>
    ∃ t, d' = set_service_requests
                (<[id := ServiceRequests.set_updated_at t new]>
                   (service_requests d)) d
         ∧ (t = now ∨ (new = old ∧ t = ServiceRequests.updated_at old))
  | None =>
    ServiceRequests.professional_id new ≠ ServiceRequests.professional_id old
    ∧ ∃ p, ServiceRequests.professional_id new = Some p
           ∧ foreign_keys = true ∧ service_professionals d !! p = None
  end.
Proof.
  intros Hold. unfold flush_service_request. case_decide as Heq.
  - exists (ServiceRequests.updated_at old). split; [|by right].
    subst new. destruct d, old; unfold set_service_requests; simpl in *.
    f_equal. by rewrite insert_id.
  - destruct (bool_decide _ || _) eqn:E.
    + exists now. split; [done|by left].
    + apply orb_false_iff in E as [E1 E2].
      apply bool_decide_eq_false in E1. split; [done|].
      destruct (ServiceRequests.professional_id new) as [p|]; [|done].
      exists p. simpl in E2. unfold references in E2.
      apply orb_false_iff in E2 as [E2 E3].
      apply negb_false_iff in E2. apply bool_decide_eq_false in E3.
      repeat split; [done|]. by apply eq_None_not_Some.
Qed.

Lemma references_true {A} (table : gmap Z A) key :
  references foreign_keys table key = true →
  foreign_keys = true → is_Some (table !! key).
Proof.
  unfold references. intros Href ->. simpl in Href.
  by apply bool_decide_eq_true in Href.
Qed.

Lemma insert_service_request_Some d (x : ServiceRequests.t Float) d' :
  insert_service_request foreign_keys d x = Some d' →
  d' = set_service_requests
         (<[next_id (service_requests d) := x]> (service_requests d)) d
  ∧ (foreign_keys = true →
     is_Some (services d !! ServiceRequests.service_id x)
     ∧ ∀ p, ServiceRequests.professional_id x = Some p →
            is_Some (service_professionals d !! p)).
Proof.
  unfold insert_service_request.
  destruct (references _ (services d) _) eqn:E1; [|done].
  destruct (references _ (customers d) _) eqn:E2; [|done].
  destruct (from_option _ _ _) eqn:E3; [|done]. simpl.
  intros [= <-]. split; [done|]. intros Hfk.
  split; [by eapply references_true|].
  intros p Hp. rewrite Hp in E3. by eapply references_true.
Qed.

(** *** Referential integrity of the requests *)

Lemma well_referenced_frame d d' :
  service_requests d' = service_requests d →
  services d' = services d →
  (∀ p, is_Some (service_professionals d !! p) →
        is_Some (service_professionals d' !! p)) →
  well_referenced foreign_keys d → well_referenced foreign_keys d'.
Proof.
  intros Hr Hs Hp Hwf i x Hi. rewrite Hr in Hi.
  destruct (Hwf i x Hi) as (p & Hx & Hfk). exists p. split; [done|].
  intros Hon. destruct (Hfk Hon). rewrite Hs. auto.
Qed.

Lemma well_referenced_insert d k (new : ServiceRequests.t Float) p :
  well_referenced foreign_keys d →
  ServiceRequests.professional_id new = Some p →
  (foreign_keys = true →
   is_Some (service_professionals d !! p)
   ∧ is_Some (services d !! ServiceRequests.service_id new)) →
  well_referenced foreign_keys
    (set_service_requests (<[k := new]> (service_requests d)) d).
Proof.
  intros Hwf Hp Hfk i x Hi. simpl in Hi. rewrite lookup_insert in Hi.
  destruct (decide (k = i)) as [->|Hne]; simplify_eq.
  - exists p. by split.
  - by apply Hwf in Hi.
Qed.

Lemma flush_service_request_well_referenced now d id
    (old new : ServiceRequests.t Float) d' :
  well_referenced foreign_keys d →
  service_requests d !! id = Some old →
  ServiceRequests.service_id new = ServiceRequests.service_id old →
  is_Some (ServiceRequests.professional_id new) →
  flush_service_request foreign_keys now d id old new = Some d' →
  well_referenced foreign_keys d'.
Proof.
  intros Hwf Hold Hs [p Hp]. unfold flush_service_request.
  destruct (decide (new = old)) as [Heq|Hne]; [by intros [= <-]|].
  destruct (Hwf id old Hold) as (q & Hq & Hfk).
  destruct (bool_decide _ || _) eqn:E; [|done]. intros [= <-].
  apply (well_referenced_insert d id _ p); [done|done|].
  simpl. rewrite Hs. intros Hon. destruct (Hfk Hon) as [Hq' Hsv].
  split; [|done]. apply orb_true_iff in E as [E|E].
  - apply bool_decide_eq_true in E. by assert (p = q) as -> by congruence.
  - rewrite Hp in E. by eapply references_true.
Qed.

Lemma flush_professional_well_referenced now d id
    (old new : ServiceProfessionals.t) d' :
  well_referenced foreign_keys d →
  service_professionals d !! id = Some old →
  flush_professional now d id old new = Some d' →
  well_referenced foreign_keys d'.
Proof.
  intros Hwf Hold. unfold flush_professional.
  case_decide; intros [= <-]; [done|].
  apply (well_referenced_frame d); [done..| |done].
  intros p Hp. simpl. rewrite lookup_insert. by case_decide.
Qed.

Lemma flush_customer_well_referenced now d id (old new : Customers.t) d' :
  well_referenced foreign_keys d →
  flush_customer now d id old new = Some d' →
  well_referenced foreign_keys d'.
Proof.
  intros Hwf. unfold flush_customer.
  case_decide; intros [= <-]; [done|].
  by apply (well_referenced_frame d).
Qed.

End session_facts.

(** ** The customer's operations *)

Section customer_routes.
Context {Float : Type} `{!EqDecision Float}.
Variable foreign_keys : bool.
Variable strptime : string → option datetime.
Variable ilike : string → string → bool.
Implicit Type d : Db Float.
Implicit Type sr : ServiceRequests.t Float.

Lemma process_payment_not_owner now u cid rid d sr :
  logged_in_customer d u cid →
  service_requests d !! rid = Some sr →
  ServiceRequests.customer_id sr ≠ cid →
  process_payment foreign_keys now u rid d = (abort 403, d).
Proof.
  intros Hin Hsr Hown. unfold process_payment.
  destruct (customer_required_pass d u cid Hin) as (c & _ & ->).
  rewrite Hsr. by rewrite decide_True.
Qed.

Lemma process_payment_not_closed now u cid rid d sr :
  logged_in_customer d u cid →
  service_requests d !! rid = Some sr →
  ServiceRequests.customer_id sr = cid →
  ServiceRequests.service_status sr ≠ CLOSED →
  process_payment foreign_keys now u rid d
  = (redirect [("This service cannot be paid for at this time.", "warning")]
              "customer.service_history", d).
Proof.
  intros Hin Hsr Hown Hst. unfold process_payment.
  destruct (customer_required_pass d u cid Hin) as (c & _ & ->).
  rewrite Hsr. rewrite decide_False by (by intros ?).
  by rewrite decide_True.
Qed.

Lemma process_payment_closed now u cid rid d sr :
  logged_in_customer d u cid →
  service_requests d !! rid = Some sr →
  ServiceRequests.customer_id sr = cid →
  ServiceRequests.service_status sr = CLOSED →
  process_payment foreign_keys now u rid d
  = (redirect
       [("Payment for request #" +:+ pretty rid
         +:+ " was successful! Thank you.", "success")]
       "customer.service_history",
     set_service_requests (<[rid := paid now sr]> (service_requests d)) d).
Proof.
  intros Hin Hsr Hown Hst. unfold process_payment.
  destruct (customer_required_pass d u cid Hin) as (c & _ & ->).
  rewrite Hsr. rewrite decide_False by (by intros ?).
  rewrite decide_False by (by intros ?).
  rewrite flush_service_request_changed; [done| |done].
  intros E. apply (f_equal ServiceRequests.service_status) in E.
  simpl in E. congruence.
Qed.

(** C3.  For an authenticated customer and an existing request,
    [process_payment] succeeds exactly when the customer owns the request
    and its status is CLOSED.  A customer who does not own it is answered
    403; an owner of a request in any other status gets the warning and
    the database is untouched; on success the status is PAID and the
    completion date is the current time, and paying again is answered
    with the warning and changes nothing. *)
Theorem process_payment_owner_and_closed now u cid rid d sr :
  logged_in_customer d u cid →
  service_requests d !! rid = Some sr →
  let out := process_payment foreign_keys now u rid d in
  (succeeded out.1
   ↔ ServiceRequests.customer_id sr = cid
     ∧ ServiceRequests.service_status sr = CLOSED)
  ∧ (ServiceRequests.customer_id sr ≠ cid → out = (abort 403, d))
  ∧ (ServiceRequests.customer_id sr = cid →
     ServiceRequests.service_status sr ≠ CLOSED →
     out = (redirect
              [("This service cannot be paid for at this time.", "warning")]
              "customer.service_history", d))
  ∧ (ServiceRequests.customer_id sr = cid →
     ServiceRequests.service_status sr = CLOSED →
     out = (redirect
              [("Payment for request #" +:+ pretty rid
                +:+ " was successful! Thank you.", "success")]
              "customer.service_history",
            set_service_requests
              (<[rid := paid now sr]> (service_requests d)) d)
     ∧ ServiceRequests.service_status (paid now sr) = PAID
     ∧ ServiceRequests.date_of_completion (paid now sr) = Some now
     ∧ ∀ now', process_payment foreign_keys now' u rid out.2
               = (redirect
                    [("This service cannot be paid for at this time.",
                      "warning")] "customer.service_history", out.2)).
Proof.
  intros Hin Hsr. simpl. split; [split|].
  - intros Hsucc.
    destruct (decide (ServiceRequests.customer_id sr = cid)) as [Hown|Hown].
    2:{ rewrite (process_payment_not_owner now u cid rid d sr) in Hsucc
          by done. by inversion Hsucc. }
    destruct (decide (ServiceRequests.service_status sr = CLOSED))
      as [Hst|Hst]; [done|].
    rewrite (process_payment_not_closed now u cid rid d sr) in Hsucc by done.
    by inversion Hsucc.
  - intros []. by rewrite (process_payment_closed now u cid rid d sr).
  - split; [by apply (process_payment_not_owner now u cid rid d sr)|].
    split; [by apply (process_payment_not_closed now u cid rid d sr)|].
    intros Hown Hst.
    split; [by apply (process_payment_closed now u cid rid d sr)|].
    do 2 (split; [done|]). intros now'.
    rewrite (process_payment_closed now u cid rid d sr) by done. simpl.
    apply (process_payment_not_closed now' u cid rid _ (paid now sr));
      [|simpl; by rewrite lookup_insert_eq|done..].
    by eapply logged_in_customer_frame; [| |exact Hin].
Qed.

(** C6.  For an authenticated customer and an existing request,
    [update_service_request] answers 403 to a customer who does not own
    the request and the warning to an owner of a request that is not in
    REQUESTED, and writes nothing in either case; with a valid form on a
    REQUESTED request of the customer it succeeds, and the database
    differs only in that request's row, whose proposed price is the
    submitted one and whose status, professional, customer, service,
    request and completion dates, remarks and [created_at] are the old
    ones ([updated_at] is stamped by the flush); the reviews are
    untouched. *)
Theorem update_service_request_frame now u cid rid form d sr :
  logged_in_customer d u cid →
  service_requests d !! rid = Some sr →
  let out := update_service_request foreign_keys now u rid form d in
  (ServiceRequests.customer_id sr ≠ cid → out = (abort 403, d))
  ∧ (ServiceRequests.customer_id sr = cid →
     ServiceRequests.service_status sr ≠ REQUESTED →
     out = (redirect
              [("You can only edit requests that are still pending.",
                "warning")] "customer.service_history", d))
  ∧ (ServiceRequests.customer_id sr = cid →
     ServiceRequests.service_status sr = REQUESTED →
     UpdateRequestForm.validate_on_submit form = true →
     out.1 = redirect
               [("Your service request has been updated successfully.",
                 "success")] "customer.service_history"
     ∧ ∃ sr',
         out.2 = set_service_requests
                   (<[rid := sr']> (service_requests d)) d
         ∧ ServiceRequests.proposed_price sr'
           = UpdateRequestForm.proposed_price form
         ∧ ServiceRequests.service_status sr'
           = ServiceRequests.service_status sr
         ∧ ServiceRequests.professional_id sr'
           = ServiceRequests.professional_id sr
         ∧ ServiceRequests.customer_id sr' = ServiceRequests.customer_id sr
         ∧ ServiceRequests.service_id sr' = ServiceRequests.service_id sr
         ∧ ServiceRequests.date_of_request sr'
           = ServiceRequests.date_of_request sr
         ∧ ServiceRequests.date_of_completion sr'
           = ServiceRequests.date_of_completion sr
         ∧ ServiceRequests.remarks sr' = ServiceRequests.remarks sr
         ∧ ServiceRequests.created_at sr' = ServiceRequests.created_at sr
         ∧ reviews out.2 = reviews d).
Proof.
  intros Hin Hsr. simpl. unfold update_service_request.
  destruct (customer_required_pass d u cid Hin) as (c & _ & ->).
  rewrite Hsr. split; [|split].
  - intros Hown. by rewrite decide_True.
  - intros Hown Hst. rewrite decide_False by (by intros ?).
    by rewrite decide_True.
  - intros Hown Hst Hvalid. rewrite decide_False by (by intros ?).
    rewrite decide_False by (by intros ?). rewrite Hvalid.
    pose proof (flush_service_request_cases foreign_keys now d rid sr
                  (ServiceRequests.set_proposed_price
                     (UpdateRequestForm.proposed_price form) sr) Hsr) as Hf.
    destruct (flush_service_request _ _ _ _ _ _) as [d'|].
    + destruct Hf as (t & -> & _). split; [done|].
      eexists. split; [done|]. by repeat split.
    + by destruct Hf as [Hf _].
Qed.

Lemma customer_required_cases d u :
  (∃ cid, logged_in_customer d u cid)
  ∨ (∀ f : option (Z * Customers.t) → response * Db Float,
       customer_required u d f = f None)
  ∨ (∀ f : option (Z * Customers.t) → response * Db Float,
       (customer_required u d f).2 = d
       ∧ ¬ succeeded (customer_required u d f).1).
Proof.
  unfold customer_required.
  destruct (users d !! u) as [user|] eqn:Hu; [|right; right; by split].
  destruct (Users.is_active user) eqn:Hactive; simpl;
    [|right; right; by split].
  destruct (decide (Users.role user ≠ "customer")) as [Hrole|Hrole];
    [right; right; by split|].
  apply dec_stable in Hrole.
  destruct (Users_customer d u) as [[i c]|] eqn:Hc; [|right; by left].
  destruct (Customers.admin_blocked c) eqn:Hb; [right; right; by split|].
  left. exists i, user, c. done.
Qed.

Lemma insert_review_Some d (x : Reviews.t) d1 :
  insert_review foreign_keys d x = Some d1 →
  d1 = set_reviews (<[next_id (reviews d) := x]> (reviews d)) d
  ∧ unreviewed d (Reviews.service_request_id x)
  ∧ 1 ≤ Reviews.rating x ≤ 5
  ∧ is_Some (Reviews.professional_id x).
Proof.
  unfold insert_review. intros Hi.
  destruct (bool_decide (is_Some (Reviews.professional_id x))) eqn:E1;
    [|done].
  destruct (bool_decide (1 ≤ Reviews.rating x ≤ 5)) eqn:E2; [|done].
  destruct (bool_decide (query_first _ (reviews d) = None)) eqn:E3; [|done].
  simpl in Hi. case_match; [|done]. simplify_eq.
  apply bool_decide_eq_true in E1, E2, E3. repeat split; try done; try lia.
  intros k rv Hk Heq. rewrite query_first_None in E3.
  by apply (E3 k rv Hk).
Qed.

Lemma insert_review_reviewed d (x : Reviews.t) k rv :
  reviews d !! k = Some rv →
  Reviews.service_request_id rv = Reviews.service_request_id x →
  insert_review foreign_keys d x = None.
Proof.
  intros Hk Heq. unfold insert_review.
  destruct (bool_decide (is_Some (Reviews.professional_id x))); [|done].
  destruct (bool_decide (1 ≤ Reviews.rating x ≤ 5)); [|done].
  rewrite bool_decide_false; [done|].
  intros Hnone. rewrite query_first_None in Hnone.
  by apply (Hnone k rv Hk).
Qed.

(** Once a review refers to the request, [review_service] writes nothing
    and does not report success. *)
Lemma review_service_reviewed now u rid form d k rv :
  reviews d !! k = Some rv →
  Reviews.service_request_id rv = rid →
  (review_service foreign_keys now u rid form d).2 = d
  ∧ ¬ succeeded (review_service foreign_keys now u rid form d).1.
Proof.
  intros Hk Hrv.
  assert (∀ customer_id sr,
            insert_review foreign_keys d
              (Reviews.Build customer_id (ServiceRequests.professional_id sr)
                 (ServiceRequests.service_id sr) rid (ReviewForm.rating form)
                 (ReviewForm.remarks form) now now) = None) as Hins.
  { intros. by eapply insert_review_reviewed. }
  unfold review_service.
  destruct (customer_required_cases d u) as [[cid Hin]|[Hnone|Hout]];
    [destruct (customer_required_pass d u cid Hin) as (c & _ & ->)
    |rewrite Hnone|apply Hout].
  - destruct (service_requests d !! rid) as [sr|]; [|by split].
    case_decide; [by split|].
    destruct (ReviewForm.validate_on_submit form); [|by split].
    rewrite Hins. by split.
  - by destruct (service_requests d !! rid) as [sr|].
Qed.

(** Past the guards, it reports the failed save. *)
Lemma review_service_reviewed_error now u cid rid form d sr k rv :
  reviews d !! k = Some rv →
  Reviews.service_request_id rv = rid →
  logged_in_customer d u cid →
  service_requests d !! rid = Some sr →
  ServiceRequests.customer_id sr = cid →
  ReviewForm.validate_on_submit form = true →
  (review_service foreign_keys now u rid form d).1
  = redirect [("An error occurred while saving your review.", "danger")]
             "customer.service_history".
Proof.
  intros Hk Hrv Hin Hsr Hown Hvalid. unfold review_service.
  destruct (customer_required_pass d u cid Hin) as (c & _ & ->).
  rewrite Hsr, Hvalid. rewrite decide_False by (by intros ?).
  by erewrite insert_review_reviewed.
Qed.

Lemma review_service_succeeds now u cid rid form d sr d1 :
  logged_in_customer d u cid →
  service_requests d !! rid = Some sr →
  ServiceRequests.customer_id sr = cid →
  ReviewForm.validate_on_submit form = true →
  insert_review foreign_keys d (new_review now cid rid sr form) = Some d1 →
  ∃ sr',
    review_service foreign_keys now u rid form d
    = (redirect
         [("Thank you for your review! You can now proceed to payment.",
           "success")] "customer.service_history",
       set_service_requests (<[rid := sr']> (service_requests d))
         (set_reviews
            (<[next_id (reviews d) := new_review now cid rid sr form]>
               (reviews d)) d))
    ∧ unreviewed d rid
    ∧ ServiceRequests.service_status sr' = CLOSED
    ∧ ServiceRequests.date_of_completion sr' = Some now
    ∧ ServiceRequests.customer_id sr' = cid
    ∧ ServiceRequests.professional_id sr' = ServiceRequests.professional_id sr.
Proof.
  intros Hin Hsr Hown Hvalid Hi. unfold review_service.
  destruct (customer_required_pass d u cid Hin) as (c & _ & ->).
  rewrite Hsr, Hvalid. rewrite decide_False by (by intros ?).
  fold (new_review now cid rid sr form). rewrite Hi. simpl.
  apply insert_review_Some in Hi as (-> & Hunrev & _ & _).
  pose proof (flush_service_request_cases foreign_keys now
                (set_reviews
                   (<[next_id (reviews d) := new_review now cid rid sr form]>
                      (reviews d)) d) rid sr
                (ServiceRequests.set_date_of_completion (Some now)
                   (ServiceRequests.set_service_status CLOSED sr)) Hsr) as Hf.
  destruct (flush_service_request _ _ _ _ _ _) as [d'|].
  - destruct Hf as (t & -> & _). eexists. split; [done|]. by repeat split.
  - by destruct Hf as [Hf _].
Qed.

(** C2.  [review_service] either reports no success and leaves the
    database as it was, or reports success and has, together, inserted
    the review, set the request's status to CLOSED and stamped its
    completion date with the current time.  After such a success every
    further [review_service] on that request leaves the database, hence
    the status, the completion date and the reviews, unchanged and does
    not report success; with a valid form it reports the failed save, the
    [service_request_id] of a review being unique. *)
Theorem review_service_atomic now u rid form d :
  let out := review_service foreign_keys now u rid form d in
  (¬ succeeded out.1 ∧ out.2 = d)
  ∨ (∃ cid sr sr',
       out.1 = redirect
                 [("Thank you for your review! You can now proceed to payment.",
                   "success")] "customer.service_history"
       ∧ service_requests d !! rid = Some sr
       ∧ ServiceRequests.customer_id sr = cid
       ∧ out.2 = set_service_requests (<[rid := sr']> (service_requests d))
                   (set_reviews
                      (<[next_id (reviews d)
                         := new_review now cid rid sr form]> (reviews d)) d)
       ∧ reviews d !! next_id (reviews d) = None
       ∧ ServiceRequests.service_status sr' = CLOSED
       ∧ ServiceRequests.date_of_completion sr' = Some now
       ∧ ∀ now2 form2,
           let out2 := review_service foreign_keys now2 u rid form2 out.2 in
           out2.2 = out.2
           ∧ ¬ succeeded out2.1
           ∧ (ReviewForm.validate_on_submit form2 = true →
              out2.1 = redirect
                         [("An error occurred while saving your review.",
                           "danger")] "customer.service_history")).
Proof.
  simpl.
  destruct (customer_required_cases d u) as [[cid Hin]|[Hnone|Hout]].
  - destruct (service_requests d !! rid) as [sr|] eqn:Hsr.
    2:{ left. unfold review_service.
        destruct (customer_required_pass d u cid Hin) as (c & _ & ->).
        rewrite Hsr. by split. }
    destruct (decide (ServiceRequests.customer_id sr = cid)) as [Hown|Hown].
    2:{ left. unfold review_service.
        destruct (customer_required_pass d u cid Hin) as (c & _ & ->).
        rewrite Hsr. rewrite decide_True by done. by split. }
    destruct (ReviewForm.validate_on_submit form) eqn:Hvalid.
    2:{ left. unfold review_service.
        destruct (customer_required_pass d u cid Hin) as (c & _ & ->).
        rewrite Hsr, Hvalid. rewrite decide_False by (by intros ?).
        by split. }
    destruct (insert_review foreign_keys d (new_review now cid rid sr form))
      as [d1|] eqn:Hi.
    2:{ left. unfold review_service.
        destruct (customer_required_pass d u cid Hin) as (c & _ & ->).
        rewrite Hsr, Hvalid. rewrite decide_False by (by intros ?).
        fold (new_review now cid rid sr form). rewrite Hi. by split. }
    right.
    destruct (review_service_succeeds now u cid rid form d sr d1
                Hin Hsr Hown Hvalid Hi)
      as (sr' & -> & Hunrev & Hst & Hdate & Hcid & _).
    exists cid, sr, sr'. simpl.
    split; [done|]. split; [done|]. split; [done|]. split; [done|].
    split; [apply next_id_fresh|]. split; [done|]. split; [done|].
    intros now2 form2.
    match goal with |- context [review_service _ _ _ _ _ ?d2] =>
      set (d' := d2) end.
    assert (reviews d' !! next_id (reviews d)
            = Some (new_review now cid rid sr form)) as Hrv
      by (subst d'; simpl; by rewrite lookup_insert_eq).
    destruct (review_service_reviewed now2 u rid form2 d' _ _ Hrv eq_refl)
      as [Hsame Hfail].
    split; [done|]. split; [done|]. intros Hvalid2.
    eapply (review_service_reviewed_error now2 u cid rid form2 d' sr');
      [exact Hrv|done| | |done|done].
    + by eapply logged_in_customer_frame; [| |exact Hin].
    + subst d'. simpl. by rewrite lookup_insert_eq.
  - left. unfold review_service. rewrite Hnone.
    by destruct (service_requests d !! rid).
  - left. unfold review_service. split; apply Hout.
Qed.

Lemma insert_review_ok d (x : Reviews.t) p :
  Reviews.professional_id x = Some p →
  1 ≤ Reviews.rating x ≤ 5 →
  unreviewed d (Reviews.service_request_id x) →
  (foreign_keys = true →
   is_Some (customers d !! Reviews.customer_id x)
   ∧ is_Some (service_professionals d !! p)
   ∧ is_Some (services d !! Reviews.service_id x)
   ∧ is_Some (service_requests d !! Reviews.service_request_id x)) →
  insert_review foreign_keys d x
  = Some (set_reviews (<[next_id (reviews d) := x]> (reviews d)) d).
Proof.
  intros Hp Hrating Hunrev Hfk. unfold insert_review, references.
  rewrite Hp. simpl.
  rewrite (bool_decide_true (1 ≤ _ ≤ 5)) by done.
  rewrite (bool_decide_true (query_first _ _ = None)).
  2:{ apply query_first_None. intros k rv Hk. simpl. by apply (Hunrev k). }
  destruct foreign_keys; [|done]. simpl.
  destruct Hfk as (H1 & H2 & H3 & H4); [done|].
  by rewrite !bool_decide_true.
Qed.

(** C5.  [review_service] looks at the ownership of the request and not
    at its status.  For an authenticated customer, a request of theirs in
    any status, REQUESTED included, that no review refers to, and a valid
    form with a rating from 1 to 5, it succeeds, inserts the review and
    sets the request to CLOSED; the request carries a professional, and
    where the engine enforces foreign keys the professional and the
    service it names exist. *)
Theorem review_service_ignores_status now u cid rid form d sr p :
  logged_in_customer d u cid →
  service_requests d !! rid = Some sr →
  ServiceRequests.customer_id sr = cid →
  unreviewed d rid →
  ReviewForm.validate_on_submit form = true →
  1 ≤ ReviewForm.rating form ≤ 5 →
  ServiceRequests.professional_id sr = Some p →
  (foreign_keys = true →
   is_Some (service_professionals d !! p)
   ∧ is_Some (services d !! ServiceRequests.service_id sr)) →
  ∃ sr',
    review_service foreign_keys now u rid form d
    = (redirect
         [("Thank you for your review! You can now proceed to payment.",
           "success")] "customer.service_history",
       set_service_requests (<[rid := sr']> (service_requests d))
         (set_reviews
            (<[next_id (reviews d) := new_review now cid rid sr form]>
               (reviews d)) d))
    ∧ reviews d !! next_id (reviews d) = None
    ∧ Reviews.rating (new_review now cid rid sr form) = ReviewForm.rating form
    ∧ ServiceRequests.service_status sr' = CLOSED
    ∧ ServiceRequests.date_of_completion sr' = Some now.
Proof.
  intros Hin Hsr Hown Hunrev Hvalid Hrating Hp Hfk.
  destruct (customer_required_pass d u cid Hin) as (c & Hc & _).
  assert (insert_review foreign_keys d (new_review now cid rid sr form)
          = Some (set_reviews
                    (<[next_id (reviews d)
                       := new_review now cid rid sr form]> (reviews d)) d))
    as Hi.
  { apply (insert_review_ok _ _ p); [done..|]. simpl. intros Hon.
    destruct (Hfk Hon). eauto. }
  destruct (review_service_succeeds now u cid rid form d sr _
              Hin Hsr Hown Hvalid Hi)
    as (sr' & Heq & _ & Hst & Hdate & _).
  exists sr'. split; [done|]. split; [apply next_id_fresh|]. done.
Qed.

Lemma raw_professionals_eligible d service_id q pid prof :
  (pid, prof) ∈ raw_professionals ilike d service_id q →
  service_professionals d !! pid = Some prof
  ∧ ServiceProfessionals.is_verified prof = true
  ∧ ServiceProfessionals.admin_blocked prof = false.
Proof.
  unfold raw_professionals. rewrite elem_of_map_to_list.
  rewrite map_lookup_filter_Some. intros [Hp Hf]. split; [done|].
  unfold dashboard_filter in Hf. simpl in Hf.
  destruct (users d !! _); [|done]. destruct (services d !! _); [|done].
  destruct (ServiceProfessionals.is_verified prof); [|done].
  by destruct (ServiceProfessionals.admin_blocked prof).
Qed.

(** C10.  [book_service] does not look at the professional's
    [is_verified] and [admin_blocked].  For an authenticated customer, an
    existing professional with any flags, a valid form, a date that
    parses and no active request of the customer with the professional,
    it inserts the request in REQUESTED (where foreign keys are enforced
    the form's service exists).  It is the listing of
    [customer_dashboard] that leaves out a professional who is not
    verified or is blocked. *)
Theorem book_service_ignores_flags now u cid pid form date_str date_obj d
    prof :
  logged_in_customer d u cid →
  service_professionals d !! pid = Some prof →
  BookingForm.validate_on_submit form = true →
  date_str ≫= strptime = Some date_obj →
  (∀ k r, service_requests d !! k = Some r →
          ServiceRequests.customer_id r = cid →
          ServiceRequests.professional_id r = Some pid →
          active (ServiceRequests.service_status r) = false) →
  (foreign_keys = true → is_Some (services d !! BookingForm.service_id form)) →
  book_service foreign_keys strptime now u pid form date_str d
  = (redirect [("Your service request has been sent!", "success")]
              "customer.service_history",
     set_service_requests
       (<[next_id (service_requests d)
          := new_request now cid pid form date_obj]> (service_requests d)) d)
  ∧ service_requests d !! next_id (service_requests d) = None
  ∧ ServiceRequests.service_status (new_request now cid pid form date_obj)
    = REQUESTED
  ∧ (ServiceProfessionals.is_verified prof = false
     ∨ ServiceProfessionals.admin_blocked prof = true →
     ∀ service_id q, (pid, prof) ∉ raw_professionals ilike d service_id q).
Proof.
  intros Hin Hprof Hvalid Hdate Hnone Hfk.
  split; [|split; [apply next_id_fresh|split; [done|]]].
  - unfold book_service.
    destruct (customer_required_pass d u cid Hin) as (c & Hc & ->).
    rewrite Hprof, Hvalid, Hdate.
    destruct (query_first _ (service_requests d)) as [[k r]|] eqn:Hq.
    { apply query_first_Some in Hq as (Hk & H1 & H2 & H3). simpl in *.
      rewrite (Hnone k r Hk H1 H2) in H3. done. }
    fold (new_request now cid pid form date_obj).
    unfold insert_service_request, references. simpl.
    destruct foreign_keys; [|done]. simpl.
    rewrite !bool_decide_true; eauto.
  - intros Hflags service_id q Hlisted.
    apply raw_professionals_eligible in Hlisted as (_ & Hv & Hb).
    destruct Hflags; congruence.
Qed.

(** *** The completed-jobs count *)

Lemma query_count_lookup {A} (P : Z * A → Prop) `{!∀ x, Decision (P x)}
    (m : gmap Z A) k x :
  m !! k = Some x →
  query_count P m
  = ((if decide (P (k, x)) then 1 else 0) + query_count P (delete k m))%nat.
Proof.
  intros Hk. unfold query_count.
  rewrite <- (insert_delete_id m k x Hk) at 1.
  rewrite map_filter_insert. case_decide.
  - rewrite map_size_insert_None; [done|].
    apply map_lookup_filter_None_2. left. apply lookup_delete_eq.
  - by rewrite delete_delete_eq.
Qed.

Lemma query_count_insert {A} (P : Z * A → Prop) `{!∀ x, Decision (P x)}
    (m : gmap Z A) k x :
  query_count P (<[k:=x]> m)
  = ((if decide (P (k, x)) then 1 else 0) + query_count P (delete k m))%nat.
Proof.
  rewrite (query_count_lookup P (<[k:=x]> m) k x) by apply lookup_insert_eq.
  by rewrite delete_insert_eq.
Qed.

(** C9.  [jobs_count] is the number of requests assigned to the
    professional whose status is CLOSED: it is 0 on an empty table, and
    any request of the table contributes 1 when it names that professional
    and is CLOSED, and 0 otherwise: a request of another professional or
    of none is not counted whatever its status, nor is a request of the
    professional in another status, PAID included.  Hence a successful
    [process_payment] on a CLOSED request of the professional lowers the
    count by one, and leaves the count of every other professional as it
    was. *)
Theorem jobs_count_closed_only rid d sr p :
  service_requests d !! rid = Some sr →
  let rest := set_service_requests (delete rid (service_requests d)) d in
  jobs_count (set_service_requests ∅ d) p = 0%nat
  ∧ jobs_count d p
    = ((if decide (ServiceRequests.professional_id sr = Some p
                   ∧ ServiceRequests.service_status sr = CLOSED)
        then 1 else 0) + jobs_count rest p)%nat
  ∧ (ServiceRequests.professional_id sr ≠ Some p →
     jobs_count d p = jobs_count rest p)
  ∧ (ServiceRequests.service_status sr ≠ CLOSED →
     jobs_count d p = jobs_count rest p)
  ∧ (ServiceRequests.professional_id sr = Some p →
     ServiceRequests.service_status sr = CLOSED →
     jobs_count d p = S (jobs_count rest p))
  ∧ (∀ now u,
       logged_in_customer d u (ServiceRequests.customer_id sr) →
       ServiceRequests.service_status sr = CLOSED →
       succeeded (process_payment foreign_keys now u rid d).1
       ∧ jobs_count (process_payment foreign_keys now u rid d).2 p
         = jobs_count rest p
       ∧ (ServiceRequests.professional_id sr = Some p →
          jobs_count d p
          = S (jobs_count (process_payment foreign_keys now u rid d).2 p))
       ∧ (ServiceRequests.professional_id sr ≠ Some p →
          jobs_count (process_payment foreign_keys now u rid d).2 p
          = jobs_count d p)).
Proof.
  intros Hsr. unfold jobs_count. simpl.
  pose proof (query_count_lookup
                (λ kv : Z * ServiceRequests.t Float,
                   ServiceRequests.professional_id kv.2 = Some p
                   ∧ ServiceRequests.service_status kv.2 = CLOSED)
                (service_requests d) rid sr Hsr) as Hcount.
  simpl in Hcount.
  split; [by unfold query_count; rewrite map_filter_empty|].
  split; [exact Hcount|]. split; [|split; [|split]].
  - intros Hp. rewrite Hcount. by rewrite decide_False by (by intros [? _]).
  - intros Hst. rewrite Hcount. by rewrite decide_False by (by intros [_ ?]).
  - intros Hp Hst. rewrite Hcount. by rewrite decide_True.
  - intros now u Hin Hst.
    rewrite (process_payment_closed now u _ rid d sr Hin Hsr eq_refl Hst).
    split; [done|]. simpl.
    assert (query_count
              (λ kv : Z * ServiceRequests.t Float,
                 ServiceRequests.professional_id kv.2 = Some p
                 ∧ ServiceRequests.service_status kv.2 = CLOSED)
              (<[rid := paid now sr]> (service_requests d))
            = query_count
                (λ kv : Z * ServiceRequests.t Float,
                   ServiceRequests.professional_id kv.2 = Some p
                   ∧ ServiceRequests.service_status kv.2 = CLOSED)
                (delete rid (service_requests d))) as Hpaid.
    { rewrite query_count_insert. simpl.
      by rewrite decide_False by (by intros [_ ?]). }
    split; [exact Hpaid|]. rewrite Hpaid, Hcount. split.
    + intros Hp. by rewrite decide_True.
    + intros Hp. by rewrite decide_False by (by intros [? _]).
Qed.

(** *** One active request per customer and professional *)

Lemma unique_active_replace d rid (old new : ServiceRequests.t Float) :
  unique_active d →
  service_requests d !! rid = Some old →
  ServiceRequests.customer_id new = ServiceRequests.customer_id old →
  ServiceRequests.professional_id new = ServiceRequests.professional_id old →
  (active (ServiceRequests.service_status new) = true →
   active (ServiceRequests.service_status old) = true) →
  unique_active
    (set_service_requests (<[rid := new]> (service_requests d)) d).
Proof.
  intros Hu Hold Hc Hp Ha i j x y p Hi Hj. simpl in Hi, Hj.
  rewrite lookup_insert in Hi, Hj.
  destruct (decide (rid = i)) as [<-|Hni], (decide (rid = j)) as [<-|Hnj];
    simplify_eq; [done|..].
  - rewrite Hc, Hp. intros. apply (Hu rid j old y p); auto.
  - rewrite Hc, Hp. intros. apply (Hu i rid x old p); auto.
  - apply Hu; auto.
Qed.

Lemma unique_active_fresh d k (new : ServiceRequests.t Float) p :
  unique_active d →
  service_requests d !! k = None →
  ServiceRequests.professional_id new = Some p →
  (∀ j y, service_requests d !! j = Some y →
          ServiceRequests.customer_id y = ServiceRequests.customer_id new →
          ServiceRequests.professional_id y = Some p →
          active (ServiceRequests.service_status y) = false) →
  unique_active
    (set_service_requests (<[k := new]> (service_requests d)) d).
Proof.
  intros Hu Hk Hp Hnone i j x y q Hi Hj. simpl in Hi, Hj.
  rewrite lookup_insert in Hi, Hj.
  destruct (decide (k = i)) as [<-|Hni], (decide (k = j)) as [<-|Hnj];
    simplify_eq; [done|..].
  - intros Hc Hq1 Hq2 _ Hact. assert (q = p) as -> by congruence.
    rewrite (Hnone j y Hj (eq_sym Hc) Hq2) in Hact. done.
  - intros Hc Hq1 Hq2 Hact _. assert (q = p) as -> by congruence.
    rewrite (Hnone i x Hi Hc Hq1) in Hact. done.
  - apply Hu; auto.
Qed.

(** A flush that keeps the customer and the professional of the row and
    does not make an inactive request active keeps the invariant. *)
Lemma flush_service_request_unique_active now d rid
    (old new : ServiceRequests.t Float) d' :
  unique_active d →
  service_requests d !! rid = Some old →
  ServiceRequests.customer_id new = ServiceRequests.customer_id old →
  ServiceRequests.professional_id new = ServiceRequests.professional_id old →
  (active (ServiceRequests.service_status new) = true →
   active (ServiceRequests.service_status old) = true) →
  flush_service_request foreign_keys now d rid old new = Some d' →
  unique_active d'.
Proof.
  intros Hu Hold Hc Hp Ha Hf.
  pose proof (flush_service_request_cases foreign_keys now d rid old new Hold)
    as Hcases.
  rewrite Hf in Hcases. destruct Hcases as (t & -> & _).
  by apply (unique_active_replace d rid old).
Qed.

(** [book_service] writes nothing when the customer already has an active
    request with the professional. *)
Lemma book_service_duplicate now u cid pid form date_str d k r :
  logged_in_customer d u cid →
  service_requests d !! k = Some r →
  ServiceRequests.customer_id r = cid →
  ServiceRequests.professional_id r = Some pid →
  active (ServiceRequests.service_status r) = true →
  (book_service foreign_keys strptime now u pid form date_str d).2 = d
  ∧ ¬ succeeded
        (book_service foreign_keys strptime now u pid form date_str d).1.
Proof.
  intros Hin Hk Hc Hp Ha. unfold book_service.
  destruct (customer_required_pass d u cid Hin) as (c & _ & ->).
  destruct (service_professionals d !! pid); [|by split].
  destruct (BookingForm.validate_on_submit form); [|by split].
  destruct (date_str ≫= strptime); [|by split].
  destruct (query_first _ (service_requests d)) as [[k' r']|] eqn:Hq;
    [by split|].
  rewrite query_first_None in Hq. destruct (Hq k r Hk). by simpl.
Qed.

Lemma book_service_unique_active now u pid form date_str d :
  unique_active d →
  unique_active (book_service foreign_keys strptime now u pid form date_str d).2.
Proof.
  intros Hu. unfold book_service.
  destruct (customer_required_frame d u) as [[c ->]|Hout];
    [|by rewrite (proj1 (Hout _))].
  destruct (service_professionals d !! pid); [|done].
  destruct (BookingForm.validate_on_submit form); [|done].
  destruct (date_str ≫= strptime) as [date_obj|]; [|done].
  destruct c as [[cid c]|]; [|done].
  destruct (query_first _ (service_requests d)) as [[k' r']|] eqn:Hq;
    [done|].
  rewrite query_first_None in Hq.
  destruct (insert_service_request _ _ _) as [d'|] eqn:Hi; [|done].
  apply insert_service_request_Some in Hi as [-> _]. simpl.
  apply (unique_active_fresh d _ _ pid); [done|apply next_id_fresh|done|].
  intros j y Hj Hc Hp. specialize (Hq j y Hj). simpl in *.
  destruct (active (ServiceRequests.service_status y)); [|done].
  destruct Hq. done.
Qed.

Lemma update_service_request_unique_active now u rid form d :
  unique_active d →
  unique_active (update_service_request foreign_keys now u rid form d).2.
Proof.
  intros Hu. unfold update_service_request.
  destruct (customer_required_frame d u) as [[c ->]|Hout];
    [|by rewrite (proj1 (Hout _))].
  destruct (service_requests d !! rid) as [sr|] eqn:Hsr; [|done].
  destruct c as [[cid c]|]; [|done].
  repeat (case_decide; [done|]).
  destruct (UpdateRequestForm.validate_on_submit form); [|done].
  destruct (flush_service_request _ _ _ _ _ _) as [d'|] eqn:Hf; [|done].
  simpl.
  by apply (flush_service_request_unique_active now d rid sr _ d' Hu Hsr)
    in Hf.
Qed.

Lemma process_payment_unique_active now u rid d :
  unique_active d →
  unique_active (process_payment foreign_keys now u rid d).2.
Proof.
  intros Hu. unfold process_payment.
  destruct (customer_required_frame d u) as [[c ->]|Hout];
    [|by rewrite (proj1 (Hout _))].
  destruct (service_requests d !! rid) as [sr|] eqn:Hsr; [|done].
  destruct c as [[cid c]|]; [|done].
  repeat (case_decide; [done|]).
  destruct (flush_service_request _ _ _ _ _ _) as [d'|] eqn:Hf; [|done].
  simpl.
  by apply (flush_service_request_unique_active now d rid sr _ d' Hu Hsr)
    in Hf.
Qed.

Lemma review_service_unique_active now u rid form d :
  unique_active d →
  unique_active (review_service foreign_keys now u rid form d).2.
Proof.
  intros Hu. unfold review_service.
  destruct (customer_required_frame d u) as [[c ->]|Hout];
    [|by rewrite (proj1 (Hout _))].
  destruct (service_requests d !! rid) as [sr|] eqn:Hsr; [|done].
  destruct c as [[cid c]|]; [|done].
  case_decide; [done|].
  destruct (ReviewForm.validate_on_submit form); [|done].
  destruct (insert_review _ _ _) as [d1|] eqn:Hi; [|done]. simpl.
  apply insert_review_Some in Hi as (-> & _).
  destruct (flush_service_request _ _ _ _ _ _) as [d'|] eqn:Hf; [|done].
  simpl.
  by apply (flush_service_request_unique_active now (set_reviews _ d) rid sr
              _ d' Hu Hsr) in Hf.
Qed.

(** *** The customer's routes keep the requests referentially intact *)

Lemma book_service_well_referenced now u pid form date_str d :
  well_referenced foreign_keys d →
  well_referenced foreign_keys
    (book_service foreign_keys strptime now u pid form date_str d).2.
Proof.
  intros Hwf. unfold book_service.
  destruct (customer_required_frame d u) as [[c ->]|Hout];
    [|by rewrite (proj1 (Hout _))].
  destruct (service_professionals d !! pid); [|done].
  destruct (BookingForm.validate_on_submit form); [|done].
  destruct (date_str ≫= strptime) as [date_obj|]; [|done].
  destruct c as [[cid c]|]; [|done].
  destruct (query_first _ (service_requests d)); [done|].
  destruct (insert_service_request _ _ _) as [d'|] eqn:Hi; [|done].
  apply insert_service_request_Some in Hi as [-> Hfk]. simpl.
  apply (well_referenced_insert foreign_keys d _ _ pid); [done..|].
  intros Hon. destruct (Hfk Hon) as [Hs Hp]. split; [by apply Hp|done].
Qed.

Lemma update_service_request_well_referenced now u rid form d :
  well_referenced foreign_keys d →
  well_referenced foreign_keys
    (update_service_request foreign_keys now u rid form d).2.
Proof.
  intros Hwf. unfold update_service_request.
  destruct (customer_required_frame d u) as [[c ->]|Hout];
    [|by rewrite (proj1 (Hout _))].
  destruct (service_requests d !! rid) as [sr|] eqn:Hsr; [|done].
  destruct c as [[cid c]|]; [|done].
  repeat (case_decide; [done|]).
  destruct (UpdateRequestForm.validate_on_submit form); [|done].
  destruct (flush_service_request _ _ _ _ _ _) as [d'|] eqn:Hf; [|done].
  simpl.
  apply (flush_service_request_well_referenced foreign_keys now d rid sr _ d'
           Hwf Hsr) in Hf; [done|done|].
  destruct (Hwf rid sr Hsr) as (p & Hp & _). simpl. eauto.
Qed.

Lemma process_payment_well_referenced now u rid d :
  well_referenced foreign_keys d →
  well_referenced foreign_keys (process_payment foreign_keys now u rid d).2.
Proof.
  intros Hwf. unfold process_payment.
  destruct (customer_required_frame d u) as [[c ->]|Hout];
    [|by rewrite (proj1 (Hout _))].
  destruct (service_requests d !! rid) as [sr|] eqn:Hsr; [|done].
  destruct c as [[cid c]|]; [|done].
  repeat (case_decide; [done|]).
  destruct (flush_service_request _ _ _ _ _ _) as [d'|] eqn:Hf; [|done].
  simpl.
  apply (flush_service_request_well_referenced foreign_keys now d rid sr _ d'
           Hwf Hsr) in Hf; [done|done|].
  destruct (Hwf rid sr Hsr) as (p & Hp & _). simpl. eauto.
Qed.

Lemma review_service_well_referenced now u rid form d :
  well_referenced foreign_keys d →
  well_referenced foreign_keys
    (review_service foreign_keys now u rid form d).2.
Proof.
  intros Hwf. unfold review_service.
  destruct (customer_required_frame d u) as [[c ->]|Hout];
    [|by rewrite (proj1 (Hout _))].
  destruct (service_requests d !! rid) as [sr|] eqn:Hsr; [|done].
  destruct c as [[cid c]|]; [|done].
  case_decide; [done|].
  destruct (ReviewForm.validate_on_submit form); [|done].
  destruct (insert_review _ _ _) as [d1|] eqn:Hi; [|done]. simpl.
  apply insert_review_Some in Hi as (-> & _).
  destruct (flush_service_request _ _ _ _ _ _) as [d'|] eqn:Hf; [|done].
  simpl.
  apply (flush_service_request_well_referenced foreign_keys now
           (set_reviews _ d) rid sr _ d' Hwf Hsr) in Hf; [done|done|].
  destruct (Hwf rid sr Hsr) as (p & Hp & _). simpl. eauto.
Qed.

(** Hence, in a database reached through these routes, the conditions of
    [review_service_ignores_status] on the store hold of themselves. *)
Lemma review_service_on_well_referenced now u cid rid form d sr :
  well_referenced foreign_keys d →
  logged_in_customer d u cid →
  service_requests d !! rid = Some sr →
  ServiceRequests.customer_id sr = cid →
  ServiceRequests.service_status sr = REQUESTED →
  unreviewed d rid →
  ReviewForm.validate_on_submit form = true →
  1 ≤ ReviewForm.rating form ≤ 5 →
  succeeded (review_service foreign_keys now u rid form d).1
  ∧ ∃ sr',
      service_requests (review_service foreign_keys now u rid form d).2 !! rid
      = Some sr'
      ∧ ServiceRequests.service_status sr' = CLOSED.
Proof.
  intros Hwf Hin Hsr Hown _ Hunrev Hvalid Hrating.
  destruct (Hwf rid sr Hsr) as (p & Hp & Hfk).
  destruct (customer_required_pass d u cid Hin) as (c & Hc & _).
  assert (insert_review foreign_keys d (new_review now cid rid sr form)
          = Some (set_reviews
                    (<[next_id (reviews d)
                       := new_review now cid rid sr form]> (reviews d)) d))
    as Hi.
  { apply (insert_review_ok _ _ p); [done..|]. simpl. intros Hon.
    destruct (Hfk Hon). eauto. }
  destruct (review_service_succeeds now u cid rid form d sr _
              Hin Hsr Hown Hvalid Hi)
    as (sr' & -> & _ & Hst & _).
  split; [done|]. exists sr'. simpl. by rewrite lookup_insert_eq.
Qed.

End customer_routes.

(** ** The administrator's operations *)

Section admin_routes.
Context {Float : Type} `{!EqDecision Float}.
Variable foreign_keys : bool.
Implicit Type d : Db Float.
Implicit Type sr : ServiceRequests.t Float.

(** C4.  For an active administrator, an existing request and a selected
    professional, [reassign_professional] on a request whose status is not
    REJECTED gives the warning and writes nothing, and it succeeds only on
    a REJECTED request.  On a REJECTED request it either succeeds, and the
    request's row then has both the new professional and the status
    REQUESTED, or, the engine enforcing foreign keys and the professional
    not existing, reports a database error and writes nothing, or, the
    new professional id being outside the 64-bit range of the store,
    raises [OverflowError] and writes nothing; no outcome has one of the
    two updates without the other. *)
Theorem reassign_professional_rejected_only now u rid p d sr :
  logged_in_admin d u →
  service_requests d !! rid = Some sr →
  p ≠ 0 →
  let out := reassign_professional foreign_keys now u rid (Some p) d in
  (ServiceRequests.service_status sr ≠ REJECTED →
   out = (redirect [("Only rejected requests can be reassigned.", "warning")]
                   "admin.admin_dashboard", d))
  ∧ (succeeded out.1 → ServiceRequests.service_status sr = REJECTED)
  ∧ (ServiceRequests.service_status sr = REJECTED →
     (out.1 = redirect
                [("Request #" +:+ pretty rid
                  +:+ " has been reassigned successfully.", "success")]
                "admin.admin_dashboard"
      ∧ (ServiceRequests.professional_id sr = Some p ∨ sqlite_integer p)
      ∧ ∃ sr',
          out.2 = set_service_requests
                    (<[rid := sr']> (service_requests d)) d
          ∧ ServiceRequests.professional_id sr' = Some p
          ∧ ServiceRequests.service_status sr' = REQUESTED
          ∧ ServiceRequests.customer_id sr' = ServiceRequests.customer_id sr
          ∧ ServiceRequests.service_id sr' = ServiceRequests.service_id sr
          ∧ ServiceRequests.proposed_price sr'
            = ServiceRequests.proposed_price sr
          ∧ ServiceRequests.date_of_request sr'
            = ServiceRequests.date_of_request sr
          ∧ ServiceRequests.date_of_completion sr'
            = ServiceRequests.date_of_completion sr)
     ∨ (out = (redirect [("Database error during reassignment.", "danger")]
                        "admin.admin_dashboard", d)
        ∧ sqlite_integer p
        ∧ foreign_keys = true
        ∧ service_professionals d !! p = None)
     ∨ (out = (raise "OverflowError", d)
        ∧ ¬ sqlite_integer p
        ∧ ServiceRequests.professional_id sr ≠ Some p))
  ∧ (ServiceRequests.service_status sr = REJECTED →
     sqlite_integer p →
     foreign_keys = false ∨ is_Some (service_professionals d !! p) →
     succeeded out.1)
  ∧ (ServiceRequests.service_status sr = REJECTED →
     ¬ sqlite_integer p →
     ServiceRequests.professional_id sr ≠ Some p →
     out = (raise "OverflowError", d)).
Proof.
  intros Hin Hsr Hp. simpl. unfold reassign_professional.
  rewrite (admin_required_pass d u _ Hin), Hsr.
  assert (∀ X Y : response * Db Float,
            match p with 0 => X | _ => Y end = Y) as -> by (by destruct p).
  pose proof (flush_service_request_cases foreign_keys now d rid sr
                (ServiceRequests.set_service_status REQUESTED
                   (ServiceRequests.set_professional_id (Some p) sr)) Hsr)
    as Hf.
  split; [|split; [|split; [|split]]].
  - intros Hst. by rewrite decide_True.
  - case_decide as Hst; [by intros ?|]. by intros _.
  - intros Hst. rewrite decide_False by (by intros ?).
    destruct (decide (ServiceRequests.professional_id sr ≠ Some p
                      ∧ ¬ sqlite_integer p)) as [[Hne Hout]|Hrange].
    { right. by right. }
    assert (ServiceRequests.professional_id sr = Some p ∨ sqlite_integer p)
      as Hok.
    { destruct (decide (ServiceRequests.professional_id sr = Some p));
        [by left|].
      destruct (decide (sqlite_integer p)); [by right|].
      by destruct Hrange. }
    destruct (flush_service_request _ _ _ _ _ _) as [d'|].
    + left. destruct Hf as (t & -> & _). split; [done|]. split; [done|].
      eexists. split; [done|]. by repeat split.
    + right. left. destruct Hf as (Hchanged & p' & Hp' & Hfk & Hnone).
      simpl in Hp'. simplify_eq. split; [done|].
      split; [|done]. destruct Hok as [Hsame|?]; [|done].
      destruct Hchanged. simpl. by rewrite Hsame.
  - intros Hst Hrange Href. rewrite decide_False by (by intros ?).
    rewrite decide_False by (by intros [_ ?]).
    destruct (flush_service_request _ _ _ _ _ _) as [d'|]; [done|].
    destruct Hf as (_ & p' & Hp' & Hfk & Hnone). simpl in Hp'. simplify_eq.
    destruct Href as [?|[? ?]]; congruence.
  - intros Hst Hout Hne. rewrite decide_False by (by intros ?).
    by rewrite decide_True.
Qed.

(** *** Verification of professionals *)

(** The second run of a verification route: the decorator and the lookup
    answer as in the first run, and the flush finds no net change. *)
Local Ltac second_run Hu Hactive Hprof Hpu :=
  simpl; rewrite Hu, Hactive; simpl; rewrite decide_False by done;
  rewrite ?Hprof, ?lookup_insert_eq;
  rewrite decide_True by (done || by match goal with
                                     | p : ServiceProfessionals.t |- _ =>
                                       destruct p
                                     end);
  simpl; by rewrite Hpu.

Lemma approve_professional_again now1 now2 u pid d :
  approve_professional now2 u pid (approve_professional now1 u pid d).2
  = approve_professional now1 u pid d.
Proof.
  unfold approve_professional, admin_required.
  destruct (users d !! u) as [user|] eqn:Hu; simpl; [|by rewrite Hu].
  destruct (Users.is_active user) eqn:Hactive; simpl;
    [|by rewrite Hu, Hactive].
  destruct (decide (Users.role user ≠ "admin")) as [Hrole|Hrole]; simpl.
  { rewrite Hu, Hactive. simpl. by rewrite decide_True. }
  destruct (service_professionals d !! pid) as [prof|] eqn:Hprof; simpl.
  2:{ rewrite Hu, Hactive. simpl. rewrite decide_False by done.
      by rewrite Hprof. }
  unfold flush_professional.
  destruct (decide (_ = prof)) as [Heq|Heq]; simpl;
    destruct (users d !! ServiceProfessionals.user_id prof) eqn:Hpu;
    second_run Hu Hactive Hprof Hpu.
Qed.

Lemma reject_professional_again now1 now2 u pid d :
  reject_professional now2 u pid (reject_professional now1 u pid d).2
  = reject_professional now1 u pid d.
Proof.
  unfold reject_professional, admin_required.
  destruct (users d !! u) as [user|] eqn:Hu; simpl; [|by rewrite Hu].
  destruct (Users.is_active user) eqn:Hactive; simpl;
    [|by rewrite Hu, Hactive].
  destruct (decide (Users.role user ≠ "admin")) as [Hrole|Hrole]; simpl.
  { rewrite Hu, Hactive. simpl. by rewrite decide_True. }
  destruct (service_professionals d !! pid) as [prof|] eqn:Hprof; simpl.
  2:{ rewrite Hu, Hactive. simpl. rewrite decide_False by done.
      by rewrite Hprof. }
  unfold flush_professional.
  destruct (decide (_ = prof)) as [Heq|Heq]; simpl;
    destruct (users d !! ServiceProfessionals.user_id prof) eqn:Hpu;
    second_run Hu Hactive Hprof Hpu.
Qed.

(** What the two routes leave in the professional's row. *)
Lemma approve_professional_flags now u pid d prof :
  logged_in_admin d u →
  service_professionals d !! pid = Some prof →
  ∃ prof',
    service_professionals (approve_professional now u pid d).2 !! pid
    = Some prof'
    ∧ ServiceProfessionals.is_verified prof' = true
    ∧ ServiceProfessionals.verification_failed prof' = false
    ∧ ServiceProfessionals.admin_blocked prof'
      = ServiceProfessionals.admin_blocked prof.
Proof.
  intros Hin Hprof. unfold approve_professional.
  rewrite (admin_required_pass d u _ Hin), Hprof. unfold flush_professional.
  destruct (decide (_ = prof)) as [Heq|Heq].
  - exists prof.
    assert (service_professionals
              (match users d !! ServiceProfessionals.user_id prof with
               | Some user =>
                 (redirect
                    [("Professional " +:+ Users.username user
                      +:+ " has been approved.", "success")]
                    "admin.admin_dashboard", d)
               | None => (raise "AttributeError", d)
               end).2 = service_professionals d) as ->
      by (by destruct (users d !! _)).
    split; [done|]. rewrite <- Heq at 1 2. done.
  - eexists. split.
    + simpl. destruct (users d !! _); simpl; apply lookup_insert_eq.
    + done.
Qed.

Lemma reject_professional_flags now u pid d prof :
  logged_in_admin d u →
  service_professionals d !! pid = Some prof →
  ∃ prof',
    service_professionals (reject_professional now u pid d).2 !! pid
    = Some prof'
    ∧ ServiceProfessionals.is_verified prof' = false
    ∧ ServiceProfessionals.verification_failed prof' = true
    ∧ ServiceProfessionals.admin_blocked prof'
      = ServiceProfessionals.admin_blocked prof.
Proof.
  intros Hin Hprof. unfold reject_professional.
  rewrite (admin_required_pass d u _ Hin), Hprof. unfold flush_professional.
  destruct (decide (_ = prof)) as [Heq|Heq].
  - exists prof.
    assert (service_professionals
              (match users d !! ServiceProfessionals.user_id prof with
               | Some user =>
                 (redirect
                    [("Professional " +:+ Users.username user
                      +:+ " has been rejected.", "warning")]
                    "admin.admin_dashboard", d)
               | None => (raise "AttributeError", d)
               end).2 = service_professionals d) as ->
      by (by destruct (users d !! _)).
    split; [done|]. rewrite <- Heq at 1 2. done.
  - eexists. split.
    + simpl. destruct (users d !! _); simpl; apply lookup_insert_eq.
    + done.
Qed.

(** C8.  [approve_professional] and [reject_professional] are idempotent:
    run again on the database the first run left, each returns the same
    response and the same database, whatever the clock.  For an active
    administrator and an existing professional, the row has [is_verified]
    and not [verification_failed] after [approve_professional] and the
    reverse after [reject_professional], so the two flags are not both
    set. *)
Theorem verification_idempotent now1 now2 u pid d :
  approve_professional now2 u pid (approve_professional now1 u pid d).2
  = approve_professional now1 u pid d
  ∧ reject_professional now2 u pid (reject_professional now1 u pid d).2
    = reject_professional now1 u pid d
  ∧ ∀ prof,
      logged_in_admin d u →
      service_professionals d !! pid = Some prof →
      (∃ prof',
         service_professionals (approve_professional now1 u pid d).2 !! pid
         = Some prof'
         ∧ ServiceProfessionals.is_verified prof' = true
         ∧ ServiceProfessionals.verification_failed prof' = false)
      ∧ (∃ prof',
           service_professionals (reject_professional now1 u pid d).2 !! pid
           = Some prof'
           ∧ ServiceProfessionals.is_verified prof' = false
           ∧ ServiceProfessionals.verification_failed prof' = true).
Proof.
  split; [apply approve_professional_again|].
  split; [apply reject_professional_again|].
  intros prof Hin Hprof. split.
  - destruct (approve_professional_flags now1 u pid d prof Hin Hprof)
      as (prof' & ? & ? & ? & _). eauto.
  - destruct (reject_professional_flags now1 u pid d prof Hin Hprof)
      as (prof' & ? & ? & ? & _). eauto.
Qed.

(** *** Blocking *)

(** C7.  On an account with neither a customer nor a professional
    profile, [toggle_user_block] writes nothing and flashes that the
    profile was not found.  [block_user] and [unblock_user], through
    [_toggle_block_status], write nothing either, but for a role other
    than [customer] and [professional], such as [admin], they flash that
    the user has been blocked, or unblocked, and for those two roles they
    raise. *)
Theorem block_user_without_profile now u uid action d user :
  logged_in_admin d u →
  users d !! uid = Some user →
  Users_customer d uid = None →
  Users_professional d uid = None →
  toggle_user_block now u uid action d
  = (redirect [("User profile not found.", "danger")]
              "admin.admin_dashboard", d)
  ∧ (Users.role user ≠ "customer" →
     Users.role user ≠ "professional" →
     block_user now u uid d
     = (redirect
          [("User " +:+ Users.username user +:+ " has been blocked.",
            "warning")] "admin.admin_dashboard", d)
     ∧ unblock_user now u uid d
       = (redirect
            [("User " +:+ Users.username user +:+ " has been unblocked.",
              "info")] "admin.admin_dashboard", d))
  ∧ (Users.role user = "customer" ∨ Users.role user = "professional" →
     block_user now u uid d = (raise "AttributeError", d)
     ∧ unblock_user now u uid d = (raise "AttributeError", d)).
Proof.
  intros Hin Hu Hc Hp.
  unfold toggle_user_block, block_user, unblock_user, _toggle_block_status.
  rewrite !(admin_required_pass d u _ Hin), Hu, Hc, Hp.
  split; [by repeat case_decide|]. split.
  - intros ??. by rewrite !decide_False by done.
  - intros [Hrole|Hrole]; repeat case_decide; done.
Qed.

(** *** The administrator's routes keep the requests referentially
    intact *)

Lemma reassign_professional_well_referenced now u rid new_prof_id d :
  well_referenced foreign_keys d →
  well_referenced foreign_keys
    (reassign_professional foreign_keys now u rid new_prof_id d).2.
Proof.
  intros Hwf. unfold reassign_professional.
  destruct (admin_required_frame d u) as [->|Hout];
    [|by rewrite (proj1 (Hout _))].
  destruct (service_requests d !! rid) as [sr|] eqn:Hsr; [|done].
  destruct new_prof_id as [[|p|p]|]; [done| | |done].
  all: case_decide; [done|].
  all: case_decide; [done|].
  all: destruct (flush_service_request _ _ _ _ _ _) as [d'|] eqn:Hf; [|done].
  all: simpl.
  all: apply (flush_service_request_well_referenced foreign_keys now d rid sr
                _ d' Hwf Hsr) in Hf; [done|done|simpl; eauto].
Qed.

Lemma approve_professional_well_referenced now u pid d :
  well_referenced foreign_keys d →
  well_referenced foreign_keys (approve_professional now u pid d).2.
Proof.
  intros Hwf. unfold approve_professional.
  destruct (admin_required_frame d u) as [->|Hout];
    [|by rewrite (proj1 (Hout _))].
  destruct (service_professionals d !! pid) as [prof|] eqn:Hprof; [|done].
  destruct (flush_professional _ _ _ _ _) as [d'|] eqn:Hf; [|done].
  apply (flush_professional_well_referenced foreign_keys now d pid prof _ d'
           Hwf Hprof) in Hf.
  by destruct (users d' !! _).
Qed.

Lemma reject_professional_well_referenced now u pid d :
  well_referenced foreign_keys d →
  well_referenced foreign_keys (reject_professional now u pid d).2.
Proof.
  intros Hwf. unfold reject_professional.
  destruct (admin_required_frame d u) as [->|Hout];
    [|by rewrite (proj1 (Hout _))].
  destruct (service_professionals d !! pid) as [prof|] eqn:Hprof; [|done].
  destruct (flush_professional _ _ _ _ _) as [d'|] eqn:Hf; [|done].
  apply (flush_professional_well_referenced foreign_keys now d pid prof _ d'
           Hwf Hprof) in Hf.
  by destruct (users d' !! _).
Qed.

Lemma toggle_user_block_well_referenced now u uid action d :
  well_referenced foreign_keys d →
  well_referenced foreign_keys (toggle_user_block now u uid action d).2.
Proof.
  intros Hwf. unfold toggle_user_block.
  destruct (admin_required_frame d u) as [->|Hout];
    [|by rewrite (proj1 (Hout _))].
  destruct (users d !! uid) as [user|]; [|done].
  destruct (decide (Users.role user = "customer")) as [?|?];
    [|destruct (decide (Users.role user = "professional")) as [?|?];
      [|done]].
  - destruct (Users_customer d uid) as [[id c]|] eqn:Hc; simpl; [|done].
    destruct (flush_customer _ _ _ _ _) as [d'|] eqn:Hf; [|done].
    by apply (flush_customer_well_referenced foreign_keys) in Hf.
  - destruct (Users_professional d uid) as [[id p]|] eqn:Hp; simpl; [|done].
    destruct (flush_professional _ _ _ _ _) as [d'|] eqn:Hf; [|done].
    apply query_first_Some in Hp as [Hp _].
    by apply (flush_professional_well_referenced foreign_keys now d id p _ d'
                Hwf Hp) in Hf.
Qed.

Lemma _toggle_block_status_well_referenced now uid block d :
  well_referenced foreign_keys d →
  well_referenced foreign_keys (_toggle_block_status now uid block d).2.
Proof.
  intros Hwf. unfold _toggle_block_status.
  destruct (users d !! uid) as [user|]; [|done].
  destruct (decide (Users.role user = "customer")) as [?|?];
    [|destruct (decide (Users.role user = "professional")) as [?|?];
      [|done]].
  - destruct (Users_customer d uid) as [[id c]|] eqn:Hc; simpl; [|done].
    destruct (flush_customer _ _ _ _ _) as [d'|] eqn:Hf; [|done].
    by apply (flush_customer_well_referenced foreign_keys) in Hf.
  - destruct (Users_professional d uid) as [[id p]|] eqn:Hp; simpl; [|done].
    destruct (flush_professional _ _ _ _ _) as [d'|] eqn:Hf; [|done].
    apply query_first_Some in Hp as [Hp _].
    by apply (flush_professional_well_referenced foreign_keys now d id p _ d'
                Hwf Hp) in Hf.
Qed.

Lemma block_user_well_referenced now u uid d :
  well_referenced foreign_keys d →
  well_referenced foreign_keys (block_user now u uid d).2
  ∧ well_referenced foreign_keys (unblock_user now u uid d).2.
Proof.
  intros Hwf. unfold block_user, unblock_user.
  destruct (admin_required_frame d u) as [Hpass|Hout].
  - rewrite !Hpass. split; by apply _toggle_block_status_well_referenced.
  - by rewrite !(proj1 (Hout _)).
Qed.

End admin_routes.

(** ** Reassignment and the one-active-request rule *)

(** Every row of a table written as a chain of inserts. *)
Local Ltac table_rows H :=
  repeat (apply lookup_insert_Some in H as [[<- <-]|[? H]]);
  [..|by rewrite lookup_empty in H].

Lemma sample_db_unique_active : unique_active sample_db.
Proof.
  intros i j x y p Hi Hj.
  change (service_requests sample_db) with sample_requests in Hi, Hj.
  unfold sample_requests in Hi, Hj.
  table_rows Hi; table_rows Hj; try done; simpl; intros; congruence.
Qed.

(** C1.  The rule holds in the sample marketplace, where customer 1 has a
    rejected request 1 with professional 1 and a pending request 2 with
    professional 2.  [reassign_professional] of request 1 to professional 2
    succeeds, and the customer then has two requests in REQUESTED with
    professional 2: the route does not make the check that [book_service]
    makes. *)
Theorem reassign_professional_duplicates_active :
  unique_active sample_db
  ∧ reassign_professional true 50 1 1 (Some 2) sample_db
    = (redirect [("Request #1 has been reassigned successfully.", "success")]
                "admin.admin_dashboard",
       set_service_requests
         (<[1 := ServiceRequests.set_updated_at 50
                   (sample_request 2 REQUESTED None)]> sample_requests)
         sample_db)
  ∧ ¬ unique_active
        (reassign_professional true 50 1 1 (Some 2) sample_db).2.
Proof.
  split; [exact sample_db_unique_active|].
  assert (reassign_professional true 50 1 1 (Some 2) sample_db
          = (redirect
               [("Request #1 has been reassigned successfully.", "success")]
               "admin.admin_dashboard",
             set_service_requests
               (<[1 := ServiceRequests.set_updated_at 50
                         (sample_request 2 REQUESTED None)]> sample_requests)
               sample_db)) as Heq by (by vm_compute).
  split; [exact Heq|]. rewrite Heq. intros Hu.
  specialize (Hu 1 2 (ServiceRequests.set_updated_at 50
                        (sample_request 2 REQUESTED None))
                (sample_request 2 REQUESTED None) 2).
  discriminate Hu; reflexivity.
Qed.

(** ** The statements at work in the sample marketplace *)

Lemma sample_customer : logged_in_customer sample_db 2 1.
Proof.
  exists (sample_user "asha" "customer"), (Customers.Build 2 false 0 0).
  by vm_compute.
Defined.

Lemma sample_admin : logged_in_admin sample_db 1.
Proof. exists (sample_user "root" "admin"). by vm_compute. Defined.

Lemma process_payment_owner_and_closed_witness :
  logged_in_customer sample_db 2 1
  ∧ service_requests sample_db !! 3 = Some (sample_request 1 CLOSED (Some 20))
  ∧ succeeded (process_payment true 60 2 3 sample_db).1
  ∧ ServiceRequests.service_status <$>
      service_requests (process_payment true 60 2 3 sample_db).2 !! 3
    = Some PAID.
Proof.
  split; [exact sample_customer|]. split; [reflexivity|].
  destruct (process_payment_owner_and_closed true 60 2 1 3 sample_db
              (sample_request 1 CLOSED (Some 20)) sample_customer eq_refl)
    as (Hiff & _ & _ & Hpaid).
  split; [by apply Hiff|].
  destruct (Hpaid eq_refl eq_refl) as (-> & _). by vm_compute.
Defined.

Lemma update_service_request_frame_witness :
  logged_in_customer sample_db 2 1
  ∧ service_requests sample_db !! 2
    = Some (sample_request 2 REQUESTED None)
  ∧ succeeded
      (update_service_request true 60 2 2
         (UpdateRequestForm.Build true (Some 650)) sample_db).1.
Proof.
  split; [exact sample_customer|]. split; [reflexivity|].
  destruct (update_service_request_frame true 60 2 1 2
              (UpdateRequestForm.Build true (Some 650)) sample_db
              (sample_request 2 REQUESTED None) sample_customer eq_refl)
    as (_ & _ & Hok).
  destruct (Hok eq_refl eq_refl eq_refl) as (Hresp & _).
  unfold succeeded. by rewrite Hresp.
Defined.

Lemma sample_unreviewed : unreviewed sample_db 2.
Proof.
  intros k rv Hk. change (reviews sample_db) with
    (<[1 := Reviews.Build 1 (Some 1) 1 3 5 (Some "great") 20 20]>
       (∅ : gmap Z Reviews.t)) in Hk.
  table_rows Hk. done.
Defined.

Lemma review_service_ignores_status_witness :
  ServiceRequests.service_status (sample_request 2 REQUESTED None) = REQUESTED
  ∧ unreviewed sample_db 2
  ∧ succeeded
      (review_service true 60 2 2 (ReviewForm.Build true 4 None) sample_db).1
  ∧ ServiceRequests.service_status <$>
      service_requests
        (review_service true 60 2 2 (ReviewForm.Build true 4 None)
           sample_db).2 !! 2
    = Some CLOSED.
Proof.
  split; [reflexivity|]. split; [exact sample_unreviewed|].
  destruct (review_service_ignores_status true 60 2 1 2
              (ReviewForm.Build true 4 None) sample_db
              (sample_request 2 REQUESTED None) 2
              sample_customer eq_refl eq_refl sample_unreviewed eq_refl)
    as (sr' & -> & _ & _ & Hst & _).
  - simpl. lia.
  - reflexivity.
  - intros _. split; eexists; reflexivity.
  - split; [done|]. simpl. rewrite lookup_insert_eq. simpl. by rewrite Hst.
Defined.

Lemma sample_no_request_with_3 k (r : ServiceRequests.t Z) :
  service_requests sample_db !! k = Some r →
  ServiceRequests.customer_id r = 1 →
  ServiceRequests.professional_id r = Some 3 →
  active (ServiceRequests.service_status r) = false.
Proof.
  intros Hk. change (service_requests sample_db) with sample_requests in Hk.
  unfold sample_requests in Hk. table_rows Hk; done.
Defined.

Lemma book_service_ignores_flags_witness :
  service_professionals sample_db !! 3
  = Some (sample_professional 5 false true)
  ∧ succeeded
      (book_service true sample_strptime 60 2 3
         (BookingForm.Build true 1 (Some 450)) (Some "2024-01-01")
         sample_db).1
  ∧ ∀ service_id q,
      (3, sample_professional 5 false true)
      ∉ raw_professionals sample_ilike sample_db service_id q.
Proof.
  split; [reflexivity|].
  destruct (book_service_ignores_flags true sample_strptime sample_ilike
              60 2 1 3 (BookingForm.Build true 1 (Some 450))
              (Some "2024-01-01") 1704067200 sample_db
              (sample_professional 5 false true)
              sample_customer eq_refl eq_refl eq_refl
              sample_no_request_with_3)
    as (-> & _ & _ & Hlist).
  - intros _. eexists; reflexivity.
  - split; [done|]. apply Hlist. by left.
Defined.

Lemma jobs_count_closed_only_witness :
  service_requests sample_db !! 3 = Some (sample_request 1 CLOSED (Some 20))
  ∧ jobs_count sample_db 1 = 1%nat
  ∧ jobs_count sample_db 2 = 0%nat
  ∧ jobs_count (process_payment true 60 2 3 sample_db).2 1 = 0%nat
  ∧ jobs_count (process_payment true 60 2 3 sample_db).2 2 = 0%nat.
Proof.
  split; [reflexivity|].
  assert (jobs_count sample_db 1 = 1%nat) as Hone by (by vm_compute).
  pose proof (jobs_count_closed_only true 3 sample_db
                (sample_request 1 CLOSED (Some 20)) 1 eq_refl) as Hfirst.
  pose proof (jobs_count_closed_only true 3 sample_db
                (sample_request 1 CLOSED (Some 20)) 2 eq_refl) as Hsecond.
  cbv zeta in Hfirst, Hsecond.
  destruct Hfirst as (_ & _ & _ & _ & _ & Hpay1).
  destruct Hsecond as (_ & _ & Hother & _ & _ & Hpay2).
  destruct (Hpay1 60 2 sample_customer eq_refl) as (_ & _ & Hless & _).
  destruct (Hpay2 60 2 sample_customer eq_refl) as (_ & _ & _ & Hsame).
  assert (jobs_count sample_db 2 = 0%nat) as Hzero.
  { rewrite Hother by done. by vm_compute. }
  split; [exact Hone|]. split; [exact Hzero|]. split.
  - specialize (Hless eq_refl). rewrite Hone in Hless. lia.
  - rewrite Hsame by done. exact Hzero.
Defined.

Lemma reassign_professional_rejected_only_witness :
  logged_in_admin sample_db 1
  ∧ ServiceRequests.service_status (sample_request 1 REJECTED None) = REJECTED
  ∧ succeeded (reassign_professional true 60 1 1 (Some 3) sample_db).1
  ∧ reassign_professional true 60 1 1 (Some 9223372036854775808) sample_db
    = (raise "OverflowError", sample_db).
Proof.
  split; [exact sample_admin|]. split; [reflexivity|]. split.
  - pose proof (reassign_professional_rejected_only true 60 1 1 3 sample_db
                  (sample_request 1 REJECTED None) sample_admin eq_refl)
      as Hthree.
    cbv zeta in Hthree.
    destruct Hthree as (_ & _ & _ & Hok & _); [done|].
    apply Hok; [done|unfold sqlite_integer; lia|].
    right. eexists; reflexivity.
  - pose proof (reassign_professional_rejected_only true 60 1 1
                  9223372036854775808 sample_db
                  (sample_request 1 REJECTED None) sample_admin eq_refl)
      as Hlarge.
    cbv zeta in Hlarge.
    destruct Hlarge as (_ & _ & _ & _ & Hover); [done|].
    apply Hover; [done|unfold sqlite_integer; lia|].
    simpl. intros [= ?].
Defined.

Lemma verification_idempotent_witness :
  approve_professional 70 1 3 (approve_professional 60 1 3 sample_db).2
  = approve_professional 60 1 3 sample_db
  ∧ ServiceProfessionals.is_verified <$>
      service_professionals (approve_professional 60 1 3 sample_db).2 !! 3
    = Some true.
Proof.
  destruct (verification_idempotent (Float:=Z) 60 70 1 3 sample_db)
    as (Happrove & _ & Hflags).
  destruct (Hflags (sample_professional 5 false true) sample_admin eq_refl)
    as ((prof' & Hprof' & Hv & _) & _).
  split; [exact Happrove|]. by rewrite Hprof', <- Hv.
Defined.

Lemma block_user_without_profile_witness :
  Users_customer sample_db 1 = None
  ∧ Users_professional sample_db 1 = None
  ∧ block_user 60 1 1 sample_db
    = (redirect [("User root has been blocked.", "warning")]
                "admin.admin_dashboard", sample_db)
  ∧ toggle_user_block 60 1 1 (Some "block") sample_db
    = (redirect [("User profile not found.", "danger")]
                "admin.admin_dashboard", sample_db).
Proof.
  assert (Users_customer sample_db 1 = None) as Hc by (by vm_compute).
  assert (Users_professional sample_db 1 = None) as Hp by (by vm_compute).
  do 2 (split; [done|]).
  destruct (block_user_without_profile (Float:=Z) 60 1 1 (Some "block")
              sample_db (sample_user "root" "admin") sample_admin eq_refl
              Hc Hp)
    as (Htoggle & Hblock & _).
  split; [|exact Htoggle]. by destruct Hblock as [Hblock _].
Defined.

Lemma review_service_atomic_witness :
  succeeded
    (review_service true 60 2 2 (ReviewForm.Build true 4 None) sample_db).1
  ∧ ∀ now2 form2,
      (review_service true now2 2 2 form2
         (review_service true 60 2 2 (ReviewForm.Build true 4 None)
            sample_db).2).2
      = (review_service true 60 2 2 (ReviewForm.Build true 4 None)
           sample_db).2.
Proof.
  assert (succeeded
            (review_service true 60 2 2 (ReviewForm.Build true 4 None)
               sample_db).1) as Hok by (by vm_compute).
  split; [exact Hok|].
  destruct (review_service_atomic true 60 2 2 (ReviewForm.Build true 4 None)
              sample_db)
    as [[Hfail _]|(cid & sr & sr' & _ & _ & _ & _ & _ & _ & _ & Hagain)].
  - by destruct Hfail.
  - intros now2 form2. by destruct (Hagain now2 form2) as [Hsame _].
Defined.

(** ** What a POST request does to the database *)

Section effects.
Context {Float : Type} `{!EqDecision Float}.
Variable foreign_keys : bool.
Variable strptime : string → option datetime.
Implicit Type d : Db Float.
Implicit Type sr : ServiceRequests.t Float.

Lemma query_first_found {A} (P : Z * A → Prop) `{!∀ x, Decision (P x)}
    (m : gmap Z A) k x :
  m !! k = Some x → P (k, x) → is_Some (query_first P m).
Proof.
  intros Hk HP. destruct (query_first P m) eqn:E; [eauto|].
  rewrite query_first_None in E. exfalso. eapply E; eauto.
Qed.

Lemma flush_service_request_result now d id
    (old new : ServiceRequests.t Float) d' :
  flush_service_request foreign_keys now d id old new = Some d' →
  (new = old ∧ d' = d)
  ∨ (new ≠ old
     ∧ d' = set_service_requests
              (<[id := ServiceRequests.set_updated_at now new]>
                 (service_requests d)) d
     ∧ (ServiceRequests.professional_id new
        = ServiceRequests.professional_id old
        ∨ ∀ p, ServiceRequests.professional_id new = Some p →
               foreign_keys = true →
               is_Some (service_professionals d !! p))).
Proof.
  unfold flush_service_request.
  destruct (decide (new = old)) as [Heq|Hne]; [intros [= <-]; by left|].
  destruct (bool_decide _ || _) eqn:E; [|done]. intros [= <-]. right.
  split; [done|]. split; [done|].
  apply orb_true_iff in E as [E|E].
  - left. by apply bool_decide_eq_true in E.
  - right. intros p Hp. rewrite Hp in E. simpl in E.
    by apply references_true.
Qed.

Lemma book_service_write now u pid form date_str d :
  write foreign_keys now (POST_book_service pid form date_str) d
    (book_service foreign_keys strptime now u pid form date_str d).1
    (book_service foreign_keys strptime now u pid form date_str d).2.
Proof.
  unfold book_service.
  destruct (customer_required_frame d u) as [[c ->]|Hout];
    [|rewrite (proj1 (Hout _)); apply write_nothing].
  destruct (service_professionals d !! pid) as [prof|] eqn:Hprof;
    [|apply write_nothing].
  destruct (BookingForm.validate_on_submit form); [|apply write_nothing].
  destruct (date_str ≫= strptime) as [date_obj|]; [|apply write_nothing].
  destruct c as [[cid c]|]; [|apply write_nothing].
  destruct (query_first _ (service_requests d)) as [[k' r']|] eqn:Hq;
    [apply write_nothing|].
  rewrite query_first_None in Hq.
  destruct (insert_service_request _ _ _) as [d'|] eqn:Hi;
    [|apply write_nothing].
  apply insert_service_request_Some in Hi as [-> Hfk]. simpl.
  apply (write_booked foreign_keys now d _ pid form date_str cid date_obj);
    [done|eauto| |intros Hon; by destruct (Hfk Hon)].
  intros j y Hj Hc Hp. specialize (Hq j y Hj). simpl in *.
  destruct (active (ServiceRequests.service_status y)); [|done].
  by destruct Hq.
Qed.

Lemma update_service_request_write now u rid form d :
  write foreign_keys now (POST_update_service_request rid form) d
    (update_service_request foreign_keys now u rid form d).1
    (update_service_request foreign_keys now u rid form d).2.
Proof.
  unfold update_service_request.
  destruct (customer_required_frame d u) as [[c ->]|Hout];
    [|rewrite (proj1 (Hout _)); apply write_nothing].
  destruct (service_requests d !! rid) as [sr|] eqn:Hsr;
    [|apply write_nothing].
  destruct c as [[cid c]|]; [|apply write_nothing].
  destruct (decide (ServiceRequests.customer_id sr ≠ cid));
    [apply write_nothing|].
  destruct (decide (ServiceRequests.service_status sr ≠ REQUESTED))
    as [|Hst%dec_stable]; [apply write_nothing|].
  destruct (UpdateRequestForm.validate_on_submit form);
    [|apply write_nothing].
  destruct (flush_service_request _ _ _ _ _ _) as [d'|] eqn:Hf;
    [|apply write_nothing].
  apply flush_service_request_result in Hf as [[_ ->]|(_ & -> & _)];
    [apply write_nothing|]. simpl.
  by apply write_repriced.
Qed.

Lemma review_service_write now u rid form d :
  write foreign_keys now (POST_review_service rid form) d
    (review_service foreign_keys now u rid form d).1
    (review_service foreign_keys now u rid form d).2.
Proof.
  unfold review_service.
  destruct (customer_required_frame d u) as [[c ->]|Hout];
    [|rewrite (proj1 (Hout _)); apply write_nothing].
  destruct (service_requests d !! rid) as [sr|] eqn:Hsr;
    [|apply write_nothing].
  destruct c as [[cid c]|]; [|apply write_nothing].
  destruct (decide (ServiceRequests.customer_id sr ≠ cid))
    as [|Hown%dec_stable]; [apply write_nothing|].
  destruct (ReviewForm.validate_on_submit form); [|apply write_nothing].
  destruct (insert_review _ _ _) as [d1|] eqn:Hi; [|apply write_nothing].
  simpl. apply insert_review_Some in Hi as (-> & Hunrev & Hrating & Hprof).
  match goal with
  | |- context [flush_service_request _ _ ?d1 _ _ ?new] =>
    pose proof (flush_service_request_cases foreign_keys now d1 rid sr new
                  Hsr) as Hf
  end.
  destruct (flush_service_request _ _ _ _ _ _) as [d'|];
    [|apply write_nothing].
  destruct Hf as (t & -> & _). simpl. subst cid.
  by apply write_reviewed.
Qed.

Lemma process_payment_write now u rid d :
  write foreign_keys now (POST_process_payment rid) d
    (process_payment foreign_keys now u rid d).1
    (process_payment foreign_keys now u rid d).2.
Proof.
  unfold process_payment.
  destruct (customer_required_frame d u) as [[c ->]|Hout];
    [|rewrite (proj1 (Hout _)); apply write_nothing].
  destruct (service_requests d !! rid) as [sr|] eqn:Hsr;
    [|apply write_nothing].
  destruct c as [[cid c]|]; [|apply write_nothing].
  destruct (decide (ServiceRequests.customer_id sr ≠ cid));
    [apply write_nothing|].
  destruct (decide (ServiceRequests.service_status sr ≠ CLOSED))
    as [|Hst%dec_stable]; [apply write_nothing|].
  destruct (flush_service_request _ _ _ _ _ _) as [d'|] eqn:Hf;
    [|apply write_nothing].
  apply flush_service_request_result in Hf as [[_ ->]|(_ & -> & _)];
    [apply write_nothing|]. simpl.
  by apply write_paid.
Qed.

Lemma reassign_professional_write now u rid new_prof_id d :
  write foreign_keys now (POST_reassign_professional rid new_prof_id) d
    (reassign_professional foreign_keys now u rid new_prof_id d).1
    (reassign_professional foreign_keys now u rid new_prof_id d).2.
Proof.
  unfold reassign_professional.
  destruct (admin_required_frame d u) as [->|Hout];
    [|rewrite (proj1 (Hout _)); apply write_nothing].
  destruct (service_requests d !! rid) as [sr|] eqn:Hsr;
    [|apply write_nothing].
  destruct new_prof_id as [p|]; [|apply write_nothing].
  destruct (decide (p = 0)) as [->|Hp]; [apply write_nothing|].
  assert (∀ X Y : response * Db Float,
            match p with 0 => X | _ => Y end = Y) as -> by (by destruct p).
  destruct (decide (ServiceRequests.service_status sr ≠ REJECTED))
    as [|Hst%dec_stable]; [apply write_nothing|].
  destruct (decide (ServiceRequests.professional_id sr ≠ Some p
                    ∧ ¬ sqlite_integer p)); [apply write_nothing|].
  destruct (flush_service_request _ _ _ _ _ _) as [d'|] eqn:Hf;
    [|apply write_nothing].
  apply flush_service_request_result in Hf as [[_ ->]|(_ & -> & Href)];
    [apply write_nothing|]. simpl.
  apply write_reassigned; [done..|]. intros Hon.
  destruct Href as [Href|Href]; [left; by rewrite <- Href|right].
  by apply Href.
Qed.

Lemma approve_professional_write now u pid d :
  write foreign_keys now (POST_approve_professional pid) d
    (approve_professional now u pid d).1 (approve_professional now u pid d).2.
Proof.
  unfold approve_professional.
  destruct (admin_required_frame d u) as [->|Hout];
    [|rewrite (proj1 (Hout _)); apply write_nothing].
  destruct (service_professionals d !! pid) as [prof|] eqn:Hprof;
    [|apply write_nothing].
  unfold flush_professional.
  destruct (decide (_ = prof)) as [Heq|Hne].
  - destruct (users d !! _); apply write_nothing.
  - simpl. destruct (users d !! _); simpl; apply write_approved;
      [by left|done|by right|done].
Qed.

Lemma reject_professional_write now u pid d :
  write foreign_keys now (POST_reject_professional pid) d
    (reject_professional now u pid d).1 (reject_professional now u pid d).2.
Proof.
  unfold reject_professional.
  destruct (admin_required_frame d u) as [->|Hout];
    [|rewrite (proj1 (Hout _)); apply write_nothing].
  destruct (service_professionals d !! pid) as [prof|] eqn:Hprof;
    [|apply write_nothing].
  unfold flush_professional.
  destruct (decide (_ = prof)) as [Heq|Hne].
  - destruct (users d !! _); apply write_nothing.
  - simpl. by destruct (users d !! _); simpl; apply write_rejected.
Qed.

Lemma toggle_user_block_write now u uid action d :
  write foreign_keys now (POST_toggle_user_block uid action) d
    (toggle_user_block now u uid action d).1
    (toggle_user_block now u uid action d).2.
Proof.
  unfold toggle_user_block.
  destruct (admin_required_frame d u) as [->|Hout];
    [|rewrite (proj1 (Hout _)); apply write_nothing].
  destruct (users d !! uid) as [user|]; [|apply write_nothing].
  destruct (decide (Users.role user = "customer")) as [?|?];
    [|destruct (decide (Users.role user = "professional")) as [?|?];
      [|apply write_nothing]].
  - destruct (Users_customer d uid) as [[id c]|] eqn:Hc; simpl;
      [|apply write_nothing].
    apply query_first_Some in Hc as [Hc Huid]. unfold flush_customer.
    case_decide; simpl; [apply write_nothing|].
    eapply write_customer_blocked; eauto.
  - destruct (Users_professional d uid) as [[id p]|] eqn:Hp; simpl;
      [|apply write_nothing].
    apply query_first_Some in Hp as [Hp Huid]. unfold flush_professional.
    case_decide; simpl; [apply write_nothing|].
    eapply write_professional_blocked; eauto.
Qed.

Lemma _toggle_block_status_write now uid block d (r : post Float) :
  (r = POST_block_user uid ∧ block = true)
  ∨ (r = POST_unblock_user uid ∧ block = false) →
  write foreign_keys now r d
    (_toggle_block_status now uid block d).1
    (_toggle_block_status now uid block d).2.
Proof.
  intros Hr. unfold _toggle_block_status.
  destruct (users d !! uid) as [user|]; [|apply write_nothing].
  destruct (decide (Users.role user = "customer")) as [?|?];
    [|destruct (decide (Users.role user = "professional")) as [?|?];
      [|apply write_nothing]].
  - destruct (Users_customer d uid) as [[id c]|] eqn:Hc; simpl;
      [|apply write_nothing].
    apply query_first_Some in Hc as [Hc Huid]. unfold flush_customer.
    case_decide; simpl; [apply write_nothing|].
    eapply write_customer_blocked; eauto.
  - destruct (Users_professional d uid) as [[id p]|] eqn:Hp; simpl;
      [|apply write_nothing].
    apply query_first_Some in Hp as [Hp Huid]. unfold flush_professional.
    case_decide; simpl; [apply write_nothing|].
    eapply write_professional_blocked; eauto.
Qed.

Lemma create_service_write now u form d :
  write foreign_keys now (POST_create_service form) d
    (create_service now u form d).1 (create_service now u form d).2.
Proof.
  unfold create_service.
  destruct (admin_required_frame d u) as [->|Hout];
    [|rewrite (proj1 (Hout _)); apply write_nothing].
  destruct (CreateServiceForm.validate_on_submit form).
  - unfold insert_service. simpl.
    destruct (service_type_free d _) eqn:Hfree; [|apply write_nothing].
    simpl. by apply write_service_created.
  - destruct (first_error _); apply write_nothing.
Qed.

Lemma update_service_write now u id form d :
  write foreign_keys now (POST_update_service id form) d
    (update_service now u id form d).1 (update_service now u id form d).2.
Proof.
  unfold update_service.
  destruct (admin_required_frame d u) as [->|Hout];
    [|rewrite (proj1 (Hout _)); apply write_nothing].
  destruct (services d !! id) as [old|] eqn:Hold; [|apply write_nothing].
  destruct (UpdateServiceForm.validate_on_submit form).
  - unfold flush_service. case_decide; [apply write_nothing|]. simpl.
    destruct (bool_decide _ || _) eqn:E; [|apply write_nothing]. simpl.
    apply (write_service_updated foreign_keys now d _ id form old);
      [done|done|].
    apply orb_true_iff in E as [E|E]; [left|by right].
    by apply bool_decide_eq_true in E.
  - destruct (first_error _); apply write_nothing.
Qed.

Lemma delete_service_write now u id d :
  write foreign_keys now (POST_delete_service id) d
    (delete_service u id d).1 (delete_service u id d).2.
Proof.
  unfold delete_service.
  destruct (admin_required_frame d u) as [->|Hout];
    [|rewrite (proj1 (Hout _)); apply write_nothing].
  destruct (services d !! id) as [old|] eqn:Hold; [|apply write_nothing].
  case_decide; [apply write_nothing|].
  unfold delete_service_row.
  destruct (bool_decide (query_first _ (service_professionals d) = None))
    eqn:E1; [|apply write_nothing].
  destruct (bool_decide (query_first _ (service_requests d) = None))
    eqn:E2; [|apply write_nothing].
  destruct (bool_decide (query_first _ (reviews d) = None))
    eqn:E3; [|apply write_nothing].
  simpl. apply bool_decide_eq_true in E1, E2, E3.
  rewrite query_first_None in E1. rewrite query_first_None in E2.
  rewrite query_first_None in E3.
  apply write_service_deleted; [done|eauto|..]; intros k x Hk;
    [apply (E1 k x Hk)|apply (E2 k x Hk)|apply (E3 k x Hk)].
Qed.

(** Every POST request is one of the writes. *)
Lemma handle_write now u (r : post Float) d :
  write foreign_keys now r d
    (handle foreign_keys strptime now u r d).1
    (handle foreign_keys strptime now u r d).2.
Proof.
  destruct r; simpl.
  - apply book_service_write.
  - apply update_service_request_write.
  - apply review_service_write.
  - apply process_payment_write.
  - apply create_service_write.
  - apply update_service_write.
  - apply delete_service_write.
  - apply approve_professional_write.
  - apply reject_professional_write.
  - apply toggle_user_block_write.
  - unfold block_user.
    destruct (admin_required_frame d u) as [->|Hout];
      [|rewrite (proj1 (Hout _)); apply write_nothing].
    apply _toggle_block_status_write. by left.
  - unfold unblock_user.
    destruct (admin_required_frame d u) as [->|Hout];
      [|rewrite (proj1 (Hout _)); apply write_nothing].
    apply _toggle_block_status_write. by right.
  - apply reassign_professional_write.
Qed.

(** *** The requests under a write *)

Local Ltac row_unchanged :=
  eexists; split; [eassumption|]; do 5 (split; [reflexivity|]); by left.

(** A write keeps every request; a row it changes was repriced, reviewed,
    paid or reassigned. *)
Lemma write_request_cases now (r : post Float) d resp d' rid sr :
  write foreign_keys now r d resp d' →
  service_requests d !! rid = Some sr →
  ∃ sr',
    service_requests d' !! rid = Some sr'
    ∧ ServiceRequests.customer_id sr' = ServiceRequests.customer_id sr
    ∧ ServiceRequests.service_id sr' = ServiceRequests.service_id sr
    ∧ ServiceRequests.date_of_request sr' = ServiceRequests.date_of_request sr
    ∧ ServiceRequests.remarks sr' = ServiceRequests.remarks sr
    ∧ ServiceRequests.created_at sr' = ServiceRequests.created_at sr
    ∧ (sr' = sr
       ∨ (ServiceRequests.service_status sr = REQUESTED
          ∧ ServiceRequests.service_status sr' = REQUESTED
          ∧ ServiceRequests.professional_id sr'
            = ServiceRequests.professional_id sr)
       ∨ (unreviewed d rid
          ∧ ServiceRequests.service_status sr' = CLOSED
          ∧ ServiceRequests.professional_id sr'
            = ServiceRequests.professional_id sr
          ∧ ServiceRequests.proposed_price sr'
            = ServiceRequests.proposed_price sr)
       ∨ (ServiceRequests.service_status sr = CLOSED
          ∧ ServiceRequests.service_status sr' = PAID
          ∧ ServiceRequests.professional_id sr'
            = ServiceRequests.professional_id sr
          ∧ ServiceRequests.proposed_price sr'
            = ServiceRequests.proposed_price sr)
       ∨ (ServiceRequests.service_status sr = REJECTED
          ∧ ServiceRequests.service_status sr' = REQUESTED
          ∧ ServiceRequests.proposed_price sr'
            = ServiceRequests.proposed_price sr)).
Proof.
  intros Hw Hsr.
  destruct Hw; simpl; try row_unchanged.
  - rewrite lookup_insert_ne; [row_unchanged|].
    intros Heq. rewrite <- Heq, next_id_fresh in Hsr. done.
  - destruct (decide (request_id = rid)) as [->|Hne];
      [|rewrite lookup_insert_ne by done; row_unchanged].
    rewrite lookup_insert_eq. simplify_eq. eexists. split; [done|].
    repeat split; try done. right; left. done.
  - destruct (decide (request_id = rid)) as [->|Hne];
      [|rewrite lookup_insert_ne by done; row_unchanged].
    rewrite lookup_insert_eq. simplify_eq. eexists. split; [done|].
    repeat split; try done. right; right; left. done.
  - destruct (decide (request_id = rid)) as [->|Hne];
      [|rewrite lookup_insert_ne by done; row_unchanged].
    rewrite lookup_insert_eq. simplify_eq. eexists. split; [done|].
    repeat split; try done. right; right; right; left. done.
  - destruct (decide (request_id = rid)) as [->|Hne];
      [|rewrite lookup_insert_ne by done; row_unchanged].
    rewrite lookup_insert_eq. simplify_eq. eexists. split; [done|].
    repeat split; try done. right; right; right; right. done.
Qed.

(** A write keeps every review as it is. *)
Lemma write_reviews_kept now (r : post Float) d resp d' k rv :
  write foreign_keys now r d resp d' →
  reviews d !! k = Some rv → reviews d' !! k = Some rv.
Proof.
  intros Hw Hk. destruct Hw; simpl; try done.
  rewrite lookup_insert_ne; [done|].
  intros Heq. rewrite <- Heq, next_id_fresh in Hk. done.
Qed.

Lemma write_closed_reviewed now (r : post Float) d resp d' :
  write foreign_keys now r d resp d' →
  closed_reviewed d → closed_reviewed d'.
Proof.
  intros Hw Hcr i x Hi Hst Hunrev.
  assert (∀ y, service_requests d !! i = Some y →
               ServiceRequests.service_status y = CLOSED
               ∨ ServiceRequests.service_status y = PAID → False) as Hold.
  { intros y Hy Hsty. apply (Hcr i y Hy Hsty). intros k rv Hk.
    apply (Hunrev k rv). by eapply write_reviews_kept. }
  destruct Hw; simpl in Hi; try (by eapply Hold).
  - apply lookup_insert_Some in Hi as [[<- <-]|[_ Hi]]; [|by eapply Hold].
    simpl in Hst. by destruct Hst.
  - apply lookup_insert_Some in Hi as [[<- <-]|[_ Hi]]; [|by eapply Hold].
    simpl in Hst. destruct Hst; congruence.
  - apply lookup_insert_Some in Hi as [[<- <-]|[_ Hi]]; [|by eapply Hold].
    apply (Hunrev (next_id (reviews d))
             (new_review now (ServiceRequests.customer_id sr) request_id sr
                form)); [|done].
    simpl. apply lookup_insert_eq.
  - apply lookup_insert_Some in Hi as [[<- <-]|[_ Hi]]; [|by eapply Hold].
    eapply (Hold sr); eauto.
  - apply lookup_insert_Some in Hi as [[<- <-]|[_ Hi]]; [|by eapply Hold].
    simpl in Hst. by destruct Hst.
Qed.

Lemma handle_request_kept now u (r : post Float) d rid sr :
  closed_reviewed d →
  service_requests d !! rid = Some sr →
  ServiceRequests.service_status sr = PAID →
  service_requests (handle foreign_keys strptime now u r d).2 !! rid
  = Some sr.
Proof.
  intros Hcr Hsr Hst.
  destruct (write_request_cases now r d _ _ rid sr
              (handle_write now u r d) Hsr)
    as (sr' & Hsr' & _ & _ & _ & _ & _ & Hcases).
  rewrite Hsr'. f_equal.
  destruct Hcases as [?|[(?&_)|[(Hunrev&_)|[(?&_)|(?&_)]]]];
    [done|congruence| |congruence..].
  destruct (Hcr rid sr Hsr); auto.
Qed.

(** X1.  Under any POST request a request row stays in the table with its
    customer, service, request date, remarks and [created_at], and its
    status either stays or moves to CLOSED while no review refers to the
    request, from CLOSED to PAID, or from REJECTED to REQUESTED; the
    proposed price changes only on a REQUESTED request and the
    professional only on a REJECTED one. *)
Theorem request_lifecycle now u (r : post Float) d rid sr :
  service_requests d !! rid = Some sr →
  ∃ sr',
    service_requests (handle foreign_keys strptime now u r d).2 !! rid
    = Some sr'
    ∧ ServiceRequests.customer_id sr' = ServiceRequests.customer_id sr
    ∧ ServiceRequests.service_id sr' = ServiceRequests.service_id sr
    ∧ ServiceRequests.date_of_request sr' = ServiceRequests.date_of_request sr
    ∧ ServiceRequests.remarks sr' = ServiceRequests.remarks sr
    ∧ ServiceRequests.created_at sr' = ServiceRequests.created_at sr
    ∧ (ServiceRequests.service_status sr' = ServiceRequests.service_status sr
       ∨ (ServiceRequests.service_status sr' = CLOSED ∧ unreviewed d rid)
       ∨ (ServiceRequests.service_status sr = CLOSED
          ∧ ServiceRequests.service_status sr' = PAID)
       ∨ (ServiceRequests.service_status sr = REJECTED
          ∧ ServiceRequests.service_status sr' = REQUESTED))
    ∧ (ServiceRequests.proposed_price sr' = ServiceRequests.proposed_price sr
       ∨ ServiceRequests.service_status sr = REQUESTED)
    ∧ (ServiceRequests.professional_id sr'
       = ServiceRequests.professional_id sr
       ∨ ServiceRequests.service_status sr = REJECTED).
Proof.
  intros Hsr.
  destruct (write_request_cases now r d _ _ rid sr
              (handle_write now u r d) Hsr)
    as (sr' & Hsr' & H1 & H2 & H3 & H4 & H5 & Hcases).
  exists sr'. do 6 (split; [done|]).
  destruct Hcases
    as [->|[(?&?&?)|[(?&?&?&?)|[(?&?&?&?)|(?&?&?)]]]].
  - by repeat split; left.
  - split; [left; congruence|]. split; [by right|by left].
  - split; [right; left; done|]. split; by left.
  - split; [right; right; left; done|]. split; by left.
  - split; [right; right; right; done|]. split; [by left|by right].
Qed.

(** X2.  Where every CLOSED or PAID request has a review, this remains so
    under any POST request, and a PAID request is final: no POST request
    changes its row. *)
Theorem paid_is_final now u (r : post Float) d :
  closed_reviewed d →
  closed_reviewed (handle foreign_keys strptime now u r d).2
  ∧ ∀ rid sr,
      service_requests d !! rid = Some sr →
      ServiceRequests.service_status sr = PAID →
      service_requests (handle foreign_keys strptime now u r d).2 !! rid
      = Some sr.
Proof.
  intros Hcr. split.
  - eapply write_closed_reviewed; [apply handle_write|done].
  - intros rid sr. by apply handle_request_kept.
Qed.

(** *** The reviews under a write *)

Lemma write_reviews_consistent now (r : post Float) d resp d' :
  write foreign_keys now r d resp d' →
  reviews_consistent d → reviews_consistent d'.
Proof.
  intros Hw (Huniq & Hrange & Howned).
  assert (∀ i x, reviews d !! i = Some x →
            ∃ sr', service_requests d' !! Reviews.service_request_id x
                   = Some sr'
                   ∧ ServiceRequests.customer_id sr' = Reviews.customer_id x
                   ∧ ServiceRequests.service_id sr' = Reviews.service_id x)
    as Howned'.
  { intros i x Hi. destruct (Howned i x Hi) as (sr & Hsr & Hc & Hs).
    destruct (write_request_cases now r d resp d' _ sr Hw Hsr)
      as (sr' & Hsr' & Hc' & Hs' & _).
    exists sr'. split; [done|]. split; congruence. }
  destruct Hw; try (split; [exact Huniq|split; [exact Hrange|exact Howned']]).
  split; [|split].
  - intros i j x y Hi Hj. simpl in Hi, Hj.
    apply lookup_insert_Some in Hi as [[<- <-]|[Hni Hi]];
      apply lookup_insert_Some in Hj as [[<- <-]|[Hnj Hj]]; simpl.
    + done.
    + intros Heq. by destruct (H1 j y Hj).
    + intros Heq. by destruct (H1 i x Hi).
    + by apply Huniq.
  - intros i x Hi. simpl in Hi.
    apply lookup_insert_Some in Hi as [[<- <-]|[_ Hi]]; [done|].
    by eapply Hrange.
  - intros i x Hi. simpl in Hi.
    apply lookup_insert_Some in Hi as [[<- <-]|[_ Hi]];
      [|by apply (Howned' i)].
    simpl. rewrite lookup_insert_eq. eexists. by split.
Qed.

(** X3.  Reviews are written once: a POST request leaves every existing
    review as it is.  It also keeps the reviews consistent: at most one
    per request, rated from 1 to 5, each for an existing request of the
    same customer and service. *)
Theorem reviews_write_once now u (r : post Float) d :
  (∀ k rv, reviews d !! k = Some rv →
           reviews (handle foreign_keys strptime now u r d).2 !! k = Some rv)
  ∧ (reviews_consistent d →
     reviews_consistent (handle foreign_keys strptime now u r d).2).
Proof.
  split.
  - intros k rv. eapply write_reviews_kept, handle_write.
  - eapply write_reviews_consistent, handle_write.
Qed.

(** *** The other invariants under a write *)

(** X4.  Every POST request other than a reassignment keeps the rule of
    one active request per customer and professional. *)
Theorem unique_active_kept now u (r : post Float) d :
  (∀ rid p, r ≠ POST_reassign_professional rid p) →
  unique_active d →
  unique_active (handle foreign_keys strptime now u r d).2.
Proof.
  intros Hr Hu. pose proof (handle_write now u r d) as Hw.
  destruct Hw; simpl; try done.
  - eapply (unique_active_fresh d _ _ professional_id);
      [done|apply next_id_fresh|done|].
    intros j y Hj Hc Hp. by eapply H1.
  - by apply (unique_active_replace d request_id sr).
  - apply (unique_active_replace (set_reviews _ d) request_id sr);
      [done|done|done|done|]. simpl. done.
  - apply (unique_active_replace d request_id sr); [done..|].
    simpl. done.
  - by destruct (Hr request_id (Some p)).
Qed.

(** X5.  Every POST request keeps the requests referentially intact: each
    names a professional and, where foreign keys are enforced, an existing
    professional and an existing service. *)
Theorem well_referenced_kept now u (r : post Float) d :
  well_referenced foreign_keys d →
  well_referenced foreign_keys (handle foreign_keys strptime now u r d).2.
Proof.
  intros Hwf. pose proof (handle_write now u r d) as Hw.
  assert (∀ table : gmap Z (ServiceRequests.t Float),
            well_referenced foreign_keys (set_service_requests table d) →
            ∀ x, well_referenced foreign_keys
                   (set_service_requests table (set_reviews x d)))
    as Hreviews by done.
  assert (∀ rid sr new,
            service_requests d !! rid = Some sr →
            ServiceRequests.service_id new = ServiceRequests.service_id sr →
            ServiceRequests.professional_id new
            = ServiceRequests.professional_id sr →
            well_referenced foreign_keys
              (set_service_requests (<[rid := new]> (service_requests d)) d))
    as Hreplace.
  { intros rid sr new Hsr Hs Hp. destruct (Hwf rid sr Hsr) as (p & Hq & Hfk).
    apply (well_referenced_insert foreign_keys d rid new p); [done| |].
    - by rewrite Hp.
    - by rewrite Hs. }
  destruct Hw; simpl; try done.
  - apply (well_referenced_insert foreign_keys d _ _ professional_id);
      [done|done|]. intros Hon. split; [done|by apply H2].
  - by apply (Hreplace request_id sr).
  - apply Hreviews. by apply (Hreplace request_id sr).
  - by apply (Hreplace request_id sr).
  - destruct (Hwf request_id sr H0) as (q & Hq & Hfk).
    apply (well_referenced_insert foreign_keys d _ _ p); [done|done|].
    intros Hon. destruct (Hfk Hon) as [Hq' Hs]. split; [|done].
    destruct (H3 Hon) as [Hsame|?]; [|done]. by simplify_eq.
  - apply (well_referenced_frame foreign_keys d); [done..| |done].
    intros q Hq. simpl. rewrite lookup_insert. by case_decide.
  - apply (well_referenced_frame foreign_keys d); [done..| |done].
    intros q Hq. simpl. rewrite lookup_insert. by case_decide.
  - apply (well_referenced_frame foreign_keys d); [done..| |done].
    intros q Hq. simpl. rewrite lookup_insert. by case_decide.
  - intros i x Hi. destruct (Hwf i x Hi) as (q & Hq & Hfk). exists q.
    split; [done|]. intros Hon. destruct (Hfk Hon) as [? Hs].
    split; [done|]. simpl. rewrite lookup_insert. by case_decide.
  - intros i x Hi. destruct (Hwf i x Hi) as (q & Hq & Hfk). exists q.
    split; [done|]. intros Hon. destruct (Hfk Hon) as [? Hs].
    split; [done|]. simpl. rewrite lookup_insert. by case_decide.
  - intros i x Hi. destruct (Hwf i x Hi) as (q & Hq & Hfk). exists q.
    split; [done|]. intros Hon. destruct (Hfk Hon) as [? Hs].
    split; [done|]. simpl. rewrite lookup_delete_ne; [done|].
    intros Heq. by apply (H2 i x Hi).
Qed.

Lemma service_type_free_spec d (service_type : string) :
  service_type_free d service_type = true
  ↔ ∀ k x, services d !! k = Some x → Services.service_type x ≠ service_type.
Proof.
  unfold service_type_free. rewrite bool_decide_eq_true, query_first_None.
  done.
Qed.

(** X6.  Every POST request keeps the names of the services distinct. *)
Theorem service_types_unique_kept now u (r : post Float) d :
  service_types_unique d →
  service_types_unique (handle foreign_keys strptime now u r d).2.
Proof.
  intros Hu. pose proof (handle_write now u r d) as Hw.
  destruct Hw; simpl; try done.
  - rewrite service_type_free_spec in H0.
    intros i j x y Hi Hj. simpl in Hi, Hj.
    apply lookup_insert_Some in Hi as [[<- <-]|[Hni Hi]];
      apply lookup_insert_Some in Hj as [[<- <-]|[Hnj Hj]]; simpl.
    + done.
    + intros Heq. by destruct (H0 j y Hj).
    + intros Heq. by destruct (H0 i x Hi).
    + by apply Hu.
  - intros i j x y Hi Hj. simpl in Hi, Hj.
    apply lookup_insert_Some in Hi as [[<- <-]|[Hni Hi]];
      apply lookup_insert_Some in Hj as [[<- <-]|[Hnj Hj]]; simpl.
    + done.
    + intros Heq. destruct H1 as [Hsame|Hfree].
      * apply (Hu service_id j old y); [done..|congruence].
      * rewrite service_type_free_spec in Hfree. by destruct (Hfree j y Hj).
    + intros Heq. destruct H1 as [Hsame|Hfree].
      * symmetry. apply (Hu service_id i old x); [done..|congruence].
      * rewrite service_type_free_spec in Hfree. by destruct (Hfree i x Hi).
    + by apply Hu.
  - intros i j x y Hi Hj. simpl in Hi, Hj.
    apply lookup_delete_Some in Hi as [_ Hi].
    apply lookup_delete_Some in Hj as [_ Hj]. by apply Hu.
Qed.

(** X7.  A customer's POST request, a request on the service catalogue or
    a reassignment that does not report success leaves the database as it
    was. *)
Theorem failure_leaves_database now u (r : post Float) d :
  match r with
  | POST_book_service _ _ _ | POST_update_service_request _ _
  | POST_review_service _ _ | POST_process_payment _
  | POST_create_service _ | POST_update_service _ _
  | POST_delete_service _ | POST_reassign_professional _ _ =>
    ¬ succeeded (handle foreign_keys strptime now u r d).1 →
    (handle foreign_keys strptime now u r d).2 = d
  | _ => True
  end.
Proof.
  pose proof (handle_write now u r d) as Hw.
  destruct Hw; try done; try (by destruct r).
  all: match goal with
       | H : _ ∨ _ |- _ => destruct H as [(action & -> & _)|[[-> _]|[-> _]]]
       end; done.
Qed.

End effects.

(** ** Ordered queries *)

Section ordering.
Context {A : Type} (key : Z * A → Z).

#[local] Instance desc_total : Total (desc key).
Proof. intros a b. unfold desc. lia. Qed.

#[local] Instance desc_transitive : Transitive (desc key).
Proof. intros a b c. unfold desc. lia. Qed.

Lemma elem_of_order_by_desc (rows : list (Z * A)) x :
  x ∈ order_by_desc key rows ↔ x ∈ rows.
Proof. unfold order_by_desc. by rewrite merge_sort_Permutation. Qed.

Lemma order_by_desc_sorted (rows : list (Z * A)) :
  StronglySorted (desc key) (order_by_desc key rows).
Proof. apply StronglySorted_merge_sort; apply _. Qed.

Lemma order_by_desc_NoDup (rows : list (Z * A)) :
  NoDup rows → NoDup (order_by_desc key rows).
Proof. unfold order_by_desc. by rewrite merge_sort_Permutation. Qed.

(** The first row of a descending list is one with the greatest key. *)
Lemma order_by_desc_head (rows : list (Z * A)) x :
  x ∈ rows →
  (∀ y, y ∈ rows → key y ≤ key x) →
  (∀ y, y ∈ rows → key y = key x → y = x) →
  head (order_by_desc key rows) = Some x.
Proof.
  intros Hx Hmax Huniq.
  pose proof (order_by_desc_sorted rows) as Hsorted.
  apply elem_of_order_by_desc in Hx.
  destruct (order_by_desc key rows) as [|h l] eqn:E;
    [by apply elem_of_nil in Hx|].
  simpl. f_equal. apply Huniq.
  - apply elem_of_order_by_desc. rewrite E. apply list_elem_of_here.
  - assert (key h ≤ key x) by
      (apply Hmax, elem_of_order_by_desc; rewrite E; apply list_elem_of_here).
    apply elem_of_cons in Hx as [->|Hx]; [done|].
    apply StronglySorted_inv in Hsorted as [_ Hall].
    rewrite Forall_forall in Hall. specialize (Hall x Hx).
    unfold desc in Hall. lia.
Qed.

End ordering.

(** The rows of [query.filter(P).order_by(key.desc()).all()]. *)
Lemma elem_of_filtered_rows {A} (P : Z * A → Prop) `{!∀ x, Decision (P x)}
    (key : Z * A → Z) (m : gmap Z A) k x :
  (k, x) ∈ order_by_desc key (map_to_list (filter P m))
  ↔ m !! k = Some x ∧ P (k, x).
Proof.
  by rewrite elem_of_order_by_desc, elem_of_map_to_list,
    map_lookup_filter_Some.
Qed.

(** ** The pages *)

Section pages_facts.
Context {Float : Type} `{!EqDecision Float}.
Variable foreign_keys : bool.
Variable strptime : string → option datetime.
Implicit Type d : Db Float.
Implicit Type sr : ServiceRequests.t Float.

Lemma customer_required_page_pass {A} d u cid :
  logged_in_customer d u cid →
  ∃ c, customers d !! cid = Some c
       ∧ ∀ f : option (Z * Customers.t) → page A,
           customer_required_page u d f = f (Some (cid, c)).
Proof.
  intros (user & c & Hu & Hactive & Hrole & Hc & Hblocked). exists c. split.
  - unfold Users_customer in Hc. by apply query_first_Some in Hc as [? _].
  - intros f. unfold customer_required_page.
    rewrite Hu, Hactive, Hc, Hblocked. simpl.
    by rewrite decide_False by (by intros ?).
Qed.

Lemma admin_required_page_pass {A} d u (f : page A) :
  logged_in_admin d u → admin_required_page u d f = f.
Proof.
  intros (user & Hu & Hactive & Hrole). unfold admin_required_page.
  rewrite Hu, Hactive. simpl. by rewrite decide_False by (by intros ?).
Qed.

Lemma elem_of_requests_of_customer d cid rid sr :
  (rid, sr) ∈ requests_of_customer d cid
  ↔ service_requests d !! rid = Some sr
    ∧ ServiceRequests.customer_id sr = cid.
Proof. unfold requests_of_customer. by rewrite elem_of_filtered_rows. Qed.

Lemma customer_required_page_cases {A} d u :
  (∃ cid, logged_in_customer d u cid)
  ∨ (∀ f : option (Z * Customers.t) → page A,
       customer_required_page u d f = f None)
  ∨ (∀ f : option (Z * Customers.t) → page A,
       ∃ r, customer_required_page u d f = respond r).
Proof.
  unfold customer_required_page.
  destruct (users d !! u) as [user|] eqn:Hu; [|right; right; eauto].
  destruct (Users.is_active user) eqn:Hactive; simpl;
    [|right; right; eauto].
  destruct (decide (Users.role user ≠ "customer")) as [Hrole|Hrole];
    [right; right; eauto|].
  apply dec_stable in Hrole.
  destruct (Users_customer d u) as [[i c]|] eqn:Hc; [|right; by left].
  destruct (Customers.admin_blocked c) eqn:Hb; [right; right; eauto|].
  left. exists i, user, c. done.
Qed.

(** X8.  For an authenticated customer [service_history] renders exactly
    the requests of that customer, each once, latest request date
    first. *)
Theorem service_history_lists u cid d :
  logged_in_customer d u cid →
  ∃ rows,
    service_history u d = render_template "customer/service_history.html" rows
    ∧ (∀ rid sr,
         (rid, sr) ∈ rows
         ↔ service_requests d !! rid = Some sr
           ∧ ServiceRequests.customer_id sr = cid)
    ∧ NoDup rows
    ∧ StronglySorted
        (λ a b, ServiceRequests.date_of_request b.2
                ≤ ServiceRequests.date_of_request a.2) rows.
Proof.
  intros Hin.
  destruct (customer_required_page_pass
              (A:=list (Z * ServiceRequests.t Float)) d u cid Hin)
    as (c & _ & Hpass).
  exists (requests_of_customer d cid). split.
  { unfold service_history. by rewrite Hpass. }
  split; [apply elem_of_requests_of_customer|]. split.
  { apply order_by_desc_NoDup, NoDup_map_to_list. }
  apply order_by_desc_sorted.
Qed.

Lemma show_payment_form_renders u rid d template context :
  show_payment_form u rid d = render_template template context →
  template = "customer/payment.html"
  ∧ context.1 = rid
  ∧ service_requests d !! rid = Some context.2
  ∧ ServiceRequests.service_status context.2 = CLOSED
  ∧ logged_in_customer d u (ServiceRequests.customer_id context.2).
Proof.
  unfold show_payment_form.
  destruct (customer_required_page_cases
              (A:=Z * ServiceRequests.t Float) d u)
    as [[cid Hin]|[Hnone|Hout]].
  - destruct (customer_required_page_pass
                (A:=Z * ServiceRequests.t Float) d u cid Hin)
      as (c & _ & ->).
    destruct (service_requests d !! rid) as [sr|] eqn:Hsr; [|done].
    destruct (decide (ServiceRequests.customer_id sr ≠ cid))
      as [|Hown%dec_stable]; [done|].
    destruct (decide (ServiceRequests.service_status sr ≠ CLOSED))
      as [|Hst%dec_stable]; [done|].
    intros [= <- <-]. simpl. by subst cid.
  - rewrite Hnone. by destruct (service_requests d !! rid).
  - intros Heq. destruct (Hout (λ customer,
      match service_requests d !! rid with
      | Some service_request =>
        match customer with
        | Some (customer_id, _) =>
          if decide (ServiceRequests.customer_id service_request
                     ≠ customer_id)
          then respond (abort 403)
          else if decide (ServiceRequests.service_status service_request
                          ≠ CLOSED)
          then
            respond
              (redirect
                 [("This service is not yet closed for payment.",
                   "warning")] "customer.service_history")
          else render_template "customer/payment.html"
                 (rid, service_request)
        | None => respond (raise "AttributeError")
        end
      | None => respond (abort 404)
      end)) as [r Hr].
    rewrite Hr in Heq. done.
Qed.

Lemma process_payment_succeeded now u rid d :
  succeeded (process_payment foreign_keys now u rid d).1 →
  ∃ sr, service_requests d !! rid = Some sr
        ∧ ServiceRequests.service_status sr = CLOSED
        ∧ logged_in_customer d u (ServiceRequests.customer_id sr).
Proof.
  unfold process_payment.
  destruct (customer_required_cases d u) as [[cid Hin]|[Hnone|Hout]].
  - destruct (customer_required_pass d u cid Hin) as (c & _ & ->).
    destruct (service_requests d !! rid) as [sr|] eqn:Hsr; [|done].
    destruct (decide (ServiceRequests.customer_id sr ≠ cid))
      as [|Hown%dec_stable]; [done|].
    destruct (decide (ServiceRequests.service_status sr ≠ CLOSED))
      as [|Hst%dec_stable]; [done|].
    intros _. exists sr. by subst cid.
  - rewrite Hnone. by destruct (service_requests d !! rid).
  - intros Hs. exfalso. eapply (λ f, proj2 (Hout f)). exact Hs.
Qed.

(** X9.  [show_payment_form] renders the payment page exactly when
    [process_payment], for the same principal and request on the same
    database, would succeed; the page then shows that request, which is
    CLOSED. *)
Theorem show_payment_form_agrees now u rid d :
  ((∃ context,
      show_payment_form u rid d
      = render_template "customer/payment.html" context)
   ↔ succeeded (process_payment foreign_keys now u rid d).1)
  ∧ ∀ template context,
      show_payment_form u rid d = render_template template context →
      template = "customer/payment.html"
      ∧ context.1 = rid
      ∧ service_requests d !! rid = Some context.2
      ∧ ServiceRequests.service_status context.2 = CLOSED.
Proof.
  split; [split|].
  - intros [context Hr].
    apply show_payment_form_renders in Hr as (_ & _ & Hsr & Hst & Hin).
    by rewrite (process_payment_closed foreign_keys now u _ rid d context.2
                  Hin Hsr eq_refl Hst).
  - intros (sr & Hsr & Hst & Hin)%process_payment_succeeded.
    exists (rid, sr). unfold show_payment_form.
    destruct (customer_required_page_pass
                (A:=Z * ServiceRequests.t Float) d u _ Hin)
      as (c & _ & ->).
    rewrite Hsr. rewrite decide_False by (by intros ?).
    by rewrite decide_False by (by intros ?).
  - intros template context Hr.
    by apply show_payment_form_renders in Hr as (? & ? & ? & ? & _).
Qed.

(** X10.  To an active user [customer_profile] of an existing customer
    is shown when the user is an administrator or the customer
    themselves, with exactly that customer's requests, each once, latest
    request date first, and it is refused with 403 to anybody else.  It
    does not look at [admin_blocked]: a suspended customer, whom
    [service_history] logs out, still gets the profile page. *)
Theorem customer_profile_access u cid d user c :
  users d !! u = Some user →
  Users.is_active user = true →
  customers d !! cid = Some c →
  (Users.role user = "admin" ∨ u = Customers.user_id c →
   ∃ rows,
     customer_bp.customer_profile u cid d
     = render_template "customer/customer_profile.html" ((cid, c), rows)
     ∧ (∀ rid sr,
          (rid, sr) ∈ rows
          ↔ service_requests d !! rid = Some sr
            ∧ ServiceRequests.customer_id sr = cid)
     ∧ NoDup rows
     ∧ StronglySorted
         (λ a b, ServiceRequests.date_of_request b.2
                 ≤ ServiceRequests.date_of_request a.2) rows)
  ∧ (Users.role user ≠ "admin" → u ≠ Customers.user_id c →
     customer_bp.customer_profile u cid d = respond (abort 403))
  ∧ (Users.role user = "customer" →
     Users_customer d u = Some (cid, c) →
     Customers.admin_blocked c = true →
     service_history u d
     = respond
         (logout_redirect
            [("Your account has been suspended by an administrator.",
              "danger")] "auth.login")
     ∧ ∃ rows,
         customer_bp.customer_profile u cid d
         = render_template "customer/customer_profile.html"
             ((cid, c), rows)).
Proof.
  intros Hu Hactive Hc.
  assert (Users.role user = "admin" ∨ u = Customers.user_id c →
          customer_bp.customer_profile u cid d
          = render_template "customer/customer_profile.html"
              ((cid, c), requests_of_customer d cid)) as Hshown.
  { intros Hok. unfold customer_bp.customer_profile.
    rewrite Hu, Hactive, Hc. simpl.
    rewrite decide_False; [done|]. intros [? ?]. by destruct Hok. }
  split; [|split].
  - intros Hok. exists (requests_of_customer d cid).
    split; [by apply Hshown|].
    split; [intros; apply elem_of_requests_of_customer|]. split.
    + apply order_by_desc_NoDup, NoDup_map_to_list.
    + apply order_by_desc_sorted.
  - intros Hr Hne. unfold customer_bp.customer_profile.
    rewrite Hu, Hactive, Hc. simpl. by rewrite decide_True.
  - intros Hrole Hcust Hblocked. split.
    + unfold service_history, customer_required_page.
      rewrite Hu, Hactive, Hcust, Hblocked. simpl.
      by rewrite decide_False by (by intros ?).
    + eexists. apply Hshown. right. unfold Users_customer in Hcust.
      apply query_first_Some in Hcust as [Hc' Huid]. simpl in Huid.
      by simplify_eq.
Qed.

(** X11.  For an administrator [admin_dashboard] shows every service,
    every professional and customer whose user has that role, and every
    request in exactly one of its two lists: [rejected_requests] holds the
    REJECTED ones and [all_requests] the others. *)
Theorem admin_dashboard_lists u d :
  logged_in_admin d u →
  ∃ context,
    admin_dashboard u d
    = render_template "admin/admin_dashboard.html" context
    ∧ (∀ rid sr,
         ((rid, sr) ∈ rejected_requests context
          ↔ service_requests d !! rid = Some sr
            ∧ ServiceRequests.service_status sr = REJECTED)
         ∧ ((rid, sr) ∈ all_requests context
            ↔ service_requests d !! rid = Some sr
              ∧ ServiceRequests.service_status sr ≠ REJECTED))
    ∧ NoDup (rejected_requests context)
    ∧ NoDup (all_requests context)
    ∧ (∀ id s, (id, s) ∈ dashboard_services context ↔ services d !! id = Some s)
    ∧ (∀ id p,
         (id, p) ∈ dashboard_professionals context
         ↔ service_professionals d !! id = Some p
           ∧ ∃ user, users d !! ServiceProfessionals.user_id p = Some user
                     ∧ Users.role user = "professional")
    ∧ (∀ id c,
         (id, c) ∈ dashboard_customers context
         ↔ customers d !! id = Some c
           ∧ ∃ user, users d !! Customers.user_id c = Some user
                     ∧ Users.role user = "customer").
Proof.
  intros Hin. unfold admin_dashboard.
  rewrite (admin_required_page_pass d u _ Hin).
  eexists. split; [done|]. simpl.
  assert (∀ role user_id,
            user_has_role d role user_id = true
            ↔ ∃ user, users d !! user_id = Some user
                      ∧ Users.role user = role) as Hrole.
  { intros role user_id. unfold user_has_role.
    destruct (users d !! user_id) as [user|].
    - rewrite bool_decide_eq_true. split; [by exists user|].
      by intros (? & [= <-] & ?).
    - split; [done|]. by intros (? & ? & ?). }
  split; [|split; [|split; [|split; [|split]]]].
  - intros rid sr. rewrite !elem_of_filtered_rows. simpl. split; [done|].
    unfold active_statuses. rewrite !elem_of_cons, elem_of_nil.
    split; intros [Hsr Hst]; (split; [done|]).
    + intros Heq. rewrite Heq in Hst.
      by destruct Hst as [?|[?|[?|[?|?]]]].
    + destruct (ServiceRequests.service_status sr); auto 6.
  - apply order_by_desc_NoDup, NoDup_map_to_list.
  - apply order_by_desc_NoDup, NoDup_map_to_list.
  - intros id s. by rewrite elem_of_order_by_desc, elem_of_map_to_list.
  - intros id p. rewrite elem_of_filtered_rows. simpl. by rewrite Hrole.
  - intros id c. rewrite elem_of_filtered_rows. simpl. by rewrite Hrole.
Qed.

(** *** The charts *)

Lemma elem_of_group_by_count `{Countable K} {A} (key : A → K)
    (m : gmap Z A) k n :
  (k, n) ∈ group_by_count key m
  ↔ n = query_count (λ kv, key kv.2 = k) m
    ∧ ∃ i x, m !! i = Some x ∧ key x = k.
Proof.
  unfold group_by_count. rewrite list_elem_of_fmap.
  setoid_rewrite elem_of_elements. setoid_rewrite elem_of_map_to_set.
  split.
  - intros (k' & [= -> ->] & Hk). by split.
  - intros [-> Hk]. by exists k.
Qed.

Lemma sum_list_fmap_add {K} (f g : K → nat) (l : list K) :
  sum_list ((λ k, f k + g k)%nat <$> l)
  = (sum_list (f <$> l) + sum_list (g <$> l))%nat.
Proof.
  induction l as [|k l IH]; [done|].
  cbn [fmap list_fmap sum_list_with]. rewrite IH. unfold id. lia.
Qed.

Lemma sum_list_zero {K} (f : K → nat) (l : list K) :
  (∀ k, k ∈ l → f k = 0%nat) → sum_list (f <$> l) = 0%nat.
Proof.
  induction l as [|k l IH]; [done|]. intros Hz.
  cbn [fmap list_fmap sum_list_with].
  rewrite IH by (intros; apply Hz; by apply list_elem_of_further).
  rewrite (Hz k) by apply list_elem_of_here. done.
Qed.

Lemma sum_list_indicator `{EqDecision K} (k0 : K) (l : list K) :
  NoDup l → k0 ∈ l →
  sum_list ((λ k, if decide (k0 = k) then 1 else 0)%nat <$> l) = 1%nat.
Proof.
  induction 1 as [|k l Hk Hl IH]; [by intros ?%elem_of_nil|].
  intros Hin. cbn [fmap list_fmap sum_list_with].
  destruct (decide (k0 = k)) as [->|Hne].
  - rewrite sum_list_zero; [done|].
    intros k' Hk'. rewrite decide_False; [done|]. by intros ->.
  - apply elem_of_cons in Hin as [?|Hin]; [done|]. by rewrite IH.
Qed.

(** The counts of a grouping add up to the number of rows. *)
Lemma sum_list_counts `{Countable K} {A} (key : A → K) (l : list K)
    (m : gmap Z A) :
  NoDup l →
  (∀ i x, m !! i = Some x → key x ∈ l) →
  sum_list ((λ k, query_count (λ kv, key kv.2 = k) m) <$> l) = size m.
Proof.
  intros Hl. induction m as [|i x m Hi IH] using map_ind; intros Hkeys.
  - rewrite map_size_empty. apply sum_list_zero. intros k _.
    unfold query_count. by rewrite map_filter_empty, map_size_empty.
  - rewrite map_size_insert_None by done.
    transitivity
      (sum_list ((λ k, if decide (key x = k) then 1 else 0)%nat <$> l)
       + sum_list ((λ k, query_count (λ kv, key kv.2 = k) m) <$> l))%nat.
    + rewrite <- sum_list_fmap_add. f_equal. apply list_fmap_ext.
      intros _ k _. rewrite query_count_insert. simpl.
      by rewrite delete_id.
    + rewrite (sum_list_indicator (key x) l Hl).
      2:{ apply (Hkeys i x). apply lookup_insert_eq. }
      rewrite IH; [done|]. intros j y Hj. apply (Hkeys j y).
      rewrite lookup_insert_ne; [done|]. intros ->. congruence.
Qed.

Lemma group_by_count_total `{Countable K} {A} (key : A → K) (m : gmap Z A) :
  sum_list (snd <$> group_by_count key m) = size m.
Proof.
  unfold group_by_count. rewrite <- list_fmap_compose.
  apply (sum_list_counts key).
  - apply NoDup_elements.
  - intros i x Hi. apply elem_of_elements, elem_of_map_to_set. eauto.
Qed.

Lemma String_length_app (s t : string) :
  String.length (s +:+ t) = (String.length s + String.length t)%nat.
Proof. induction s as [|c s IH]; simpl; [done|]. by rewrite IH. Qed.

Lemma String_app_inj_r (s1 s2 t : string) :
  s1 +:+ t = s2 +:+ t → s1 = s2.
Proof.
  revert s2. induction s1 as [|c s1 IH]; intros [|c' s2] Heq; simpl in *.
  - done.
  - apply (f_equal String.length) in Heq.
    rewrite !String_length_app in Heq. simpl in Heq. lia.
  - apply (f_equal String.length) in Heq.
    rewrite !String_length_app in Heq. simpl in Heq. lia.
  - injection Heq as -> Heq. f_equal. by apply IH.
Qed.

Lemma title_name_inj (s s' : ServiceStatus) :
  title (ServiceStatus_name s) = title (ServiceStatus_name s') → s = s'.
Proof. destruct s, s'; (done || (vm_compute; discriminate)). Qed.

Lemma zip_fmap_fmap {X Y1 Y2} (f : X → Y1) (g : X → Y2) (l : list X) :
  zip (f <$> l) (g <$> l) = (λ x, (f x, g x)) <$> l.
Proof. induction l as [|x l IH]; [done|]. cbn. f_equal. apply IH. Qed.

(** X12.  For an administrator [admin_chart_data] answers 200 with two
    histograms.  The counts of the first add up to the number of requests
    and those of the second to the number of reviews; a status, by its
    capitalised name, or a rating, as [n-Star], is listed exactly when
    some row has it, next to the number of rows that have it. *)
Theorem admin_chart_data_totals u d :
  logged_in_admin d u →
  ∃ body,
    admin_chart_data u d = jsonify body 200
    ∧ sum_list (data (requests_by_status body)) = size (service_requests d)
    ∧ sum_list (data (ratings_distribution body)) = size (reviews d)
    ∧ (∀ s n,
         (title (ServiceStatus_name s), n)
         ∈ zip (labels (requests_by_status body))
               (data (requests_by_status body))
         ↔ n = query_count (λ kv, ServiceRequests.service_status kv.2 = s)
                 (service_requests d)
           ∧ ∃ i x, service_requests d !! i = Some x
                    ∧ ServiceRequests.service_status x = s)
    ∧ (∀ rating n,
         (pretty rating +:+ "-Star", n)
         ∈ zip (labels (ratings_distribution body))
               (data (ratings_distribution body))
         ↔ n = query_count (λ kv, Reviews.rating kv.2 = rating) (reviews d)
           ∧ ∃ i x, reviews d !! i = Some x ∧ Reviews.rating x = rating).
Proof.
  intros Hin. unfold admin_chart_data.
  rewrite (admin_required_page_pass d u _ Hin).
  eexists. split; [done|]. simpl.
  split; [apply group_by_count_total|].
  split; [apply group_by_count_total|]. split.
  - intros s n. rewrite zip_fmap_fmap, list_elem_of_fmap.
    rewrite <- elem_of_group_by_count. split.
    + intros ([s' n'] & [= Hs ->] & Hin'). simpl in *.
      by apply title_name_inj in Hs as ->.
    + intros Hin'. by exists (s, n).
  - intros rating n. rewrite zip_fmap_fmap, list_elem_of_fmap.
    rewrite <- elem_of_group_by_count. split.
    + intros ([r' n'] & [= Hr ->] & Hin'). simpl in *.
      apply String_app_inj_r in Hr. by apply (inj pretty) in Hr as ->.
    + intros Hin'. by exists (rating, n).
Qed.

End pages_facts.

(** ** The service catalogue *)

Section catalogue.
Context {Float : Type} `{!EqDecision Float}.
Implicit Type d : Db Float.

Lemma query_count_zero {A} (P : Z * A → Prop) `{!∀ x, Decision (P x)}
    (m : gmap Z A) :
  query_count P m = 0%nat ↔ ∀ k x, m !! k = Some x → ¬ P (k, x).
Proof.
  unfold query_count. by rewrite map_size_empty_iff, map_empty_filter.
Qed.

(** X13.  For an administrator and an existing service, [delete_service]
    succeeds exactly when no professional, no request and no review
    refers to the service; it then removes that service and nothing else,
    and otherwise leaves the database as it was.  While a professional is
    assigned it answers with their number. *)
Theorem delete_service_guard u id d s :
  logged_in_admin d u →
  services d !! id = Some s →
  (succeeded (delete_service u id d).1
   ↔ (∀ k x, service_professionals d !! k = Some x →
             ServiceProfessionals.service_id x ≠ id)
     ∧ (∀ k x, service_requests d !! k = Some x →
               ServiceRequests.service_id x ≠ id)
     ∧ (∀ k x, reviews d !! k = Some x → Reviews.service_id x ≠ id))
  ∧ (succeeded (delete_service u id d).1 →
     (delete_service u id d).2 = set_services (delete id (services d)) d)
  ∧ (¬ succeeded (delete_service u id d).1 → (delete_service u id d).2 = d)
  ∧ (∀ k x, service_professionals d !! k = Some x →
            ServiceProfessionals.service_id x = id →
            ∃ n, (0 < n)%nat
                 ∧ n = query_count
                         (λ kv, ServiceProfessionals.service_id kv.2 = id)
                         (service_professionals d)
                 ∧ delete_service u id d
                   = (redirect
                        [("Cannot delete '" +:+ Services.service_type s
                          +:+ "'. It has " +:+ pretty n
                          +:+ " professionals assigned.", "danger")]
                        "admin.admin_dashboard", d)).
Proof.
  intros Hin Hs. unfold delete_service.
  rewrite (admin_required_pass d u _ Hin), Hs.
  destruct (decide (0 < query_count _ (service_professionals d))%nat)
    as [Hpos|Hzero].
  - assert (¬ ∀ k x, service_professionals d !! k = Some x →
                     ServiceProfessionals.service_id x ≠ id) as Hsome.
    { intros Hnone.
      assert (query_count
                (λ kv, ServiceProfessionals.service_id kv.2 = id)
                (service_professionals d) = 0%nat) as Hq
        by (apply query_count_zero; intros k x Hk; by apply (Hnone k x)).
      rewrite Hq in Hpos. lia. }
    split; [split; [by intros ?|by intros [? _]]|].
    split; [by intros ?|]. split; [done|].
    intros k x Hk Hx. eexists. split; [exact Hpos|]. done.
  - assert (∀ k x, service_professionals d !! k = Some x →
                   ServiceProfessionals.service_id x ≠ id) as Hnone.
    { apply (query_count_zero
               (λ kv, ServiceProfessionals.service_id kv.2 = id)). lia. }
    unfold delete_service_row.
    rewrite (bool_decide_true (query_first _ (service_professionals d) = _))
      by (by apply query_first_None).
    destruct (bool_decide (query_first _ (service_requests d) = None))
      eqn:E2; simpl.
    + destruct (bool_decide (query_first _ (reviews d) = None)) eqn:E3;
        simpl.
      * apply bool_decide_eq_true in E2, E3.
        rewrite query_first_None in E2. rewrite query_first_None in E3.
        split; [split; [done|by intros _]|]. split; [done|].
        split; [by intros []|]. intros k x Hk Hx. by destruct (Hnone k x Hk).
      * apply bool_decide_eq_false in E3.
        split; [split; [by intros ?|]|].
        { intros (_ & _ & H3). destruct E3. by apply query_first_None. }
        split; [by intros ?|]. split; [done|].
        intros k x Hk Hx. by destruct (Hnone k x Hk).
    + apply bool_decide_eq_false in E2.
      split; [split; [by intros ?|]|].
      { intros (_ & H2 & _). destruct E2. by apply query_first_None. }
      split; [by intros ?|]. split; [done|].
      intros k x Hk Hx. by destruct (Hnone k x Hk).
Qed.

(** X14.  For an administrator and a valid form, [create_service] refuses
    a name that a service already has, with no write, and otherwise
    inserts the service under a fresh id, which [admin_dashboard] then
    lists first.  With an invalid form it writes nothing: it flashes the
    first error, and raises when the form carries no error message. *)
Theorem create_service_catalogue now u form d :
  logged_in_admin d u →
  (CreateServiceForm.validate_on_submit form = true →
   (∃ k x, services d !! k = Some x
           ∧ Services.service_type x = CreateServiceForm.service_type form) →
   create_service now u form d
   = (redirect [("An error occurred while creating the service.", "danger")]
               "admin.admin_dashboard", d))
  ∧ (CreateServiceForm.validate_on_submit form = true →
     (∀ k x, services d !! k = Some x →
             Services.service_type x ≠ CreateServiceForm.service_type form) →
     ∃ new,
       create_service now u form d
       = (redirect
            [("Service '" +:+ CreateServiceForm.service_type form
              +:+ "' created successfully.", "success")]
            "admin.admin_dashboard",
          set_services (<[next_id (services d) := new]> (services d)) d)
       ∧ services d !! next_id (services d) = None
       ∧ Services.service_type new = CreateServiceForm.service_type form
       ∧ Services.base_price new = CreateServiceForm.base_price form
       ∧ ∃ context,
           admin_dashboard u (create_service now u form d).2
           = render_template "admin/admin_dashboard.html" context
           ∧ head (dashboard_services context)
             = Some (next_id (services d), new))
  ∧ (CreateServiceForm.validate_on_submit form = false →
     (create_service now u form d).2 = d
     ∧ (CreateServiceForm.errors form = [] →
        (create_service now u form d).1 = raise "StopIteration")
     ∧ ∀ e es rest,
         CreateServiceForm.errors form = (e :: es) :: rest →
         (create_service now u form d).1
         = redirect [("Error: " +:+ e, "danger")] "admin.admin_dashboard").
Proof.
  intros Hin. unfold create_service.
  rewrite (admin_required_pass d u _ Hin). split; [|split].
  - intros -> (k & x & Hk & Hx). unfold insert_service. simpl.
    assert (service_type_free d (CreateServiceForm.service_type form) = false)
      as ->; [|done].
    apply bool_decide_eq_false. intros Hnone.
    rewrite query_first_None in Hnone. by apply (Hnone k x Hk).
  - intros -> Hfree. unfold insert_service. simpl.
    assert (service_type_free d (CreateServiceForm.service_type form) = true)
      as -> by (apply bool_decide_eq_true, query_first_None; intros k x Hk;
                by apply (Hfree k x)).
    eexists. split; [done|]. split; [apply next_id_fresh|].
    do 2 (split; [done|]). simpl. unfold admin_dashboard.
    rewrite admin_required_page_pass by done.
    eexists. split; [done|]. simpl.
    apply order_by_desc_head.
    + apply elem_of_map_to_list, lookup_insert_eq.
    + intros [k x] [[-> ->]|[_ Hk]]%elem_of_map_to_list%lookup_insert_Some;
        simpl; [done|].
      assert (k < next_id (services d)) by (apply next_id_bound; eauto). lia.
    + intros [k x] Hk%elem_of_map_to_list. simpl. intros ->.
      rewrite lookup_insert_eq in Hk. by simplify_eq.
  - intros ->. destruct (CreateServiceForm.errors form) as [|[|e es] rest];
      simpl; (split; [done|]); split; try done.
    intros e' es' rest' [= -> -> ->]. done.
Qed.

End catalogue.

(** ** How the routes compose *)

Section compositions.
Context {Float : Type} `{!EqDecision Float}.
Variable foreign_keys : bool.
Variable strptime : string → option datetime.
Variable ilike : string → string → bool.
Implicit Type d : Db Float.
Implicit Type sr : ServiceRequests.t Float.

(** With at most one matching row, [first()] finds it. *)
Lemma query_first_only {A} (P : Z * A → Prop) `{!∀ x, Decision (P x)}
    (m : gmap Z A) k x :
  m !! k = Some x → P (k, x) →
  (∀ j y, m !! j = Some y → P (j, y) → j = k) →
  query_first P m = Some (k, x).
Proof.
  intros Hk HP Huniq.
  destruct (query_first_found P m k x Hk HP) as [[j y] E].
  pose proof (query_first_Some _ _ _ _ E) as [Hj HPj].
  assert (j = k) as -> by eauto. by simplify_eq.
Qed.

Lemma Users_customer_unique d uid cid c :
  customers_user_unique d →
  customers d !! cid = Some c →
  Customers.user_id c = uid →
  Users_customer d uid = Some (cid, c).
Proof.
  intros Huniq Hc Huid. unfold Users_customer.
  apply query_first_only; [done|done|].
  intros j y Hj Hy. simpl in Hy. apply (Huniq j cid y c); congruence.
Qed.

(** What [toggle_user_block] leaves of a customer account. *)
Lemma toggle_user_block_customer now a uid action d user cid c :
  logged_in_admin d a →
  users d !! uid = Some user →
  Users.role user = "customer" →
  customers d !! cid = Some c →
  Customers.user_id c = uid →
  customers_user_unique d →
  ∃ c',
    users (toggle_user_block now a uid action d).2 = users d
    ∧ customers (toggle_user_block now a uid action d).2 !! cid = Some c'
    ∧ Customers.user_id c' = uid
    ∧ Customers.admin_blocked c' = bool_decide (action = Some "block")
    ∧ customers_user_unique (toggle_user_block now a uid action d).2
    ∧ (toggle_user_block now a uid action d).2
      = (if action is Some "block" then block_user now a uid d
         else unblock_user now a uid d).2.
Proof.
  intros Hin Hu Hrole Hc Huid Huniq.
  pose proof (Users_customer_unique d uid cid c Huniq Hc Huid) as Hcust.
  assert ((if action is Some "block" then block_user now a uid d
           else unblock_user now a uid d)
          = _toggle_block_status now uid
              (bool_decide (action = Some "block")) d) as ->.
  { destruct (decide (action = Some "block")) as [->|Hne].
    - unfold block_user. by rewrite admin_required_pass.
    - rewrite bool_decide_false by done.
      assert (∀ X Y : response * Db Float,
                (if action is Some "block" then X else Y) = Y) as ->.
      { intros X Y. destruct action as [s|]; [|done].
        destruct (decide (s = "block")) as [->|?]; [done|].
        repeat (destruct s as [|[[] [] [] [] [] [] [] []] s]; try done). }
      unfold unblock_user. by rewrite admin_required_pass. }
  unfold toggle_user_block, _toggle_block_status.
  rewrite (admin_required_pass d a _ Hin), Hu, Hcust.
  rewrite !decide_True by done. simpl. unfold flush_customer.
  destruct (decide (_ = c)) as [Heq|Hne]; simpl.
  - exists c. do 3 (split; [done|]). split; [by rewrite <- Heq at 1|done].
  - eexists. split; [done|]. split; [apply lookup_insert_eq|].
    do 2 (split; [done|]). split; [|done].
    intros i j x y Hi Hj. simpl in Hi, Hj.
    apply lookup_insert_Some in Hi as [[<- <-]|[Hni Hi]];
      apply lookup_insert_Some in Hj as [[<- <-]|[Hnj Hj]]; simpl.
    + done.
    + intros Heq. symmetry. apply (Huniq j cid y c); congruence.
    + intros Heq. apply (Huniq i cid x c); congruence.
    + by apply Huniq.
Qed.

Lemma customer_required_suspended d uid user cid c :
  users d !! uid = Some user →
  Users.is_active user = true →
  Users.role user = "customer" →
  Users_customer d uid = Some (cid, c) →
  Customers.admin_blocked c = true →
  ∀ f : option (Z * Customers.t) → response * Db Float,
    customer_required uid d f
    = (logout_redirect
         [("Your account has been suspended by an administrator.", "danger")]
         "auth.login", d).
Proof.
  intros Hu Hactive Hrole Hc Hb f. unfold customer_required.
  rewrite Hu, Hactive, Hc, Hb. simpl.
  by rewrite decide_False by (by intros ?).
Qed.

(** X15.  Once an active administrator blocks the account of an active
    customer, by [toggle_user_block] or, with the same effect, by
    [block_user], every POST request of that customer is answered by the
    logout redirect and writes nothing, and [service_history] is refused
    likewise; after [toggle_user_block] with another action the customer
    passes [customer_required] again. *)
Theorem block_locks_out now a uid d user cid c :
  logged_in_admin d a →
  users d !! uid = Some user →
  Users.is_active user = true →
  Users.role user = "customer" →
  customers d !! cid = Some c →
  Customers.user_id c = uid →
  customers_user_unique d →
  let blocked := (toggle_user_block now a uid (Some "block") d).2 in
  blocked = (block_user now a uid d).2
  ∧ (∀ now' (r : post Float),
       match r with
       | POST_book_service _ _ _ | POST_update_service_request _ _
       | POST_review_service _ _ | POST_process_payment _ =>
         handle foreign_keys strptime now' uid r blocked
         = (logout_redirect
              [("Your account has been suspended by an administrator.",
                "danger")] "auth.login", blocked)
       | _ => True
       end)
  ∧ service_history uid blocked
    = respond
        (logout_redirect
           [("Your account has been suspended by an administrator.",
             "danger")] "auth.login")
  ∧ ∀ now' action,
      action ≠ Some "block" →
      logged_in_customer (toggle_user_block now' a uid action blocked).2
        uid cid.
Proof.
  intros Hin Hu Hactive Hrole Hc Huid Huniq. simpl.
  destruct (toggle_user_block_customer now a uid (Some "block") d user cid c
              Hin Hu Hrole Hc Huid Huniq)
    as (c1 & Hu1 & Hc1 & Huid1 & Hb1 & Huniq1 & Hsame).
  set (blocked := (toggle_user_block now a uid (Some "block") d).2) in *.
  assert (users blocked !! uid = Some user) as Hu' by (by rewrite Hu1).
  pose proof (Users_customer_unique blocked uid cid c1 Huniq1 Hc1 Huid1)
    as Hcust.
  split; [exact Hsame|]. split; [|split].
  - intros now' r.
    destruct r; try done; simpl;
      by apply (customer_required_suspended blocked uid user cid c1).
  - unfold service_history, customer_required_page.
    rewrite Hu', Hactive, Hcust, Hb1. simpl.
    by rewrite decide_False by (by intros ?).
  - intros now' action Haction.
    assert (logged_in_admin blocked a) as Hin'.
    { destruct Hin as (admin & ? & ? & ?). exists admin. by rewrite Hu1. }
    destruct (toggle_user_block_customer now' a uid action blocked user cid
                c1 Hin' Hu' Hrole Hc1 Huid1 Huniq1)
      as (c2 & Hu2 & Hc2 & Huid2 & Hb2 & Huniq2 & _).
    exists user, c2. rewrite Hu2. do 3 (split; [done|]).
    split; [by apply Users_customer_unique|].
    by rewrite Hb2, bool_decide_false.
Qed.

Lemma verification_row now a pid d prof (approve : bool) :
  logged_in_admin d a →
  service_professionals d !! pid = Some prof →
  let d' := (if approve then approve_professional now a pid d
             else reject_professional now a pid d).2 in
  users d' = users d
  ∧ services d' = services d
  ∧ ∃ t,
      service_professionals d' !! pid
      = Some (ServiceProfessionals.set_updated_at t
                (ServiceProfessionals.set_verification_failed (negb approve)
                   (ServiceProfessionals.set_is_verified approve prof))).
Proof.
  intros Hin Hprof.
  destruct approve; simpl;
    unfold approve_professional, reject_professional;
    rewrite (admin_required_pass d a _ Hin), Hprof;
    unfold flush_professional;
    (destruct (decide (_ = prof)) as [Heq|Hne]; simpl;
     [destruct (users d !! _); simpl; (do 2 (split; [done|]));
      exists (ServiceProfessionals.updated_at prof);
      rewrite Hprof; f_equal; rewrite <- Heq at 1; by destruct prof
     |destruct (users d !! _); simpl; (do 2 (split; [done|]));
      exists now; apply lookup_insert_eq]).
Qed.

(** X16.  After [approve_professional] a professional who is not blocked
    and whose user and service exist is in the unfiltered listing of
    [customer_dashboard]; a blocked one is in no listing, and after
    [reject_professional] neither is any. *)
Theorem approval_lists now a pid d prof user service :
  logged_in_admin d a →
  service_professionals d !! pid = Some prof →
  users d !! ServiceProfessionals.user_id prof = Some user →
  services d !! ServiceProfessionals.service_id prof = Some service →
  (ServiceProfessionals.admin_blocked prof = false →
   ∃ prof',
     (pid, prof')
     ∈ raw_professionals ilike (approve_professional now a pid d).2 None "")
  ∧ (ServiceProfessionals.admin_blocked prof = true →
     ∀ service_id q prof',
       (pid, prof')
       ∉ raw_professionals ilike (approve_professional now a pid d).2
           service_id q)
  ∧ ∀ service_id q prof',
      (pid, prof')
      ∉ raw_professionals ilike (reject_professional now a pid d).2
          service_id q.
Proof.
  intros Hin Hprof Huser Hservice.
  destruct (verification_row now a pid d prof true Hin Hprof)
    as (Hu1 & Hs1 & t1 & Hrow1).
  destruct (verification_row now a pid d prof false Hin Hprof)
    as (Hu2 & Hs2 & t2 & Hrow2).
  simpl in *. split; [|split].
  - intros Hb. eexists. unfold raw_professionals.
    apply elem_of_map_to_list, map_lookup_filter_Some.
    split; [exact Hrow1|]. unfold dashboard_filter. simpl.
    rewrite Hu1, Hs1, Huser, Hservice, Hb. done.
  - intros Hb service_id q prof' Hl.
    apply raw_professionals_eligible in Hl as (Hl & _ & Hb').
    rewrite Hrow1 in Hl. simplify_eq. simpl in Hb'. congruence.
  - intros service_id q prof' Hl.
    apply raw_professionals_eligible in Hl as (Hl & Hv & _).
    rewrite Hrow2 in Hl. by simplify_eq.
Qed.

(** X17.  A successful [review_service] on a request that was not yet
    CLOSED adds one to the completed-jobs count of its professional. *)
Theorem review_counts_job now u cid rid form d sr p :
  logged_in_customer d u cid →
  service_requests d !! rid = Some sr →
  ServiceRequests.customer_id sr = cid →
  ServiceRequests.service_status sr ≠ CLOSED →
  unreviewed d rid →
  ReviewForm.validate_on_submit form = true →
  1 ≤ ReviewForm.rating form ≤ 5 →
  ServiceRequests.professional_id sr = Some p →
  (foreign_keys = true →
   is_Some (service_professionals d !! p)
   ∧ is_Some (services d !! ServiceRequests.service_id sr)) →
  succeeded (review_service foreign_keys now u rid form d).1
  ∧ jobs_count (review_service foreign_keys now u rid form d).2 p
    = S (jobs_count d p).
Proof.
  intros Hin Hsr Hown Hst Hunrev Hvalid Hrating Hp Hfk.
  destruct (customer_required_pass d u cid Hin) as (c & Hc & _).
  assert (insert_review foreign_keys d (new_review now cid rid sr form)
          = Some (set_reviews
                    (<[next_id (reviews d)
                       := new_review now cid rid sr form]> (reviews d)) d))
    as Hi.
  { apply (insert_review_ok _ _ _ p); [done..|]. simpl. intros Hon.
    destruct (Hfk Hon). eauto. }
  destruct (review_service_succeeds foreign_keys now u cid rid form d sr _
              Hin Hsr Hown Hvalid Hi)
    as (sr' & -> & _ & Hst' & _ & _ & Hp').
  split; [done|]. unfold jobs_count. simpl.
  rewrite query_count_insert, (query_count_lookup _ _ rid sr Hsr). simpl.
  rewrite decide_True by (split; congruence).
  by rewrite decide_False by (by intros [_ ?]).
Qed.

Lemma customer_required_again u d
    (f : option (Z * Customers.t) → response * Db Float)
    (g : Db Float → option (Z * Customers.t) → response * Db Float) :
  (∀ c, users (f c).2 = users d
        ∧ customers (f c).2 = customers d
        ∧ g (f c).2 c = f c) →
  customer_required u (customer_required u d f).2
    (g (customer_required u d f).2)
  = customer_required u d f.
Proof.
  intros Hf. unfold customer_required.
  destruct (users d !! u) as [user|] eqn:Hu; simpl; [|by rewrite Hu].
  destruct (Users.is_active user) eqn:Hactive; simpl;
    [|by rewrite Hu, Hactive].
  destruct (decide (Users.role user ≠ "customer")) as [Hrole|Hrole]; simpl.
  { rewrite Hu, Hactive. simpl. by rewrite decide_True. }
  destruct (Users_customer d u) as [[i c]|] eqn:Hc.
  - destruct (Customers.admin_blocked c) eqn:Hb; simpl.
    + rewrite Hu, Hactive. simpl. rewrite decide_False by done.
      by rewrite Hc, Hb.
    + destruct (Hf (Some (i, c))) as (Hu' & Hc' & Heq).
      rewrite Hu', Hu, Hactive. simpl. rewrite decide_False by done.
      unfold Users_customer in *. rewrite Hc', Hc, Hb. exact Heq.
  - destruct (Hf None) as (Hu' & Hc' & Heq).
    rewrite Hu', Hu, Hactive. simpl. rewrite decide_False by done.
    unfold Users_customer in *. rewrite Hc', Hc. exact Heq.
Qed.

(** X18.  [update_service_request] is idempotent: submitted again on the
    database the first run left, the same form gets the same response and
    leaves the same database, as the flush finds no net change. *)
Theorem update_service_request_idempotent now1 now2 u rid form d :
  update_service_request foreign_keys now2 u rid form
    (update_service_request foreign_keys now1 u rid form d).2
  = update_service_request foreign_keys now1 u rid form d.
Proof.
  unfold update_service_request.
  match goal with
  | |- customer_required _ ?d1 ?G = customer_required _ _ ?F =>
    let G' := eval pattern d1 in G in
    match G' with
    | ?g _ => apply (customer_required_again u d F g)
    end
  end.
  intros customer. cbn beta.
  destruct (service_requests d !! rid) as [sr|] eqn:Hsr;
    [|simpl; by rewrite Hsr].
  destruct customer as [[cid c]|]; [|simpl; by rewrite Hsr].
  destruct (decide (ServiceRequests.customer_id sr ≠ cid)) as [Hown|Hown];
    simpl; [rewrite Hsr; by rewrite decide_True|].
  destruct (decide (ServiceRequests.service_status sr ≠ REQUESTED))
    as [Hst|Hst]; simpl.
  { rewrite Hsr. rewrite decide_False by done. by rewrite decide_True. }
  destruct (UpdateRequestForm.validate_on_submit form) eqn:Hvalid; simpl.
  2:{ rewrite Hsr. by rewrite !decide_False by done. }
  destruct (flush_service_request foreign_keys now1 d rid sr _)
    as [d'|] eqn:Hf; simpl.
  2:{ rewrite Hsr, !decide_False by done.
      assert (flush_service_request foreign_keys now2 d rid sr
                (ServiceRequests.set_proposed_price
                   (UpdateRequestForm.proposed_price form) sr) = None)
        as ->; [|done].
      unfold flush_service_request in *.
      destruct (decide (_ = sr)); [done|].
      by destruct (bool_decide _ || _). }
  apply flush_service_request_result in Hf as [[Heq ->]|(Hne & -> & _)].
  - rewrite Hsr, !decide_False by done.
    unfold flush_service_request. by rewrite decide_True.
  - simpl. rewrite lookup_insert_eq. simpl.
    rewrite !decide_False by done.
    unfold flush_service_request.
    by rewrite decide_True by (by destruct sr).
Qed.

Lemma book_service_sent now u cid pid form date_str date_obj d prof :
  logged_in_customer d u cid →
  service_professionals d !! pid = Some prof →
  BookingForm.validate_on_submit form = true →
  date_str ≫= strptime = Some date_obj →
  (∀ k r, service_requests d !! k = Some r →
          ServiceRequests.customer_id r = cid →
          ServiceRequests.professional_id r = Some pid →
          active (ServiceRequests.service_status r) = false) →
  (foreign_keys = true → is_Some (services d !! BookingForm.service_id form)) →
  book_service foreign_keys strptime now u pid form date_str d
  = (redirect [("Your service request has been sent!", "success")]
              "customer.service_history",
     set_service_requests
       (<[next_id (service_requests d)
          := new_request now cid pid form date_obj]> (service_requests d)) d).
Proof.
  intros Hin Hprof Hvalid Hdate Hnone Hfk. unfold book_service.
  destruct (customer_required_pass d u cid Hin) as (c & Hc & ->).
  rewrite Hprof, Hvalid, Hdate.
  destruct (query_first _ (service_requests d)) as [[k r]|] eqn:Hq.
  { apply query_first_Some in Hq as (Hk & H1 & H2 & H3). simpl in *.
    rewrite (Hnone k r Hk H1 H2) in H3. done. }
  fold (new_request now cid pid form date_obj).
  unfold insert_service_request, references. simpl.
  destruct foreign_keys; [|done]. simpl.
  rewrite !bool_decide_true; eauto.
Qed.

(** X19.  A request that [book_service] has sent shows up at once: the
    customer's [service_history] on the new database renders the earlier
    requests of the customer and the new one, and [admin_dashboard] lists
    the new one among the current requests, not among the rejected. *)
Theorem booking_round_trip now u a cid pid form date_str date_obj d prof :
  logged_in_customer d u cid →
  logged_in_admin d a →
  service_professionals d !! pid = Some prof →
  BookingForm.validate_on_submit form = true →
  date_str ≫= strptime = Some date_obj →
  (∀ k r, service_requests d !! k = Some r →
          ServiceRequests.customer_id r = cid →
          ServiceRequests.professional_id r = Some pid →
          active (ServiceRequests.service_status r) = false) →
  (foreign_keys = true → is_Some (services d !! BookingForm.service_id form)) →
  let d' := (book_service foreign_keys strptime now u pid form date_str d).2 in
  let booked :=
    (next_id (service_requests d), new_request now cid pid form date_obj) in
  (∃ rows,
     service_history u d'
     = render_template "customer/service_history.html" rows
     ∧ ∀ rid sr,
         (rid, sr) ∈ rows
         ↔ (rid, sr) = booked
           ∨ (service_requests d !! rid = Some sr
              ∧ ServiceRequests.customer_id sr = cid))
  ∧ ∃ context,
      admin_dashboard a d'
      = render_template "admin/admin_dashboard.html" context
      ∧ booked ∈ all_requests context
      ∧ booked ∉ rejected_requests context.
Proof.
  intros Hin Hadmin Hprof Hvalid Hdate Hnone Hfk.
  rewrite (book_service_sent now u cid pid form date_str date_obj d prof)
    by done.
  simpl. split.
  - match goal with
    | |- context [service_history u ?d1] =>
      assert (logged_in_customer d1 u cid) as Hin'
        by (by apply (logged_in_customer_frame d));
      destruct (customer_required_page_pass
                  (A:=list (Z * ServiceRequests.t Float)) d1 u cid Hin')
        as (c & _ & Hpass)
    end.
    eexists. split; [unfold service_history; by rewrite Hpass|].
    intros rid sr. rewrite elem_of_requests_of_customer. simpl.
    rewrite lookup_insert_Some. split.
    + intros [[[<- <-]|[_ Hk]] Hown]; [by left|by right].
    + intros [[= -> ->]|[Hk Hown]]; [by split; [left|]|].
      split; [|done]. right. split; [|done]. intros <-.
      by rewrite next_id_fresh in Hk.
  - unfold admin_dashboard. rewrite admin_required_page_pass by exact Hadmin.
    eexists. split; [done|]. simpl. split.
    + apply elem_of_filtered_rows. simpl. rewrite lookup_insert_eq.
      split; [done|]. unfold active_statuses. set_solver.
    + rewrite elem_of_filtered_rows. by intros [_ ?].
Qed.

Lemma book_service_succeeded now u pid form date_str d :
  succeeded (book_service foreign_keys strptime now u pid form date_str d).1 →
  ∃ cid date_obj,
    logged_in_customer d u cid
    ∧ is_Some (service_professionals d !! pid)
    ∧ date_str ≫= strptime = Some date_obj
    ∧ book_service foreign_keys strptime now u pid form date_str d
      = (redirect [("Your service request has been sent!", "success")]
                  "customer.service_history",
         set_service_requests
           (<[next_id (service_requests d)
              := new_request now cid pid form date_obj]>
              (service_requests d)) d).
Proof.
  unfold book_service.
  destruct (customer_required_cases d u) as [[cid Hin]|[->|Hout]].
  - destruct (customer_required_pass d u cid Hin) as (c & _ & ->).
    destruct (service_professionals d !! pid) as [prof|]; [|done].
    destruct (BookingForm.validate_on_submit form); [|done].
    destruct (date_str ≫= strptime) as [date_obj|]; [|done].
    destruct (query_first _ (service_requests d)); [done|].
    fold (new_request now cid pid form date_obj).
    destruct (insert_service_request _ _ _) as [d'|] eqn:Hi; [|done].
    apply insert_service_request_Some in Hi as [-> _]. intros _.
    exists cid, date_obj. by eauto.
  - destruct (service_professionals d !! pid); [|done].
    destruct (BookingForm.validate_on_submit form); [|done].
    by destruct (date_str ≫= strptime).
  - intros Hok. exfalso. eapply (λ f, proj2 (Hout f)). exact Hok.
Qed.

(** X20.  A customer cannot book the professional twice in a row: on the
    database that a successful booking left, any further valid booking of
    that customer with the same professional is turned down with the
    warning and writes nothing. *)
Theorem second_booking_refused now now' u pid form form' date_str date_str'
    date_obj' d :
  succeeded (book_service foreign_keys strptime now u pid form date_str d).1 →
  BookingForm.validate_on_submit form' = true →
  date_str' ≫= strptime = Some date_obj' →
  let d' := (book_service foreign_keys strptime now u pid form date_str d).2 in
  book_service foreign_keys strptime now' u pid form' date_str' d'
  = (redirect
       [("You already have an active request with this professional.",
         "warning")] "customer.customer_dashboard", d').
Proof.
  intros (cid & date_obj & Hin & [prof Hprof] & Hdate & ->)%book_service_succeeded
         Hvalid' Hdate'.
  simpl. unfold book_service.
  match goal with
  | |- customer_required u ?d1 _ = _ =>
    assert (logged_in_customer d1 u cid) as Hin'
      by (by apply (logged_in_customer_frame d));
    destruct (customer_required_pass d1 u cid Hin') as (c & _ & ->)
  end.
  simpl. rewrite Hprof, Hvalid', Hdate'.
  edestruct (query_first_found
               (λ kv : Z * ServiceRequests.t Float,
                  ServiceRequests.customer_id kv.2 = cid
                  ∧ ServiceRequests.professional_id kv.2 = Some pid
                  ∧ active (ServiceRequests.service_status kv.2) = true))
    as [x ->]; [apply lookup_insert_eq|done|done].
Qed.

(** X21.  For an administrator, an existing service and a valid form, on
    a catalogue with distinct names [update_service] succeeds exactly
    when no other service has the submitted name.  It then writes the
    three fields of the form to that service, keeping its image and its
    creation time and every other service; when it fails it writes
    nothing. *)
Theorem update_service_rename now u id form d s :
  logged_in_admin d u →
  service_types_unique d →
  services d !! id = Some s →
  UpdateServiceForm.validate_on_submit form = true →
  (succeeded (update_service now u id form d).1
   ↔ ∀ k x, k ≠ id → services d !! k = Some x →
            Services.service_type x ≠ UpdateServiceForm.service_type form)
  ∧ (¬ succeeded (update_service now u id form d).1 →
     (update_service now u id form d).2 = d)
  ∧ (succeeded (update_service now u id form d).1 →
     (∀ k, k ≠ id →
           services (update_service now u id form d).2 !! k
           = services d !! k)
     ∧ ∃ s',
         services (update_service now u id form d).2 !! id = Some s'
         ∧ Services.service_type s' = UpdateServiceForm.service_type form
         ∧ Services.base_price s' = UpdateServiceForm.base_price form
         ∧ Services.description s' = UpdateServiceForm.description form
         ∧ Services.image_url s' = Services.image_url s
         ∧ Services.created_at s' = Services.created_at s).
Proof.
  intros Hin Huniq Hs Hvalid. unfold update_service.
  rewrite (admin_required_pass d u _ Hin), Hs, Hvalid.
  assert (Services.service_type s = UpdateServiceForm.service_type form →
          ∀ k x, k ≠ id → services d !! k = Some x →
                 Services.service_type x
                 ≠ UpdateServiceForm.service_type form) as Hsame.
  { intros Ht k x Hne Hk Hx. apply Hne. apply (Huniq k id x s Hk Hs).
    congruence. }
  unfold flush_service. destruct (decide (_ = s)) as [Heq|Hne]; simpl.
  { assert (Services.service_type s = UpdateServiceForm.service_type form)
      as Ht by (by rewrite <- Heq).
    split; [split; [intros _; by apply Hsame|done]|].
    split; [by intros []|]. intros _. split; [done|].
    exists s. split; [done|]. rewrite <- Heq. done. }
  destruct (bool_decide (UpdateServiceForm.service_type form
                         = Services.service_type s)) eqn:E1; simpl.
  { apply bool_decide_eq_true in E1.
    split; [split; [intros _; by apply Hsame|done]|].
    split; [by intros []|]. intros _.
    split; [intros k Hk; by apply lookup_insert_ne|].
    eexists. split; [apply lookup_insert_eq|]. done. }
  apply bool_decide_eq_false in E1.
  destruct (service_type_free d (UpdateServiceForm.service_type form))
    eqn:E2; simpl.
  - rewrite service_type_free_spec in E2.
    split; [split; [intros _ k x _ Hk; by apply (E2 k x)|done]|].
    split; [by intros []|]. intros _.
    split; [intros k Hk; by apply lookup_insert_ne|].
    eexists. split; [apply lookup_insert_eq|]. done.
  - split; [split; [by intros ?|]|].
    { intros Hfree. exfalso.
      assert (service_type_free d (UpdateServiceForm.service_type form)
              = true) as E3; [|congruence].
      apply service_type_free_spec. intros k x Hk Hx.
      destruct (decide (k = id)) as [->|Hkid]; [|by apply (Hfree k x)].
      rewrite Hs in Hk. by simplify_eq. }
    split; [done|]. by intros ?.
Qed.

End compositions.

(** ** The further statements at work in the sample marketplace *)

Lemma sample_db_closed_reviewed : closed_reviewed sample_db.
Proof.
  intros i x Hi Hst Hun.
  change (service_requests sample_db) with sample_requests in Hi.
  unfold sample_requests in Hi.
  table_rows Hi; try (by destruct Hst).
  by apply (Hun 1 (Reviews.Build 1 (Some 1) 1 3 5 (Some "great") 20 20)).
Defined.

Lemma sample_db_reviews_consistent : reviews_consistent sample_db.
Proof.
  split; [|split].
  - intros i j x y Hi Hj _.
    change (reviews sample_db) with
      (<[1 := Reviews.Build 1 (Some 1) 1 3 5 (Some "great") 20 20]>
         (∅ : gmap Z Reviews.t)) in Hi, Hj.
    table_rows Hi. table_rows Hj. done.
  - intros i x Hi.
    change (reviews sample_db) with
      (<[1 := Reviews.Build 1 (Some 1) 1 3 5 (Some "great") 20 20]>
         (∅ : gmap Z Reviews.t)) in Hi.
    table_rows Hi. simpl. lia.
  - intros i x Hi.
    change (reviews sample_db) with
      (<[1 := Reviews.Build 1 (Some 1) 1 3 5 (Some "great") 20 20]>
         (∅ : gmap Z Reviews.t)) in Hi.
    table_rows Hi. by exists (sample_request 1 CLOSED (Some 20)).
Defined.

Lemma sample_db_well_referenced : well_referenced true sample_db.
Proof.
  intros i x Hi.
  change (service_requests sample_db) with sample_requests in Hi.
  unfold sample_requests in Hi.
  table_rows Hi; eexists; (split; [reflexivity|]); intros _;
    split; eexists; reflexivity.
Defined.

Lemma sample_db_service_types_unique : service_types_unique sample_db.
Proof.
  intros i j x y Hi Hj _.
  change (services sample_db) with
    (<[1 := Services.Build Z "Plumbing" None 400 None 0 0]>
       (∅ : gmap Z (Services.t Z))) in Hi, Hj.
  table_rows Hi. table_rows Hj. done.
Defined.

Lemma sample_db_customers_user_unique : customers_user_unique sample_db.
Proof.
  intros i j x y Hi Hj _.
  change (customers sample_db) with
    (<[1 := Customers.Build 2 false 0 0]> (∅ : gmap Z Customers.t))
    in Hi, Hj.
  table_rows Hi. table_rows Hj. done.
Defined.

Lemma request_lifecycle_witness :
  service_requests sample_db !! 3 = Some (sample_request 1 CLOSED (Some 20))
  ∧ ∃ sr',
      service_requests
        (handle true sample_strptime 60 2 (POST_process_payment 3)
           sample_db).2 !! 3 = Some sr'
      ∧ ServiceRequests.customer_id sr' = 1
      ∧ ServiceRequests.date_of_request sr' = 10.
Proof.
  split; [reflexivity|].
  destruct (request_lifecycle true sample_strptime 60 2
              (POST_process_payment 3) sample_db 3
              (sample_request 1 CLOSED (Some 20)) eq_refl)
    as (sr' & Hsr' & Hc & _ & Hd & _).
  exists sr'. split; [exact Hsr'|]. split; [exact Hc|exact Hd].
Defined.

Lemma paid_is_final_witness :
  closed_reviewed sample_db
  ∧ closed_reviewed
      (handle true sample_strptime 60 2 (POST_process_payment 3)
         sample_db).2.
Proof.
  split; [exact sample_db_closed_reviewed|].
  apply (paid_is_final true sample_strptime 60 2 (POST_process_payment 3)
           sample_db sample_db_closed_reviewed).
Defined.

Lemma reviews_write_once_witness :
  reviews_consistent sample_db
  ∧ reviews_consistent
      (handle true sample_strptime 60 2
         (POST_review_service 2 (ReviewForm.Build true 4 None))
         sample_db).2.
Proof.
  split; [exact sample_db_reviews_consistent|].
  apply (reviews_write_once true sample_strptime 60 2
           (POST_review_service 2 (ReviewForm.Build true 4 None))
           sample_db).
  exact sample_db_reviews_consistent.
Defined.

Lemma unique_active_kept_witness :
  unique_active sample_db
  ∧ unique_active
      (handle true sample_strptime 60 2
         (POST_book_service 3 (BookingForm.Build true 1 (Some 450))
            (Some "2024-01-01")) sample_db).2.
Proof.
  split; [exact sample_db_unique_active|].
  apply (unique_active_kept true sample_strptime 60 2
           (POST_book_service 3 (BookingForm.Build true 1 (Some 450))
              (Some "2024-01-01")) sample_db).
  - intros rid p. discriminate.
  - exact sample_db_unique_active.
Defined.

Lemma well_referenced_kept_witness :
  well_referenced true sample_db
  ∧ well_referenced true
      (handle true sample_strptime 60 1
         (POST_reassign_professional 1 (Some 3)) sample_db).2.
Proof.
  split; [exact sample_db_well_referenced|].
  apply (well_referenced_kept true sample_strptime 60 1
           (POST_reassign_professional 1 (Some 3)) sample_db
           sample_db_well_referenced).
Defined.

Lemma service_types_unique_kept_witness :
  service_types_unique sample_db
  ∧ service_types_unique
      (handle true sample_strptime 60 1
         (POST_create_service
            (CreateServiceForm.Build true "Carpentry" 300 None []))
         sample_db).2.
Proof.
  split; [exact sample_db_service_types_unique|].
  apply (service_types_unique_kept true sample_strptime 60 1
           (POST_create_service
              (CreateServiceForm.Build true "Carpentry" 300 None []))
           sample_db sample_db_service_types_unique).
Defined.

Lemma failure_leaves_database_witness :
  ¬ succeeded
      (handle true sample_strptime 60 2 (POST_process_payment 2)
         sample_db).1
  ∧ (handle true sample_strptime 60 2 (POST_process_payment 2) sample_db).2
    = sample_db.
Proof.
  assert (¬ succeeded
              (handle true sample_strptime 60 2 (POST_process_payment 2)
                 sample_db).1) as Hfail by (by vm_compute).
  split; [exact Hfail|].
  exact (failure_leaves_database true sample_strptime 60 2
           (POST_process_payment 2) sample_db Hfail).
Defined.

Lemma service_history_lists_witness :
  logged_in_customer sample_db 2 1
  ∧ ∃ rows,
      service_history 2 sample_db
      = render_template "customer/service_history.html" rows
      ∧ ((2, sample_request 2 REQUESTED None) ∈ rows)
      ∧ NoDup rows.
Proof.
  split; [exact sample_customer|].
  destruct (service_history_lists 2 1 sample_db sample_customer)
    as (rows & Hpage & Hrows & Hnodup & _).
  exists rows. split; [exact Hpage|]. split; [|exact Hnodup].
  apply Hrows. split; reflexivity.
Defined.

Lemma show_payment_form_agrees_witness :
  ∃ context,
    show_payment_form 2 3 sample_db
    = render_template "customer/payment.html" context.
Proof.
  apply (proj1 (show_payment_form_agrees true 60 2 3 sample_db)).
  by vm_compute.
Defined.

Lemma customer_profile_access_witness :
  users sample_db !! 2 = Some (sample_user "asha" "customer")
  ∧ customers sample_db !! 1 = Some (Customers.Build 2 false 0 0)
  ∧ (∃ rows,
       customer_bp.customer_profile 2 1 sample_db
       = render_template "customer/customer_profile.html"
           ((1, Customers.Build 2 false 0 0), rows)
       ∧ (2, sample_request 2 REQUESTED None) ∈ rows)
  ∧ customer_bp.customer_profile 3 1 sample_db = respond (abort 403).
Proof.
  do 2 (split; [reflexivity|]). split.
  - destruct (customer_profile_access 2 1 sample_db
                (sample_user "asha" "customer") (Customers.Build 2 false 0 0)
                eq_refl eq_refl eq_refl) as (Hshown & _).
    destruct Hshown as (rows & Hpage & Hrows & _); [by right|].
    exists rows. split; [exact Hpage|]. apply Hrows. split; reflexivity.
  - destruct (customer_profile_access 3 1 sample_db
                (sample_user "ravi" "professional")
                (Customers.Build 2 false 0 0) eq_refl eq_refl eq_refl)
      as (_ & Hrefused & _).
    by apply Hrefused.
Defined.

Lemma admin_dashboard_lists_witness :
  logged_in_admin sample_db 1
  ∧ ∃ context,
      admin_dashboard 1 sample_db
      = render_template "admin/admin_dashboard.html" context
      ∧ ((1, sample_request 1 REJECTED None) ∈ rejected_requests context)
      ∧ ((2, sample_request 2 REQUESTED None) ∈ all_requests context).
Proof.
  split; [exact sample_admin|].
  destruct (admin_dashboard_lists 1 sample_db sample_admin)
    as (context & Hpage & Hrequests & _).
  exists context. split; [exact Hpage|]. split.
  - by apply (Hrequests 1 (sample_request 1 REJECTED None)).
  - by apply (Hrequests 2 (sample_request 2 REQUESTED None)).
Defined.

Lemma admin_chart_data_totals_witness :
  logged_in_admin sample_db 1
  ∧ ∃ body,
      admin_chart_data 1 sample_db = jsonify body 200
      ∧ sum_list (data (requests_by_status body)) = 3%nat
      ∧ sum_list (data (ratings_distribution body)) = 1%nat.
Proof.
  split; [exact sample_admin|].
  destruct (admin_chart_data_totals 1 sample_db sample_admin)
    as (body & Hpage & Hrequests & Hreviews & _).
  exists body. split; [exact Hpage|].
  split; [by rewrite Hrequests|by rewrite Hreviews].
Defined.

Lemma delete_service_guard_witness :
  logged_in_admin sample_db 1
  ∧ services sample_db !! 1
    = Some (Services.Build Z "Plumbing" None 400 None 0 0)
  ∧ ¬ succeeded (delete_service 1 1 sample_db).1
  ∧ (delete_service 1 1 sample_db).2 = sample_db.
Proof.
  split; [exact sample_admin|]. split; [reflexivity|].
  destruct (delete_service_guard 1 1 sample_db
              (Services.Build Z "Plumbing" None 400 None 0 0)
              sample_admin eq_refl)
    as (Hiff & _ & Hkeep & _).
  assert (¬ succeeded (delete_service 1 1 sample_db).1) as Hfail.
  { intros Hok. apply Hiff in Hok as (Hnone & _).
    by apply (Hnone 1 (sample_professional 3 true false)). }
  split; [exact Hfail|]. by apply Hkeep.
Defined.

Lemma create_service_catalogue_witness :
  logged_in_admin sample_db 1
  ∧ create_service 60 1
      (CreateServiceForm.Build true "Plumbing" 300 None []) sample_db
    = (redirect [("An error occurred while creating the service.", "danger")]
                "admin.admin_dashboard", sample_db)
  ∧ succeeded
      (create_service 60 1
         (CreateServiceForm.Build true "Carpentry" 300 None [])
         sample_db).1.
Proof.
  split; [exact sample_admin|]. split.
  - apply (create_service_catalogue 60 1
             (CreateServiceForm.Build true "Plumbing" 300 None [])
             sample_db sample_admin); [reflexivity|].
    exists 1, (Services.Build Z "Plumbing" None 400 None 0 0).
    split; reflexivity.
  - destruct (create_service_catalogue 60 1
                (CreateServiceForm.Build true "Carpentry" 300 None [])
                sample_db sample_admin)
      as (_ & Hnew & _).
    destruct Hnew as (new & -> & _); [reflexivity| |done].
    intros k x Hk.
    change (services sample_db) with
      (<[1 := Services.Build Z "Plumbing" None 400 None 0 0]>
         (∅ : gmap Z (Services.t Z))) in Hk.
    table_rows Hk. done.
Defined.

Lemma block_locks_out_witness :
  logged_in_admin sample_db 1
  ∧ customers_user_unique sample_db
  ∧ service_history 2 (toggle_user_block 60 1 2 (Some "block") sample_db).2
    = respond
        (logout_redirect
           [("Your account has been suspended by an administrator.",
             "danger")] "auth.login")
  ∧ logged_in_customer
      (toggle_user_block 70 1 2 (Some "unblock")
         (toggle_user_block 60 1 2 (Some "block") sample_db).2).2 2 1.
Proof.
  split; [exact sample_admin|].
  split; [exact sample_db_customers_user_unique|].
  pose proof (block_locks_out true sample_strptime 60 1 2 sample_db
                (sample_user "asha" "customer") 1
                (Customers.Build 2 false 0 0) sample_admin eq_refl eq_refl
                eq_refl eq_refl eq_refl sample_db_customers_user_unique)
    as Hlock.
  cbv zeta in Hlock. destruct Hlock as (_ & _ & Hhistory & Hagain).
  split; [exact Hhistory|]. by apply Hagain.
Defined.

Lemma approval_lists_witness :
  logged_in_admin sample_db 1
  ∧ service_professionals sample_db !! 1
    = Some (sample_professional 3 true false)
  ∧ (∃ prof',
       (1, prof')
       ∈ raw_professionals sample_ilike
           (approve_professional 60 1 1 sample_db).2 None "")
  ∧ ∀ prof',
      (1, prof')
      ∉ raw_professionals sample_ilike
          (reject_professional 60 1 1 sample_db).2 None "".
Proof.
  split; [exact sample_admin|]. split; [reflexivity|].
  destruct (approval_lists sample_ilike 60 1 1 sample_db
              (sample_professional 3 true false)
              (sample_user "ravi" "professional")
              (Services.Build Z "Plumbing" None 400 None 0 0)
              sample_admin eq_refl eq_refl eq_refl)
    as (Happrove & _ & Hreject).
  split; [by apply Happrove|]. intros prof'. apply Hreject.
Defined.

Lemma review_counts_job_witness :
  logged_in_customer sample_db 2 1
  ∧ unreviewed sample_db 2
  ∧ jobs_count sample_db 2 = 0%nat
  ∧ jobs_count
      (review_service true 60 2 2 (ReviewForm.Build true 4 None)
         sample_db).2 2
    = 1%nat.
Proof.
  split; [exact sample_customer|]. split; [exact sample_unreviewed|].
  assert (jobs_count sample_db 2 = 0%nat) as Hzero by (by vm_compute).
  split; [exact Hzero|].
  destruct (review_counts_job true 60 2 1 2 (ReviewForm.Build true 4 None)
              sample_db (sample_request 2 REQUESTED None) 2
              sample_customer eq_refl eq_refl)
    as (_ & ->);
    [done|exact sample_unreviewed|reflexivity|simpl; lia|reflexivity
    |intros _; split; eexists; reflexivity|by rewrite Hzero].
Defined.

Lemma update_service_request_idempotent_witness :
  update_service_request true 70 2 2
    (UpdateRequestForm.Build true (Some 650))
    (update_service_request true 60 2 2
       (UpdateRequestForm.Build true (Some 650)) sample_db).2
  = update_service_request true 60 2 2
      (UpdateRequestForm.Build true (Some 650)) sample_db
  ∧ succeeded
      (update_service_request true 60 2 2
         (UpdateRequestForm.Build true (Some 650)) sample_db).1.
Proof.
  split; [|by vm_compute].
  exact (update_service_request_idempotent true 60 70 2 2
           (UpdateRequestForm.Build true (Some 650)) sample_db).
Defined.

Lemma booking_round_trip_witness :
  logged_in_customer sample_db 2 1
  ∧ logged_in_admin sample_db 1
  ∧ ∃ context,
      admin_dashboard 1
        (book_service true sample_strptime 60 2 3
           (BookingForm.Build true 1 (Some 450)) (Some "2024-01-01")
           sample_db).2
      = render_template "admin/admin_dashboard.html" context
      ∧ (next_id (service_requests sample_db),
         new_request 60 1 3 (BookingForm.Build true 1 (Some 450)) 1704067200)
        ∈ all_requests context.
Proof.
  split; [exact sample_customer|]. split; [exact sample_admin|].
  pose proof (booking_round_trip true sample_strptime 60 2 1 1 3
                (BookingForm.Build true 1 (Some 450)) (Some "2024-01-01")
                1704067200 sample_db (sample_professional 5 false true)
                sample_customer sample_admin eq_refl eq_refl eq_refl
                sample_no_request_with_3) as Hbooked.
  cbv zeta in Hbooked.
  destruct Hbooked as (_ & context & Hpage & Hnew & _).
  { intros _. eexists; reflexivity. }
  exists context. split; [exact Hpage|exact Hnew].
Defined.

Lemma second_booking_refused_witness :
  succeeded
    (book_service true sample_strptime 60 2 3
       (BookingForm.Build true 1 (Some 450)) (Some "2024-01-01")
       sample_db).1
  ∧ book_service true sample_strptime 70 2 3
      (BookingForm.Build true 1 (Some 700)) (Some "2024-01-01")
      (book_service true sample_strptime 60 2 3
         (BookingForm.Build true 1 (Some 450)) (Some "2024-01-01")
         sample_db).2
    = (redirect
         [("You already have an active request with this professional.",
           "warning")] "customer.customer_dashboard",
       (book_service true sample_strptime 60 2 3
          (BookingForm.Build true 1 (Some 450)) (Some "2024-01-01")
          sample_db).2).
Proof.
  assert (succeeded
            (book_service true sample_strptime 60 2 3
               (BookingForm.Build true 1 (Some 450)) (Some "2024-01-01")
               sample_db).1) as Hsent by (by vm_compute).
  split; [exact Hsent|].
  apply (second_booking_refused true sample_strptime 60 70 2 3
           (BookingForm.Build true 1 (Some 450))
           (BookingForm.Build true 1 (Some 700))
           (Some "2024-01-01") (Some "2024-01-01") 1704067200
           sample_db Hsent); reflexivity.
Defined.

Lemma update_service_rename_witness :
  logged_in_admin sample_db 1
  ∧ service_types_unique sample_db
  ∧ succeeded
      (update_service 60 1 1
         (UpdateServiceForm.Build true "Plumbing and drains" 450 None [])
         sample_db).1.
Proof.
  split; [exact sample_admin|].
  split; [exact sample_db_service_types_unique|].
  apply (update_service_rename 60 1 1
           (UpdateServiceForm.Build true "Plumbing and drains" 450 None [])
           sample_db (Services.Build Z "Plumbing" None 400 None 0 0)
           sample_admin sample_db_service_types_unique eq_refl eq_refl).
  intros k x Hne Hk.
  change (services sample_db) with
    (<[1 := Services.Build Z "Plumbing" None 400 None 0 0]>
       (∅ : gmap Z (Services.t Z))) in Hk.
  table_rows Hk. done.
Defined.
